(** * BookBridge: the book-request lifecycle of the dashboard components

    A shallow embedding of the handlers of
    [src/components/dashboard/{BooksList,MyRequests,ContactExchange,Notifications}.tsx]
    (both the earlier "base" revisions and the later "extended" ones) over an
    explicit model of the backing store they talk to, followed by the
    properties of the request lifecycle.

    The handlers are [async] functions wrapped in [try]/[catch]/[finally];
    they are written here in a small reader/state/exception monad [Js] whose
    state is the store, the toasts shown so far, the console and the React
    state of the components. *)

From Stdlib Require Import String Ascii List Bool Arith Lia.
From stdpp Require Import base gmap sets list strings.

Open Scope string_scope.
Import ListNotations.

(** ** Strings *)

(** The double quote character that the template literals contain. *)
Definition dq : string := String (ascii_of_nat 34) EmptyString.

(** NO-BREAK SPACE (U+00A0), in UTF-8. *)
Definition nbsp : string :=
  String (ascii_of_nat 194) (String (ascii_of_nat 160) EmptyString).

(** A JavaScript string is held as its UTF-8 bytes.

    The code points that [String.prototype.trim] strips, each as its UTF-8
    bytes: the WhiteSpace and LineTerminator of ECMAScript, that is TAB, LF,
    VT, FF, CR, SPACE, NO-BREAK SPACE (U+00A0), the other space separators
    of Unicode (U+1680, U+2000 to U+200A, U+202F, U+205F, U+3000), LINE and
    PARAGRAPH SEPARATOR (U+2028, U+2029) and the byte order mark (U+FEFF). *)
Definition white_space : list (list nat) :=
  [[9]; [10]; [11]; [12]; [13]; [32];
   [194; 160];
   [225; 154; 128];
   [226; 128; 128]; [226; 128; 129]; [226; 128; 130]; [226; 128; 131];
   [226; 128; 132]; [226; 128; 133]; [226; 128; 134]; [226; 128; 135];
   [226; 128; 136]; [226; 128; 137]; [226; 128; 138];
   [226; 128; 168]; [226; 128; 169]; [226; 128; 175];
   [226; 129; 159];
   [227; 128; 128];
   [239; 187; 191]].

(** What is left of [l] after the bytes [p], when [l] starts with them. *)
Fixpoint strip_prefix (p : list nat) (l : list ascii) : option (list ascii) :=
  match p, l with
  | [], _ => Some l
  | n :: p', c :: l' =>
      if Nat.eqb (nat_of_ascii c) n then strip_prefix p' l' else None
  | _ :: _, [] => None
  end.

(** What is left of [l] after one of the byte sequences [codes] at its
    front, when there is one. *)
Fixpoint strip_space (codes : list (list nat)) (l : list ascii)
  : option (list ascii) :=
  match codes with
  | [] => None
  | p :: codes' =>
      match strip_prefix p l with
      | Some r => Some r
      | None => strip_space codes' l
      end
  end.

(** Strips the sequences [codes] off the front as long as there is one; a
    step removes at least one byte, so the length of the list is fuel
    enough. *)
Fixpoint strip_spaces (codes : list (list nat)) (fuel : nat) (l : list ascii)
  : list ascii :=
  match fuel with
  | 0 => l
  | S fuel' =>
      match strip_space codes l with
      | Some l' => strip_spaces codes fuel' l'
      | None => l
      end
  end.

Definition trim_start (s : string) : string :=
  let l := list_ascii_of_string s in
  string_of_list_ascii (strip_spaces white_space (length l) l).

(** The trailing white space is the leading white space of the reversed
    bytes, each code point read backwards. *)
Definition trim_end (s : string) : string :=
  let l := rev (list_ascii_of_string s) in
  string_of_list_ascii
    (rev (strip_spaces (List.map (@rev nat) white_space) (length l) l)).

Definition trim (s : string) : string := trim_end (trim_start s).

(** JavaScript truthiness of a string and of a nullable string. *)
Definition truthy (s : string) : bool :=
  match s with EmptyString => false | _ => true end.

Definition truthy_opt (o : option string) : bool :=
  match o with Some s => truthy s | None => false end.

(** ** Data model: the rows of the four tables *)

Module User.
Record t := { id : string }.
End User.

Module Book.
Record t := {
  id : string; title : string; author : string; description : string;
  coverurl : string; status : string; isfeatured : bool; donorid : string;
  category : string; condition : string }.
End Book.

Module BookRequest.
Record t := {
  id : string; book_id : string; requester_id : string; donor_id : string;
  message : string; status : string; created_at : string;
  updated_at : string }.

Definition with_status (s : string) (r : t) : t :=
  {| id := id r; book_id := book_id r; requester_id := requester_id r;
     donor_id := donor_id r; message := message r; status := s;
     created_at := created_at r; updated_at := updated_at r |}.

Definition with_updated_at (u : string) (r : t) : t :=
  {| id := id r; book_id := book_id r; requester_id := requester_id r;
     donor_id := donor_id r; message := message r; status := status r;
     created_at := created_at r; updated_at := u |}.
End BookRequest.

Module Exchange.
Record t := {
  id : string; request_id : string;
  donor_phone : option string; donor_address : option string;
  requester_phone : option string; requester_address : option string }.
End Exchange.

Module Notification.
Record t := {
  id : string; userid : string; type : string; title : string;
  message : string; read : bool; createdat : string }.

Definition with_read (b : bool) (n : t) : t :=
  {| id := id n; userid := userid n; type := type n; title := title n;
     message := message n; read := b; createdat := createdat n |}.
End Notification.

(** The request rows as [fetchRequests] receives them: [select *] joined
    with [books (title, author)]. *)
Record BookInfo := { bi_title : string; bi_author : string }.

Record RequestView := { rv_row : BookRequest.t; rv_books : option BookInfo }.

(** ** The store, the toasts and the React state *)

Record Store := {
  books : list Book.t;
  book_requests : list BookRequest.t;
  contact_exchanges : list Exchange.t;
  notifications : list Notification.t }.

Inductive Variant := Default | Destructive.

Record Toast := { toast_title : string; toast_description : string;
                  toast_variant : Variant }.

(** React state of the components ([useState] cells). *)
Record Client := {
  requestingBooks : gset string;
  processingRequests : gset string;
  sentRequests : list RequestView;
  receivedRequests : list RequestView;
  contactExchanges : gmap string Exchange.t;
  loading : bool;
  sharing : bool;
  notificationList : list Notification.t }.

Record World := {
  db : Store;
  calls : nat;
  toasts : list Toast;
  console : list string;
  client : Client }.

(** What a call to the store does: it resolves with a result, resolves with
    an error in the [error] field, or the promise rejects. *)
Inductive Outcome := Succeeds | ReturnsError | Rejects.

Inductive StoreCall :=
| CallSelect (table : string)
| CallInsert (table : string)
| CallUpdate (table : string)
| CallRpc (fn : string).

Inductive Err :=
| PgError (c : StoreCall)
| NotSingleRow
| Rejected (c : StoreCall).

(** The environment of a run: the outcome of the [n]-th store call, the row
    ids and timestamps the database generates, and the browser's clock. *)
Record Env := {
  outcome : nat -> StoreCall -> Outcome;
  gen_id : nat -> string;
  server_now : nat -> string;
  client_now : string }.

(** ** The monad of the handlers *)

Inductive Completion (A : Type) :=
| Normal (a : A)
| Throw (e : Err).
Arguments Normal {A} a.
Arguments Throw {A} e.

Definition Js (A : Type) : Type := Env -> World -> Completion A * World.

Definition ret {A} (a : A) : Js A := fun _ w => (Normal a, w).

Definition bind {A B} (m : Js A) (k : A -> Js B) : Js B :=
  fun env w =>
    match m env w with
    | (Normal a, w') => k a env w'
    | (Throw e, w') => (Throw e, w')
    end.

Definition throw {A} (e : Err) : Js A := fun _ w => (Throw e, w).

Definition try_catch {A} (body : Js A) (handler : Err -> Js A) : Js A :=
  fun env w =>
    match body env w with
    | (Normal a, w') => (Normal a, w')
    | (Throw e, w') => handler e env w'
    end.

(** [try { body } finally { fin }]: [fin] runs on both exits and the
    completion of [body] is kept. *)
Definition try_finally {A} (body : Js A) (fin : Js unit) : Js A :=
  fun env w =>
    match body env w with
    | (c, w') =>
        match fin env w' with
        | (Normal _, w'') => (c, w'')
        | (Throw e, w'') => (Throw e, w'')
        end
    end.

Declare Scope js_scope.
Delimit Scope js_scope with js.
Notation "'let*' x ':=' m 'in' k" := (bind m (fun x => k))
  (at level 10, x name, m at level 100, k at level 200) : js_scope.
Notation "'run' m 'in' k" := (bind m (fun _ => k))
  (at level 10, m at level 100, k at level 200) : js_scope.
Open Scope js_scope.

Definition ask : Js Env := fun env w => (Normal env, w).
Definition get : Js World := fun _ w => (Normal w, w).
Definition modify (f : World -> World) : Js unit := fun _ w => (Normal tt, f w).

(** ** World updates *)

Definition set_db (f : Store -> Store) (w : World) : World :=
  {| db := f (db w); calls := calls w; toasts := toasts w;
     console := console w; client := client w |}.

Definition tick (w : World) : World :=
  {| db := db w; calls := S (calls w); toasts := toasts w;
     console := console w; client := client w |}.

Definition add_toast (t : Toast) (w : World) : World :=
  {| db := db w; calls := calls w; toasts := toasts w ++ [t];
     console := console w; client := client w |}.

Definition add_console (s : string) (w : World) : World :=
  {| db := db w; calls := calls w; toasts := toasts w;
     console := console w ++ [s]; client := client w |}.

Definition set_client (f : Client -> Client) (w : World) : World :=
  {| db := db w; calls := calls w; toasts := toasts w;
     console := console w; client := f (client w) |}.

Definition toast (t : Toast) : Js unit := modify (add_toast t).

Definition console_error (s : string) : Js unit := modify (add_console s).

Definition setRequestingBooks (f : gset string -> gset string) : Js unit :=
  modify (set_client (fun c =>
    {| requestingBooks := f (requestingBooks c);
       processingRequests := processingRequests c;
       sentRequests := sentRequests c; receivedRequests := receivedRequests c;
       contactExchanges := contactExchanges c; loading := loading c;
       sharing := sharing c; notificationList := notificationList c |})).

Definition setProcessingRequests (f : gset string -> gset string) : Js unit :=
  modify (set_client (fun c =>
    {| requestingBooks := requestingBooks c;
       processingRequests := f (processingRequests c);
       sentRequests := sentRequests c; receivedRequests := receivedRequests c;
       contactExchanges := contactExchanges c; loading := loading c;
       sharing := sharing c; notificationList := notificationList c |})).

Definition setSentRequests (l : list RequestView) : Js unit :=
  modify (set_client (fun c =>
    {| requestingBooks := requestingBooks c;
       processingRequests := processingRequests c;
       sentRequests := l; receivedRequests := receivedRequests c;
       contactExchanges := contactExchanges c; loading := loading c;
       sharing := sharing c; notificationList := notificationList c |})).

Definition setReceivedRequests (l : list RequestView) : Js unit :=
  modify (set_client (fun c =>
    {| requestingBooks := requestingBooks c;
       processingRequests := processingRequests c;
       sentRequests := sentRequests c; receivedRequests := l;
       contactExchanges := contactExchanges c; loading := loading c;
       sharing := sharing c; notificationList := notificationList c |})).

Definition setContactExchanges (m : gmap string Exchange.t) : Js unit :=
  modify (set_client (fun c =>
    {| requestingBooks := requestingBooks c;
       processingRequests := processingRequests c;
       sentRequests := sentRequests c; receivedRequests := receivedRequests c;
       contactExchanges := m; loading := loading c;
       sharing := sharing c; notificationList := notificationList c |})).

Definition setLoading (b : bool) : Js unit :=
  modify (set_client (fun c =>
    {| requestingBooks := requestingBooks c;
       processingRequests := processingRequests c;
       sentRequests := sentRequests c; receivedRequests := receivedRequests c;
       contactExchanges := contactExchanges c; loading := b;
       sharing := sharing c; notificationList := notificationList c |})).

Definition setSharing (b : bool) : Js unit :=
  modify (set_client (fun c =>
    {| requestingBooks := requestingBooks c;
       processingRequests := processingRequests c;
       sentRequests := sentRequests c; receivedRequests := receivedRequests c;
       contactExchanges := contactExchanges c; loading := loading c;
       sharing := b; notificationList := notificationList c |})).

Definition setNotifications (l : list Notification.t) : Js unit :=
  modify (set_client (fun c =>
    {| requestingBooks := requestingBooks c;
       processingRequests := processingRequests c;
       sentRequests := sentRequests c; receivedRequests := receivedRequests c;
       contactExchanges := contactExchanges c; loading := loading c;
       sharing := sharing c; notificationList := l |})).

(** ** The store client

    [supabase.from(table)] followed by [select]/[insert]/[update] and
    filters.  A call that does not succeed leaves the table as it was; a call
    that succeeds acts on the rows the filters select. *)

Record Table (R : Type) := {
  tname : string;
  rows : Store -> list R;
  set_rows : list R -> Store -> Store }.
Arguments tname {R} _.
Arguments rows {R} _ _.
Arguments set_rows {R} _ _ _.

Definition books_table : Table Book.t :=
  {| tname := "books"; rows := books;
     set_rows := fun l s =>
       {| books := l; book_requests := book_requests s;
          contact_exchanges := contact_exchanges s;
          notifications := notifications s |} |}.

Definition book_requests_table : Table BookRequest.t :=
  {| tname := "book_requests"; rows := book_requests;
     set_rows := fun l s =>
       {| books := books s; book_requests := l;
          contact_exchanges := contact_exchanges s;
          notifications := notifications s |} |}.

Definition contact_exchanges_table : Table Exchange.t :=
  {| tname := "contact_exchanges"; rows := contact_exchanges;
     set_rows := fun l s =>
       {| books := books s; book_requests := book_requests s;
          contact_exchanges := l; notifications := notifications s |} |}.

Definition notifications_table : Table Notification.t :=
  {| tname := "notifications"; rows := notifications;
     set_rows := fun l s =>
       {| books := books s; book_requests := book_requests s;
          contact_exchanges := contact_exchanges s; notifications := l |} |}.

(** The [{ data, error }] object a call resolves with. *)
Record PgResult (A : Type) := { data : option A; error : option Err }.
Arguments data {A} _.
Arguments error {A} _.

Definition pg_ok {A} (d : option A) : PgResult A := {| data := d; error := None |}.
Definition pg_err {A} (e : Err) : PgResult A := {| data := None; error := Some e |}.

(** One round trip to the store: the environment decides how it ends. *)
Definition store_call (c : StoreCall) : Js Outcome :=
  fun env w =>
    match outcome env (calls w) c with
    | Rejects => (Throw (Rejected c), tick w)
    | o => (Normal o, tick w)
    end.

Definition pg_select {R} (t : Table R) (f : R -> bool) : Js (PgResult (list R)) :=
  let* o := store_call (CallSelect (tname t)) in
  let* w := get in
  match o with
  | Succeeds => ret (pg_ok (Some (List.filter f (rows t (db w)))))
  | _ => ret (pg_err (PgError (CallSelect (tname t))))
  end.

(** [insert(payload)]: the row is built from the payload, the generated id
    and the server's time; without [select()] no data comes back. *)
Definition pg_insert {R} (t : Table R) (mk : string -> string -> R)
  : Js (PgResult unit) :=
  let* env := ask in
  let* w0 := get in
  let* o := store_call (CallInsert (tname t)) in
  match o with
  | Succeeds =>
      run modify (set_db (fun s =>
            set_rows t (rows t s ++ [mk (gen_id env (calls w0))
                                        (server_now env (calls w0))]) s)) in
      ret (pg_ok None)
  | _ => ret (pg_err (PgError (CallInsert (tname t))))
  end.

(** [update(patch)] with filters: every selected row is patched in place. *)
Definition pg_update {R} (t : Table R) (patch : R -> R) (f : R -> bool)
  : Js (PgResult unit) :=
  let* o := store_call (CallUpdate (tname t)) in
  match o with
  | Succeeds =>
      run modify (set_db (fun s =>
            set_rows t (List.map (fun r => if f r then patch r else r)
                                 (rows t s)) s)) in
      ret (pg_ok None)
  | _ => ret (pg_err (PgError (CallUpdate (tname t))))
  end.

(** Post-processing of the selected rows: column projection, ordering. *)
Definition pg_map {A B} (g : A -> B) (m : Js (PgResult A)) : Js (PgResult B) :=
  let* r := m in
  ret {| data := option_map g (data r); error := error r |}.

(** [.single()]: the data is the row when exactly one row is selected, and
    otherwise [null] with an error. *)
Definition single {A} (m : Js (PgResult (list A))) : Js (PgResult A) :=
  let* r := m in
  match data r with
  | Some [x] => ret (pg_ok (Some x))
  | Some _ => ret (pg_err NotSingleRow)
  | None => ret {| data := None; error := error r |}
  end.

(** [.order(key, { ascending: false })]: a stable sort, greatest key first. *)
Fixpoint insert_desc {R} (key : R -> string) (x : R) (l : list R) : list R :=
  match l with
  | [] => [x]
  | y :: l' => if String.ltb (key x) (key y) then y :: insert_desc key x l'
               else x :: l
  end.

Definition order_desc {R} (key : R -> string) (l : list R) : list R :=
  fold_right (insert_desc key) [] l.

(** [if (error) throw error] *)
Definition throw_if_error {A} (r : PgResult A) : Js unit :=
  match error r with
  | Some e => throw e
  | None => ret tt
  end.

(** A call to an [async] function that is not awaited: the caller goes on
    whatever becomes of it.  The callees concerned only read the store and
    set state cells the caller does not touch afterwards, so they are run at
    the point of the call. *)
Definition not_awaited (m : Js unit) : Js unit :=
  fun env w => match m env w with (_, w') => (Normal tt, w') end.

(** Modelled from the spec: the column defaults of [book_requests], whose
    schema is not part of the sources.  A new request is in the initial state
    [pending] and carries the creation time. *)
Definition new_request (book_id requester_id donor_id message : string)
  (id now : string) : BookRequest.t :=
  {| BookRequest.id := id; BookRequest.book_id := book_id;
     BookRequest.requester_id := requester_id;
     BookRequest.donor_id := donor_id; BookRequest.message := message;
     BookRequest.status := "pending"; BookRequest.created_at := now;
     BookRequest.updated_at := now |}.

(** Modelled from the spec: the column defaults of [notifications], whose
    schema is not part of the sources.  A new notification is unread. *)
Definition new_notification (userid type title message : string)
  (id now : string) : Notification.t :=
  {| Notification.id := id; Notification.userid := userid;
     Notification.type := type; Notification.title := title;
     Notification.message := message; Notification.read := false;
     Notification.createdat := now |}.

(** Modelled from the spec: the stored procedure [create_book_notification],
    which is not part of the sources; it is invoked with the recipient, type,
    title and message and is equivalent to the direct insert. *)
Definition rpc_create_book_notification
  (user_id notification_type notification_title notification_message : string)
  : Js (PgResult unit) :=
  let* env := ask in
  let* w0 := get in
  let* o := store_call (CallRpc "create_book_notification") in
  match o with
  | Succeeds =>
      run modify (set_db (fun s =>
            set_rows notifications_table
              (notifications s ++
               [new_notification user_id notification_type notification_title
                  notification_message (gen_id env (calls w0))
                  (server_now env (calls w0))]) s)) in
      ret (pg_ok None)
  | _ => ret (pg_err (PgError (CallRpc "create_book_notification")))
  end.

(** The decision of a donor, and the text the handlers interpolate. *)
Inductive Decision := approved | rejected.

Definition decision_string (d : Decision) : string :=
  match d with approved => "approved" | rejected => "rejected" end.

(** [Set.prototype.has] *)
Definition has (s : gset string) (x : string) : bool := bool_decide (x ∈ s).

(** ** BooksList: requesting a book *)

Definition is_pending_request (book_id requester_id : string)
  (r : BookRequest.t) : bool :=
  String.eqb (BookRequest.book_id r) book_id
  && String.eqb (BookRequest.requester_id r) requester_id
  && String.eqb (BookRequest.status r) "pending".

(** The existence query both revisions start with. *)
Definition select_existing_request (book : Book.t) (user : User.t)
  : Js (PgResult string) :=
  single (pg_map (List.map BookRequest.id)
            (pg_select book_requests_table
               (is_pending_request (Book.id book) (User.id user)))).

Definition request_message (book : Book.t) : string :=
  "I would like to borrow " ++ dq ++ Book.title book ++ dq ++ " by "
  ++ Book.author book ++ ".".

Definition donor_message (book : Book.t) : string :=
  "Someone wants to borrow your book " ++ dq ++ Book.title book ++ dq.

Definition sent_message (book : Book.t) : string :=
  "Your request for " ++ dq ++ Book.title book ++ dq
  ++ " has been sent to the donor.".

Definition toast_already_requested : Toast :=
  {| toast_title := "Already Requested";
     toast_description := "You have already requested this book.";
     toast_variant := Destructive |}.

Definition toast_request_sent (book : Book.t) : Toast :=
  {| toast_title := "Request Sent"; toast_description := sent_message book;
     toast_variant := Default |}.

Definition toast_request_failed : Toast :=
  {| toast_title := "Error";
     toast_description := "Failed to send book request. Please try again.";
     toast_variant := Destructive |}.

Definition insert_request (book : Book.t) (user : User.t) : Js (PgResult unit) :=
  pg_insert book_requests_table
    (new_request (Book.id book) (User.id user) (Book.donorid book)
       (request_message book)).

(** The button [Request Book] is rendered for the books of other donors. *)
Definition showsRequestButton (user : option User.t) (book : Book.t) : bool :=
  match user with
  | Some u => negb (String.eqb (User.id u) (Book.donorid book))
  | None => true
  end.

(** The earlier revision of the component. *)
Module BooksListBase.

Definition handleRequestBook (user : option User.t) (book : Book.t) : Js unit :=
  match user with
  | None => ret tt
  | Some u =>
      try_catch
        (let* existingRequest := select_existing_request book u in
         match data existingRequest with
         | Some _ => toast toast_already_requested
         | None =>
             let* requested := insert_request book u in
             run throw_if_error requested in
             let* notified :=
               pg_insert notifications_table
                 (new_notification (Book.donorid book) "book_request"
                    "New Book Request" (donor_message book)) in
             run throw_if_error notified in
             toast (toast_request_sent book)
         end)
        (fun _ =>
           run console_error "Error requesting book:" in
           toast toast_request_failed)
  end.

End BooksListBase.

(** The later revision: notifications go through the stored procedure and
    a set of books whose request is in flight guards the handler. *)
Module BooksList.

Definition createNotification (userId type title message : string) : Js unit :=
  try_catch
    (let* _ := rpc_create_book_notification userId type title message in
     ret tt)
    (fun _ => console_error "Error creating notification:").

Definition handleRequestBook (user : option User.t) (book : Book.t) : Js unit :=
  let* w := get in
  match user with
  | None => ret tt
  | Some u =>
      if has (requestingBooks (client w)) (Book.id book) then ret tt
      else
        run setRequestingBooks (fun prev => prev ∪ {[Book.id book]}) in
        try_finally
          (try_catch
             (let* existingRequest := select_existing_request book u in
              match data existingRequest with
              | Some _ => toast toast_already_requested
              | None =>
                  let* requested := insert_request book u in
                  run throw_if_error requested in
                  run createNotification (Book.donorid book) "book_request"
                        "New Book Request" (donor_message book) in
                  run createNotification (User.id u) "request_sent"
                        "Request Sent" (sent_message book) in
                  toast (toast_request_sent book)
              end)
             (fun _ =>
                run console_error "Error requesting book:" in
                toast toast_request_failed))
          (setRequestingBooks (fun prev => prev ∖ {[Book.id book]}))
  end.

End BooksList.

(** ** MyRequests: answering a request *)

Definition join_books (s : Store) (r : BookRequest.t) : RequestView :=
  {| rv_row := r;
     rv_books :=
       option_map (fun b => {| bi_title := Book.title b;
                               bi_author := Book.author b |})
         (List.find (fun b => String.eqb (Book.id b) (BookRequest.book_id r))
            (books s)) |}.

(** [select('*, books (title, author)').eq(column, user.id)
     .order('created_at', { ascending: false })] *)
Definition select_requests (column : BookRequest.t -> string) (user : User.t)
  : Js (PgResult (list RequestView)) :=
  let* w := get in
  pg_map (fun l => List.map (join_books (db w))
                     (order_desc BookRequest.created_at l))
    (pg_select book_requests_table
       (fun r => String.eqb (column r) (User.id user))).

Definition toast_load_failed : Toast :=
  {| toast_title := "Error";
     toast_description := "Failed to load requests. Please try again.";
     toast_variant := Destructive |}.

Definition response_title (status : Decision) : string :=
  "Book Request " ++
  match status with approved => "Approved" | rejected => "Rejected" end.

Definition response_message (status : Decision) (bookTitle : string) : string :=
  "Your request for " ++ dq ++ bookTitle ++ dq ++ " has been "
  ++ decision_string status ++ ".".

Definition action_message (status : Decision) (bookTitle : string) : string :=
  "You have " ++ decision_string status ++ " the request for " ++ dq
  ++ bookTitle ++ dq ++ ".".

Definition toast_request_updated (status : Decision) : Toast :=
  {| toast_title := "Request Updated";
     toast_description := "Request has been " ++ decision_string status ++ ".";
     toast_variant := Default |}.

Definition toast_update_failed : Toast :=
  {| toast_title := "Error";
     toast_description := "Failed to update request. Please try again.";
     toast_variant := Destructive |}.

(** The buttons [Approve] and [Reject] are rendered for the received
    requests whose fetched status is [pending]. *)
Definition showsRespondButtons (request : RequestView) : bool :=
  String.eqb (BookRequest.status (rv_row request)) "pending".

(** The contact exchange card is rendered for the approved requests. *)
Definition showsContactExchange (request : RequestView) : bool :=
  String.eqb (BookRequest.status (rv_row request)) "approved".

(** The earlier revision of the component. *)
Module MyRequestsBase.

Definition fetchRequests (user : option User.t) : Js unit :=
  match user with
  | None => ret tt
  | Some u =>
      try_finally
        (try_catch
           (let* sent := select_requests BookRequest.requester_id u in
            run throw_if_error sent in
            let* received := select_requests BookRequest.donor_id u in
            run throw_if_error received in
            run setSentRequests (default [] (data sent)) in
            setReceivedRequests (default [] (data received)))
           (fun _ =>
              run console_error "Error fetching requests:" in
              toast toast_load_failed))
        (setLoading false)
  end.

Definition handleRequestResponse (user : option User.t)
  (requestId : string) (status : Decision) (requesterId bookTitle : string)
  : Js unit :=
  try_catch
    (let* updated :=
       pg_update book_requests_table
         (BookRequest.with_status (decision_string status))
         (fun r => String.eqb (BookRequest.id r) requestId) in
     run throw_if_error updated in
     let* notified :=
       pg_insert notifications_table
         (new_notification requesterId "request_response"
            (response_title status) (response_message status bookTitle)) in
     run throw_if_error notified in
     run toast (toast_request_updated status) in
     not_awaited (fetchRequests user))
    (fun _ =>
       run console_error "Error updating request:" in
       toast toast_update_failed).

End MyRequestsBase.

(** The later revision. *)
Module MyRequests.

(** [exchanges.forEach(e => { exchangeMap[e.request_id] = e })] *)
Definition exchangeMap (exchanges : list Exchange.t) : gmap string Exchange.t :=
  fold_left (fun m e => <[Exchange.request_id e := e]> m) exchanges ∅.

Definition approvedRequestIds (allRequests : list RequestView) : list string :=
  List.map (fun req => BookRequest.id (rv_row req))
    (List.filter showsContactExchange allRequests).

Definition fetchRequests (user : option User.t) : Js unit :=
  match user with
  | None => ret tt
  | Some u =>
      try_finally
        (try_catch
           (let* sent := select_requests BookRequest.requester_id u in
            run throw_if_error sent in
            let* received := select_requests BookRequest.donor_id u in
            run throw_if_error received in
            run setSentRequests (default [] (data sent)) in
            run setReceivedRequests (default [] (data received)) in
            let ids := approvedRequestIds
                         (default [] (data sent) ++ default [] (data received)) in
            if Nat.ltb 0 (length ids) then
              let* exchanges :=
                pg_select contact_exchanges_table
                  (fun e => existsb (String.eqb (Exchange.request_id e)) ids) in
              run throw_if_error exchanges in
              setContactExchanges (exchangeMap (default [] (data exchanges)))
            else ret tt)
           (fun _ =>
              run console_error "Error fetching requests:" in
              toast toast_load_failed))
        (setLoading false)
  end.

Definition createNotification (userId type title message : string) : Js unit :=
  try_catch
    (let* _ := rpc_create_book_notification userId type title message in
     ret tt)
    (fun _ => console_error "Error creating notification:").

Definition handleRequestResponse (user : option User.t)
  (requestId : string) (status : Decision) (requesterId bookTitle : string)
  : Js unit :=
  let* w := get in
  if has (processingRequests (client w)) requestId then ret tt
  else
    run setProcessingRequests (fun prev => prev ∪ {[requestId]}) in
    try_finally
      (try_catch
         (let* env := ask in
          let* updated :=
            pg_update book_requests_table
              (fun r => BookRequest.with_updated_at (client_now env)
                          (BookRequest.with_status (decision_string status) r))
              (fun r => String.eqb (BookRequest.id r) requestId) in
          run throw_if_error updated in
          run createNotification requesterId "request_response"
                (response_title status) (response_message status bookTitle) in
          run match user with
              | Some u => createNotification (User.id u) "request_action"
                            "Request Updated" (action_message status bookTitle)
              | None => ret tt
              end in
          run toast (toast_request_updated status) in
          not_awaited (fetchRequests user))
         (fun _ =>
            run console_error "Error updating request:" in
            toast toast_update_failed))
      (setProcessingRequests (fun prev => prev ∖ {[requestId]})).

End MyRequests.

(** The click on [Approve] or [Reject] of a rendered request: the handler
    gets the id, the requester and the joined title of that row.  A row whose
    join is null has no buttons (reading its title fails in the render). *)
Definition respond (handler : string -> Decision -> string -> string -> Js unit)
  (request : RequestView) (status : Decision) : Js unit :=
  match rv_books request with
  | Some b =>
      handler (BookRequest.id (rv_row request)) status
        (BookRequest.requester_id (rv_row request)) (bi_title b)
  | None => ret tt
  end.

(** ** ContactExchange: sharing contact details *)

Module ContactExchange.

Record Props := {
  requestId : string;
  isDonor : bool;
  existingExchange : option Exchange.t }.

(** [existingExchange?.[isDonor ? 'donor_phone' : 'requester_phone']] and
    the three other optional reads of the component. *)
Definition own_phone (p : Props) : option string :=
  e ← existingExchange p;
  if isDonor p then Exchange.donor_phone e else Exchange.requester_phone e.

Definition own_address (p : Props) : option string :=
  e ← existingExchange p;
  if isDonor p then Exchange.donor_address e else Exchange.requester_address e.

Definition other_phone (p : Props) : option string :=
  e ← existingExchange p;
  if isDonor p then Exchange.requester_phone e else Exchange.donor_phone e.

Definition other_address (p : Props) : option string :=
  e ← existingExchange p;
  if isDonor p then Exchange.requester_address e else Exchange.donor_address e.

(** The initial values of the two inputs: [... || ''] *)
Definition or_empty (o : option string) : string :=
  if truthy_opt o then default EmptyString o else EmptyString.

Definition initial_phone (p : Props) : string := or_empty (own_phone p).
Definition initial_address (p : Props) : string := or_empty (own_address p).

(** [updateData] applied to a row: the caller's two columns. *)
Definition updateData (donor : bool) (phone address : string)
  (e : Exchange.t) : Exchange.t :=
  if donor then
    {| Exchange.id := Exchange.id e; Exchange.request_id := Exchange.request_id e;
       Exchange.donor_phone := Some phone; Exchange.donor_address := Some address;
       Exchange.requester_phone := Exchange.requester_phone e;
       Exchange.requester_address := Exchange.requester_address e |}
  else
    {| Exchange.id := Exchange.id e; Exchange.request_id := Exchange.request_id e;
       Exchange.donor_phone := Exchange.donor_phone e;
       Exchange.donor_address := Exchange.donor_address e;
       Exchange.requester_phone := Some phone;
       Exchange.requester_address := Some address |}.

(** Modelled from the spec: the column defaults of [contact_exchanges],
    whose schema is not part of the sources; the fields that an insert does
    not give are null. *)
Definition blank_exchange (request_id : string) (id now : string) : Exchange.t :=
  {| Exchange.id := id; Exchange.request_id := request_id;
     Exchange.donor_phone := None; Exchange.donor_address := None;
     Exchange.requester_phone := None; Exchange.requester_address := None |}.

Definition toast_contact_shared : Toast :=
  {| toast_title := "Contact Shared";
     toast_description := "Your contact details have been shared successfully.";
     toast_variant := Default |}.

Definition toast_share_failed : Toast :=
  {| toast_title := "Error";
     toast_description := "Failed to share contact details. Please try again.";
     toast_variant := Destructive |}.

(** [phone] and [address] are the state of the two inputs. *)
Definition handleSubmit (user : option User.t) (p : Props)
  (onContactShared : Js unit) (phone address : string) : Js unit :=
  match user with
  | None => ret tt
  | Some _ =>
      if negb (truthy (trim phone)) || negb (truthy (trim address)) then ret tt
      else
        run setSharing true in
        try_finally
          (try_catch
             (run match existingExchange p with
                  | Some _ =>
                      let* updated :=
                        pg_update contact_exchanges_table
                          (updateData (isDonor p) phone address)
                          (fun e => String.eqb (Exchange.request_id e)
                                      (requestId p)) in
                      throw_if_error updated
                  | None =>
                      let* inserted :=
                        pg_insert contact_exchanges_table
                          (fun id now =>
                             updateData (isDonor p) phone address
                               (blank_exchange (requestId p) id now)) in
                      throw_if_error inserted
                  end in
              run toast toast_contact_shared in
              not_awaited onContactShared)
             (fun _ =>
                run console_error "Error sharing contact:" in
                toast toast_share_failed))
          (setSharing false)
  end.

(** What the card shows: the form, or the confirmation with the other
    person's phone and address under it when that phone is there. *)
Inductive Rendered :=
| ShareForm
| SharedPanel (contact : option (string * option string)).

Definition render (p : Props) : Rendered :=
  let hasSharedContact := own_phone p in
  let otherPersonContact := other_phone p in
  let otherPersonAddress := other_address p in
  if negb (truthy_opt hasSharedContact) then ShareForm
  else SharedPanel
         (match otherPersonContact with
          | Some phone =>
              if truthy phone then Some (phone, otherPersonAddress) else None
          | None => None
          end).

(** The contact fields of the other person that the card displays. *)
Definition revealed (p : Props) : option (string * option string) :=
  match render p with
  | ShareForm => None
  | SharedPanel contact => contact
  end.

End ContactExchange.

(** The props [MyRequests] gives to the card of an approved request. *)
Definition exchange_props (c : Client) (request : RequestView) (donor : bool)
  : ContactExchange.Props :=
  {| ContactExchange.requestId := BookRequest.id (rv_row request);
     ContactExchange.isDonor := donor;
     ContactExchange.existingExchange :=
       contactExchanges c !! BookRequest.id (rv_row request) |}.

(** ** Notifications *)

Module Notifications.

Definition fetchNotifications (user : option User.t) : Js unit :=
  match user with
  | None => ret tt
  | Some u =>
      try_finally
        (try_catch
           (let* fetched :=
              pg_map (order_desc Notification.createdat)
                (pg_select notifications_table
                   (fun n => String.eqb (Notification.userid n) (User.id u))) in
            run throw_if_error fetched in
            setNotifications (default [] (data fetched)))
           (fun _ =>
              run console_error "Error fetching notifications:" in
              toast
                {| toast_title := "Error";
                   toast_description :=
                     "Failed to load notifications. Please try again.";
                   toast_variant := Destructive |}))
        (setLoading false)
  end.

Definition markAsRead (notificationId : string) : Js unit :=
  try_catch
    (let* updated :=
       pg_update notifications_table (Notification.with_read true)
         (fun n => String.eqb (Notification.id n) notificationId) in
     run throw_if_error updated in
     let* w := get in
     setNotifications
       (List.map (fun notif =>
                    if String.eqb (Notification.id notif) notificationId
                    then Notification.with_read true notif else notif)
          (notificationList (client w))))
    (fun _ => console_error "Error marking notification as read:").

Definition toast_all_read : Toast :=
  {| toast_title := "Success";
     toast_description := "All notifications marked as read.";
     toast_variant := Default |}.

Definition toast_mark_failed : Toast :=
  {| toast_title := "Error";
     toast_description := "Failed to mark notifications as read.";
     toast_variant := Destructive |}.

Definition markAllAsRead (user : option User.t) : Js unit :=
  match user with
  | None => ret tt
  | Some u =>
      try_catch
        (let* updated :=
           pg_update notifications_table (Notification.with_read true)
             (fun n => String.eqb (Notification.userid n) (User.id u)
                       && Bool.eqb (Notification.read n) false) in
         run throw_if_error updated in
         let* w := get in
         run setNotifications
               (List.map (Notification.with_read true)
                  (notificationList (client w))) in
         toast toast_all_read)
        (fun _ =>
           run console_error "Error marking all as read:" in
           toast toast_mark_failed)
  end.

End Notifications.

(** * The vocabulary of the properties *)

Open Scope list_scope.

(** ** Parts of the world *)

Definition ledger (w : World) : list BookRequest.t := book_requests (db w).
Definition outbox (w : World) : list Notification.t := notifications (db w).
Definition exchanges (w : World) : list Exchange.t := contact_exchanges (db w).

(** [keeps p m]: the run of [m] leaves the part [p] of the world as it found
    it, however the store calls end. *)
Definition keeps {A B} (p : World -> B) (m : Js A) : Prop :=
  forall env w, p (snd (m env w)) = p w.

(** Appending a notification to the outbox. *)
Definition push_notification (n : Notification.t) (w : World) : World :=
  set_db (fun s => set_rows notifications_table (notifications s ++ [n]) s) w.

(** ** The tables after a write that the store accepts *)

(** The ledger after a response: the rows with the id of the request carry
    the decision (and the stamp of the later revision). *)
Definition answered (requestId : string) (d : Decision)
  (stamp : BookRequest.t -> BookRequest.t) (l : list BookRequest.t)
  : list BookRequest.t :=
  List.map (fun r => if String.eqb (BookRequest.id r) requestId
                     then stamp (BookRequest.with_status (decision_string d) r)
                     else r) l.

(** The outbox after marking all notifications of a user as read. *)
Definition marked (u : User.t) (l : list Notification.t) : list Notification.t :=
  List.map (fun n => if String.eqb (Notification.userid n) (User.id u)
                        && Bool.eqb (Notification.read n) false
                     then Notification.with_read true n else n) l.

(** The two contact fields of the other party, and those of the party. *)
Definition counterpart_phone (donor : bool) (e : Exchange.t) : option string :=
  if donor then Exchange.requester_phone e else Exchange.donor_phone e.

Definition counterpart_address (donor : bool) (e : Exchange.t) : option string :=
  if donor then Exchange.requester_address e else Exchange.donor_address e.

Definition party_phone (donor : bool) (e : Exchange.t) : option string :=
  if donor then Exchange.donor_phone e else Exchange.requester_phone e.

Definition party_address (donor : bool) (e : Exchange.t) : option string :=
  if donor then Exchange.donor_address e else Exchange.requester_address e.

(** The exchanges after an update of the party's fields. *)
Definition shared (requestId : string) (donor : bool) (phone address : string)
  (l : list Exchange.t) : list Exchange.t :=
  List.map (fun e => if String.eqb (Exchange.request_id e) requestId
                     then ContactExchange.updateData donor phone address e
                     else e) l.

(** The exchanges after a submission, case by case: nothing without a user
    or with a blank field, else the update or the insert when the store
    accepts it. *)
Definition submitted (env : Env) (w : World) (user : option User.t)
  (p : ContactExchange.Props) (phone address : string) : list Exchange.t :=
  match user with
  | None => exchanges w
  | Some _ =>
      if negb (truthy (trim phone)) || negb (truthy (trim address))
      then exchanges w
      else
        match ContactExchange.existingExchange p with
        | Some _ =>
            match outcome env (calls w) (CallUpdate "contact_exchanges") with
            | Succeeds =>
                shared (ContactExchange.requestId p) (ContactExchange.isDonor p)
                  phone address (exchanges w)
            | _ => exchanges w
            end
        | None =>
            match outcome env (calls w) (CallInsert "contact_exchanges") with
            | Succeeds =>
                exchanges w ++
                [ContactExchange.updateData (ContactExchange.isDonor p) phone
                   address
                   (ContactExchange.blank_exchange (ContactExchange.requestId p)
                      (gen_id env (calls w)) (server_now env (calls w)))]
            | _ => exchanges w
            end
        end
  end.

(** The requests a fetch selects for a user by one of the two columns, and
    the cache of exchanges after a fetch of a store that answers. *)
Definition requests_of (column : BookRequest.t -> string) (s : Store)
  (u : User.t) : list RequestView :=
  List.map (join_books s)
    (order_desc BookRequest.created_at
       (List.filter (fun r => String.eqb (column r) (User.id u))
          (book_requests s))).

Definition fetched_exchanges (s : Store) (u : User.t)
  (old : gmap string Exchange.t) : gmap string Exchange.t :=
  let ids := MyRequests.approvedRequestIds
               (requests_of BookRequest.requester_id s u
                ++ requests_of BookRequest.donor_id s u) in
  if Nat.ltb 0 (length ids) then
    MyRequests.exchangeMap
      (List.filter (fun e => existsb (String.eqb (Exchange.request_id e)) ids)
         (contact_exchanges s))
  else old.


(** ** Comparing two runs *)

(** The same world with another ledger, and the same environment with the
    answer to the [k]-th call replaced. *)
Definition with_requests (l : list BookRequest.t) (w : World) : World :=
  set_db (set_rows book_requests_table l) w.

Definition answering (o : Outcome) (k : nat) (env : Env) : Env :=
  {| outcome := fun n c => if Nat.eqb n k then o else outcome env n c;
     gen_id := gen_id env; server_now := server_now env;
     client_now := client_now env |}.

(** What a run leaves behind apart from the ledger it started from. *)
Record Observation := {
  obs_completion : Completion unit;
  obs_new_requests : list BookRequest.t;
  obs_notifications : list Notification.t;
  obs_toasts : list Toast;
  obs_console : list string;
  obs_calls : nat;
  obs_client : Client }.

Definition observe (before : World) (res : Completion unit * World) : Observation :=
  {| obs_completion := fst res;
     obs_new_requests :=
       drop (length (book_requests (db before))) (book_requests (db (snd res)));
     obs_notifications := notifications (db (snd res));
     obs_toasts := toasts (snd res);
     obs_console := console (snd res);
     obs_calls := calls (snd res);
     obs_client := client (snd res) |}.

(** ** The scenario of the specification

    Alice lists Dune, Bob requests it. *)

Definition alice : User.t := {| User.id := "user-a" |}.
Definition bob : User.t := {| User.id := "user-b" |}.

Definition dune : Book.t :=
  {| Book.id := "book-1"; Book.title := "Dune"; Book.author := "Frank Herbert";
     Book.description := "A desert planet"; Book.coverurl := EmptyString;
     Book.status := "available"; Book.isfeatured := false;
     Book.donorid := "user-a"; Book.category := "adventure";
     Book.condition := "good" |}.

Definition no_client : Client :=
  {| requestingBooks := ∅; processingRequests := ∅; sentRequests := [];
     receivedRequests := []; contactExchanges := ∅; loading := true;
     sharing := false; notificationList := [] |}.

Definition world_of (s : Store) : World :=
  {| db := s; calls := 0; toasts := []; console := []; client := no_client |}.

Definition store_of (requests : list BookRequest.t) (exchanges : list Exchange.t)
  (notes : list Notification.t) : Store :=
  {| books := [dune]; book_requests := requests;
     contact_exchanges := exchanges; notifications := notes |}.

Definition sample_id (n : nat) : string :=
  ("row-" ++ String (ascii_of_nat (48 + n)) EmptyString)%string.

(** An environment in which the store answers every call, one in which the
    selects resolve with an error and one in which the notification writes
    do. *)
Definition env_with (f : nat -> StoreCall -> Outcome) : Env :=
  {| outcome := f; gen_id := sample_id;
     server_now := fun _ => "2024-06-01T10:00:00Z";
     client_now := "2024-06-01T10:00:00Z" |}.

Definition env_ok : Env := env_with (fun _ _ => Succeeds).

Definition env_select_fails : Env :=
  env_with (fun _ c => match c with CallSelect _ => ReturnsError | _ => Succeeds end).

Definition env_notifications_fail : Env :=
  env_with (fun _ c =>
    match c with
    | CallInsert t => if String.eqb t "notifications" then ReturnsError else Succeeds
    | CallRpc _ => ReturnsError
    | _ => Succeeds
    end).

(** Bob's request for Dune, in a given state, and the row of it that the
    view holds. *)
Definition dune_request (id status : string) : BookRequest.t :=
  {| BookRequest.id := id; BookRequest.book_id := "book-1";
     BookRequest.requester_id := "user-b"; BookRequest.donor_id := "user-a";
     BookRequest.message := request_message dune; BookRequest.status := status;
     BookRequest.created_at := "2024-05-01T09:00:00Z";
     BookRequest.updated_at := "2024-05-01T09:00:00Z" |}.

Definition dune_view (id status : string) : RequestView :=
  join_books (store_of [] [] []) (dune_request id status).

Definition approved_world : World :=
  world_of (store_of [dune_request "req-1" "approved"] [] []).

(** The exchange of that request once the donor has shared, and once both
    have; the card of the requester. *)
Definition donor_shared_only : Exchange.t :=
  {| Exchange.id := "ex-1"; Exchange.request_id := "req-1";
     Exchange.donor_phone := Some "555-0200";
     Exchange.donor_address := Some "9 Elm Ave";
     Exchange.requester_phone := None; Exchange.requester_address := None |}.

Definition both_shared : Exchange.t :=
  {| Exchange.id := "ex-1"; Exchange.request_id := "req-1";
     Exchange.donor_phone := Some "555-0200";
     Exchange.donor_address := Some "9 Elm Ave";
     Exchange.requester_phone := Some "555-0100";
     Exchange.requester_address := Some "12 Oak St" |}.

(** A record of another request, in which both parties have shared. *)
Definition elsewhere_shared : Exchange.t :=
  {| Exchange.id := "ex-2"; Exchange.request_id := "req-2";
     Exchange.donor_phone := Some "555-0300";
     Exchange.donor_address := Some "3 Pine Rd";
     Exchange.requester_phone := Some "555-0400";
     Exchange.requester_address := Some "4 Ash Ct" |}.

Definition requester_card (e : Exchange.t) : ContactExchange.Props :=
  {| ContactExchange.requestId := "req-1"; ContactExchange.isDonor := false;
     ContactExchange.existingExchange := Some e |}.

Definition sample_note (id userid : string) : Notification.t :=
  {| Notification.id := id; Notification.userid := userid;
     Notification.type := "book_request"; Notification.title := "New Book Request";
     Notification.message := donor_message dune; Notification.read := false;
     Notification.createdat := "2024-05-01T09:00:00Z" |}.

(** * Further vocabulary: the views and their coherence *)

From Stdlib Require Import Sorted.

(** The notifications a fetch selects for a user, newest first. *)
Definition notifications_of (s : Store) (u : User.t) : list Notification.t :=
  order_desc Notification.createdat
    (List.filter (fun n => String.eqb (Notification.userid n) (User.id u))
       (notifications s)).

(** [notifications.filter(n => !n.read).length], and the condition under
    which the badge and the button [Mark All Read] are rendered. *)
Definition unreadCount (l : list Notification.t) : nat :=
  length (List.filter (fun n => negb (Notification.read n)) l).

Definition showsMarkAllRead (l : list Notification.t) : bool :=
  Nat.ltb 0 (unreadCount l).

(** A list in the order of [.order(key, { ascending: false })]: no element
    has a key smaller than the key of its successor. *)
Definition newest_first {R} (key : R -> string) (l : list R) : Prop :=
  Sorted (fun a b => String.ltb (key a) (key b) = false) l.

(** The world as another browser sees it: the same store, the React state
    of that browser. *)
Definition in_browser (c : Client) (w : World) : World :=
  {| db := db w; calls := calls w; toasts := toasts w; console := console w;
     client := c |}.

(** The card of a party of a request, rendered from the cache of the view. *)
Definition card (w : World) (request : RequestView) (donor : bool)
  : ContactExchange.Rendered :=
  ContactExchange.render (exchange_props (client w) request donor).

(** ** Further data of the scenario *)

(** Environments in which one call, by its rank, resolves with an error. *)
Definition env_failing_at (k : nat) : Env :=
  env_with (fun n _ => if Nat.eqb n k then ReturnsError else Succeeds).

(** The view of Alice, donor of Dune, once it holds Bob's approved request
    and a cache of exchanges. *)
Definition alice_client : Client :=
  {| requestingBooks := ∅; processingRequests := ∅;
     sentRequests := [];
     receivedRequests := [dune_view "req-1" "approved"];
     contactExchanges := {[ "req-1" := both_shared ]};
     loading := false; sharing := false; notificationList := [] |}.

(** Bob's request for Dune with a given time of creation. *)
Definition dune_request_at (id status created : string) : BookRequest.t :=
  {| BookRequest.id := id; BookRequest.book_id := "book-1";
     BookRequest.requester_id := "user-b"; BookRequest.donor_id := "user-a";
     BookRequest.message := request_message dune; BookRequest.status := status;
     BookRequest.created_at := created; BookRequest.updated_at := created |}.

(** The toast of a fetch of the notifications that fails. *)
Definition toast_notifications_failed : Toast :=
  {| toast_title := "Error";
     toast_description := "Failed to load notifications. Please try again.";
     toast_variant := Destructive |}.

Definition sample_note_at (id userid created : string) (read : bool)
  : Notification.t :=
  {| Notification.id := id; Notification.userid := userid;
     Notification.type := "book_request"; Notification.title := "New Book Request";
     Notification.message := donor_message dune; Notification.read := read;
     Notification.createdat := created |}.

(** * The catalogue: donating and browsing books

    [DonateBooks], [FreeBooks] and the listing of [BooksList] read and write
    the table [books] with columns that the views of the requests never
    read, delete rows, and hold a state of their own.  They run on a site:
    the world of the views of the requests, the table with all its columns,
    and the React state of the component that runs. *)

(** A row of [books]: the columns of [Book.t], the creation time by which
    the lists are ordered and the nullable flag by which they are split. *)
Module BookRow.
Record t := {
  book : Book.t; createdat : string; is_free_to_read : option bool }.
End BookRow.

(** The state of the form of [DonateBooks]; the earlier revision has the
    first three fields only. *)
Module FormData.
Record t := {
  title : string; author : string; description : string;
  category : string; condition : string }.
End FormData.

(** The [useState] cells of the component that runs: [books] (named
    [freeBooks] in [FreeBooks]), [loading], and for [DonateBooks] the form. *)
Module Page.
Record t := {
  books : list BookRow.t; loading : bool; showForm : bool;
  formData : FormData.t }.
End Page.

Module Site.
Record t := { world : World; catalogue : list BookRow.t; page : Page.t }.
End Site.

(** The environment of a run on a site: the environment of the world, the
    answers of the store to the deletes, and the values the table gives to
    the columns an insert leaves out.  The schema is not part of the sources:
    these defaults are left open. *)
Module Setting.
Record t := {
  env : Env;
  delete_outcome : nat -> string -> Outcome;
  defaults : BookRow.t }.
End Setting.

(** What a handler on a site can throw: an error of a call of the world,
    the error of a delete, or the rejection of its promise. *)
Inductive Failure :=
| StoreFailure (e : Err)
| DeleteError (table : string)
| DeleteRejected (table : string).

Inductive Ending (A : Type) :=
| Returns (a : A)
| Throws (f : Failure).
Arguments Returns {A} a.
Arguments Throws {A} f.

(** The monad of the handlers on a site, with the same control operators as
    [Js]; [lift] runs a computation of the world on the site. *)
Module Ui.

Definition t (A : Type) : Type := Setting.t -> Site.t -> Ending A * Site.t.

Definition ret {A} (a : A) : t A := fun _ s => (Returns a, s).

Definition bind {A B} (m : t A) (k : A -> t B) : t B :=
  fun st s =>
    match m st s with
    | (Returns a, s') => k a st s'
    | (Throws f, s') => (Throws f, s')
    end.

Definition throw {A} (f : Failure) : t A := fun _ s => (Throws f, s).

Definition try_catch {A} (body : t A) (handler : Failure -> t A) : t A :=
  fun st s =>
    match body st s with
    | (Returns a, s') => (Returns a, s')
    | (Throws f, s') => handler f st s'
    end.

Definition try_finally {A} (body : t A) (fin : t unit) : t A :=
  fun st s =>
    match body st s with
    | (c, s') =>
        match fin st s' with
        | (Returns _, s'') => (c, s'')
        | (Throws f, s'') => (Throws f, s'')
        end
    end.

(** A call to an [async] function that is not awaited: [fetchMyBooks] only
    reads the store and sets [books], which its callers do not touch
    afterwards, so it is run at the point of the call. *)
Definition not_awaited (m : t unit) : t unit :=
  fun st s => match m st s with (_, s') => (Returns tt, s') end.

Definition ask : t Setting.t := fun st s => (Returns st, s).
Definition get : t Site.t := fun _ s => (Returns s, s).
Definition modify (f : Site.t -> Site.t) : t unit := fun _ s => (Returns tt, f s).

Definition set_world (w : World) (s : Site.t) : Site.t :=
  {| Site.world := w; Site.catalogue := Site.catalogue s;
     Site.page := Site.page s |}.

Definition set_page (f : Page.t -> Page.t) (s : Site.t) : Site.t :=
  {| Site.world := Site.world s; Site.catalogue := Site.catalogue s;
     Site.page := f (Site.page s) |}.

(** The table after a write: the world holds the columns of [Book.t] of its
    rows, which the join of [fetchRequests] reads. *)
Definition set_catalogue (l : list BookRow.t) (s : Site.t) : Site.t :=
  {| Site.world :=
       set_db (set_rows books_table (List.map BookRow.book l)) (Site.world s);
     Site.catalogue := l; Site.page := Site.page s |}.

Definition lift {A} (m : Js A) : t A :=
  fun st s =>
    match m (Setting.env st) (Site.world s) with
    | (Normal a, w') => (Returns a, set_world w' s)
    | (Throw e, w') => (Throws (StoreFailure e), set_world w' s)
    end.

Definition setBooks (l : list BookRow.t) : t unit :=
  modify (set_page (fun p =>
    {| Page.books := l; Page.loading := Page.loading p;
       Page.showForm := Page.showForm p; Page.formData := Page.formData p |})).

Definition setLoading (b : bool) : t unit :=
  modify (set_page (fun p =>
    {| Page.books := Page.books p; Page.loading := b;
       Page.showForm := Page.showForm p; Page.formData := Page.formData p |})).

Definition setShowForm (b : bool) : t unit :=
  modify (set_page (fun p =>
    {| Page.books := Page.books p; Page.loading := Page.loading p;
       Page.showForm := b; Page.formData := Page.formData p |})).

Definition setFormData (d : FormData.t) : t unit :=
  modify (set_page (fun p =>
    {| Page.books := Page.books p; Page.loading := Page.loading p;
       Page.showForm := Page.showForm p; Page.formData := d |})).

Definition toast (x : Toast) : t unit := lift (toast x).
Definition console_error (s : string) : t unit := lift (console_error s).

End Ui.

Declare Scope ui_scope.
Delimit Scope ui_scope with ui.
Notation "'let*' x ':=' m 'in' k" := (Ui.bind m (fun x => k))
  (at level 10, x name, m at level 100, k at level 200) : ui_scope.
Notation "'run' m 'in' k" := (Ui.bind m (fun _ => k))
  (at level 10, m at level 100, k at level 200) : ui_scope.
Open Scope ui_scope.

(** ** The store client on [books] *)

(** [.select('*')] with filters and [.order('createdat', { ascending: false })]. *)
Definition select_books (f : BookRow.t -> bool) : Ui.t (PgResult (list BookRow.t)) :=
  let* o := Ui.lift (store_call (CallSelect "books")) in
  let* s := Ui.get in
  match o with
  | Succeeds =>
      Ui.ret (pg_ok (Some (order_desc BookRow.createdat
                             (List.filter f (Site.catalogue s)))))
  | _ => Ui.ret (pg_err (PgError (CallSelect "books")))
  end.

(** [.insert(payload)]: the row is built from the payload, the generated id
    and the server's time. *)
Definition insert_book (mk : string -> string -> BookRow.t) : Ui.t (PgResult unit) :=
  let* st := Ui.ask in
  let* s0 := Ui.get in
  let* o := Ui.lift (store_call (CallInsert "books")) in
  match o with
  | Succeeds =>
      run Ui.modify (fun s =>
            Ui.set_catalogue
              (Site.catalogue s
               ++ [mk (gen_id (Setting.env st) (calls (Site.world s0)))
                      (server_now (Setting.env st) (calls (Site.world s0)))]) s) in
      Ui.ret (pg_ok None)
  | _ => Ui.ret (pg_err (PgError (CallInsert "books")))
  end.

(** [.delete()] with filters: one round trip, which removes every selected
    row when the store accepts it; the result is the [error] field. *)
Definition delete_books (f : BookRow.t -> bool) : Ui.t (option Failure) :=
  fun st s =>
    let s1 := Ui.set_world (tick (Site.world s)) s in
    match Setting.delete_outcome st (calls (Site.world s)) "books" with
    | Succeeds =>
        (Returns None,
         Ui.set_catalogue (List.filter (fun b => negb (f b)) (Site.catalogue s1)) s1)
    | ReturnsError => (Returns (Some (DeleteError "books")), s1)
    | Rejects => (Throws (DeleteRejected "books"), s1)
    end.

(** [if (error) throw error] *)
Definition throw_if_pg_error {A} (r : PgResult A) : Ui.t unit :=
  match error r with
  | Some e => Ui.throw (StoreFailure e)
  | None => Ui.ret tt
  end.

Definition throw_if_failure (error : option Failure) : Ui.t unit :=
  match error with
  | Some f => Ui.throw f
  | None => Ui.ret tt
  end.

(** Modelled from the spec: the row that an insert into [books] creates.
    The schema is not part of the sources; the id and the creation time are
    generated by the store, and the columns that the payload leaves out take
    the defaults of the setting. *)
Definition new_book (defaults : BookRow.t)
  (title author description : string) (category condition : option string)
  (donorid status : string) (id now : string) : BookRow.t :=
  {| BookRow.book :=
       {| Book.id := id; Book.title := title; Book.author := author;
          Book.description := description;
          Book.coverurl := Book.coverurl (BookRow.book defaults);
          Book.status := status;
          Book.isfeatured := Book.isfeatured (BookRow.book defaults);
          Book.donorid := donorid;
          Book.category :=
            default (Book.category (BookRow.book defaults)) category;
          Book.condition :=
            default (Book.condition (BookRow.book defaults)) condition |};
     BookRow.createdat := now;
     BookRow.is_free_to_read := BookRow.is_free_to_read defaults |}.

(** ** DonateBooks *)

Definition empty_form : FormData.t :=
  {| FormData.title := EmptyString; FormData.author := EmptyString;
     FormData.description := EmptyString; FormData.category := EmptyString;
     FormData.condition := EmptyString |}.

Definition toast_book_added (title : string) : Toast :=
  {| toast_title := "Book Added";
     toast_description :=
       (dq ++ title ++ dq ++ " has been added to your donated books.")%string;
     toast_variant := Default |}.

Definition toast_add_failed : Toast :=
  {| toast_title := "Error";
     toast_description := "Failed to add book. Please try again.";
     toast_variant := Destructive |}.

Definition toast_book_removed (title : string) : Toast :=
  {| toast_title := "Book Removed";
     toast_description :=
       (dq ++ title ++ dq ++ " has been removed from your donations.")%string;
     toast_variant := Default |}.

Definition toast_remove_failed : Toast :=
  {| toast_title := "Error";
     toast_description := "Failed to remove book. Please try again.";
     toast_variant := Destructive |}.

Definition toast_missing_information : Toast :=
  {| toast_title := "Missing Information";
     toast_description :=
       "Please fill in all required fields including category and condition.";
     toast_variant := Destructive |}.

Definition added_message (title : string) : string :=
  ("Your book " ++ dq ++ title ++ dq
   ++ " has been added and is now available for others to request.")%string.

Definition removed_message (title : string) : string :=
  ("Your book " ++ dq ++ title ++ dq ++ " has been removed from donations.")%string.

Definition donated_by (u : User.t) (b : BookRow.t) : bool :=
  String.eqb (Book.donorid (BookRow.book b)) (User.id u).

Definition has_id (bookId : string) (b : BookRow.t) : bool :=
  String.eqb (Book.id (BookRow.book b)) bookId.

(** The earlier revision of the component. *)
Module DonateBooksBase.

Definition fetchMyBooks (user : option User.t) : Ui.t unit :=
  match user with
  | None => Ui.ret tt
  | Some u =>
      Ui.try_catch
        (let* fetched := select_books (donated_by u) in
         run throw_if_pg_error fetched in
         Ui.setBooks (default [] (data fetched)))
        (fun _ => Ui.console_error "Error fetching my books:")
  end.

Definition handleSubmit (user : option User.t) : Ui.t unit :=
  let* s := Ui.get in
  let formData := Page.formData (Site.page s) in
  match user with
  | None => Ui.ret tt
  | Some u =>
      run Ui.setLoading true in
      Ui.try_finally
        (Ui.try_catch
           (let* st := Ui.ask in
            let* inserted :=
              insert_book
                (new_book (Setting.defaults st) (FormData.title formData)
                   (FormData.author formData) (FormData.description formData)
                   None None (User.id u) "available") in
            run throw_if_pg_error inserted in
            run Ui.toast (toast_book_added (FormData.title formData)) in
            run Ui.setFormData empty_form in
            run Ui.setShowForm false in
            Ui.not_awaited (fetchMyBooks user))
           (fun _ =>
              run Ui.console_error "Error adding book:" in
              Ui.toast toast_add_failed))
        (Ui.setLoading false)
  end.

Definition handleDeleteBook (user : option User.t) (bookId title : string)
  : Ui.t unit :=
  Ui.try_catch
    (let* error := delete_books (has_id bookId) in
     run throw_if_failure error in
     run Ui.toast (toast_book_removed title) in
     Ui.not_awaited (fetchMyBooks user))
    (fun _ =>
       run Ui.console_error "Error deleting book:" in
       Ui.toast toast_remove_failed).

End DonateBooksBase.

(** The later revision: category and condition are required, and the donor
    is notified of what they did. *)
Module DonateBooks.

Definition fetchMyBooks (user : option User.t) : Ui.t unit :=
  match user with
  | None => Ui.ret tt
  | Some u =>
      Ui.try_catch
        (let* fetched := select_books (donated_by u) in
         run throw_if_pg_error fetched in
         Ui.setBooks (default [] (data fetched)))
        (fun _ => Ui.console_error "Error fetching my books:")
  end.

Definition createNotification (userId type title message : string) : Ui.t unit :=
  Ui.try_catch
    (let* _ := Ui.lift (rpc_create_book_notification userId type title message) in
     Ui.ret tt)
    (fun _ => Ui.console_error "Error creating notification:").

Definition handleSubmit (user : option User.t) : Ui.t unit :=
  let* s := Ui.get in
  let formData := Page.formData (Site.page s) in
  match user with
  | Some u =>
      if negb (truthy (FormData.category formData))
         || negb (truthy (FormData.condition formData))
      then Ui.toast toast_missing_information
      else
        run Ui.setLoading true in
        Ui.try_finally
          (Ui.try_catch
             (let* st := Ui.ask in
              let* inserted :=
                insert_book
                  (new_book (Setting.defaults st) (FormData.title formData)
                     (FormData.author formData) (FormData.description formData)
                     (Some (FormData.category formData))
                     (Some (FormData.condition formData))
                     (User.id u) "available") in
              run throw_if_pg_error inserted in
              run createNotification (User.id u) "book_added"
                    "Book Added Successfully"
                    (added_message (FormData.title formData)) in
              run Ui.toast (toast_book_added (FormData.title formData)) in
              run Ui.setFormData empty_form in
              run Ui.setShowForm false in
              Ui.not_awaited (fetchMyBooks user))
             (fun _ =>
                run Ui.console_error "Error adding book:" in
                Ui.toast toast_add_failed))
          (Ui.setLoading false)
  | None => Ui.toast toast_missing_information
  end.

Definition handleDeleteBook (user : option User.t) (bookId title : string)
  : Ui.t unit :=
  Ui.try_catch
    (let* error := delete_books (has_id bookId) in
     run throw_if_failure error in
     run match user with
         | Some u => createNotification (User.id u) "book_removed"
                       "Book Removed" (removed_message title)
         | None => Ui.ret tt
         end in
     run Ui.toast (toast_book_removed title) in
     Ui.not_awaited (fetchMyBooks user))
    (fun _ =>
       run Ui.console_error "Error deleting book:" in
       Ui.toast toast_remove_failed).

End DonateBooks.

(** ** The lists of books *)

Definition is_available (b : BookRow.t) : bool :=
  String.eqb (Book.status (BookRow.book b)) "available".

(** [.eq('is_free_to_read', flag)]: a null flag matches neither value. *)
Definition free_to_read_is (flag : bool) (b : BookRow.t) : bool :=
  match BookRow.is_free_to_read b with
  | Some x => Bool.eqb x flag
  | None => false
  end.

Definition toast_books_failed : Toast :=
  {| toast_title := "Error";
     toast_description := "Failed to load books. Please try again.";
     toast_variant := Destructive |}.

Definition toast_free_books_failed : Toast :=
  {| toast_title := "Error";
     toast_description := "Failed to load free books. Please try again.";
     toast_variant := Destructive |}.

(** [fetchFreeBooks] of [FreeBooks]; its cell [freeBooks] is [Page.books]. *)
Module FreeBooks.

Definition fetchFreeBooks : Ui.t unit :=
  Ui.try_finally
    (Ui.try_catch
       (let* fetched :=
          select_books (fun b => free_to_read_is true b && is_available b) in
        run throw_if_pg_error fetched in
        Ui.setBooks (default [] (data fetched)))
       (fun _ =>
          run Ui.console_error "Error fetching free books:" in
          Ui.toast toast_free_books_failed))
    (Ui.setLoading false).

End FreeBooks.

(** [fetchBooks] of the earlier revision of [BooksList]. *)
Module BrowseBase.

Definition fetchBooks : Ui.t unit :=
  Ui.try_finally
    (Ui.try_catch
       (let* fetched := select_books is_available in
        run throw_if_pg_error fetched in
        Ui.setBooks (default [] (data fetched)))
       (fun _ =>
          run Ui.console_error "Error fetching books:" in
          Ui.toast toast_books_failed))
    (Ui.setLoading false).

End BrowseBase.

(** [fetchBooks] of the later revision of [BooksList]. *)
Module Browse.

Definition fetchBooks : Ui.t unit :=
  Ui.try_finally
    (Ui.try_catch
       (let* fetched :=
          select_books (fun b => is_available b && free_to_read_is false b) in
        run throw_if_pg_error fetched in
        Ui.setBooks (default [] (data fetched)))
       (fun _ =>
          run Ui.console_error "Error fetching books:" in
          Ui.toast toast_books_failed))
    (Ui.setLoading false).

End Browse.

Close Scope ui_scope.

(** ** The vocabulary of the catalogue *)

(** The rows a listing selects with a filter, newest first. *)
Definition listed (f : BookRow.t -> bool) (l : list BookRow.t) : list BookRow.t :=
  order_desc BookRow.createdat (List.filter f l).

(** The site after a round trip, a log, a toast; and the site as another
    component or another browser holds it. *)
Definition ticked (s : Site.t) : Site.t := Ui.set_world (tick (Site.world s)) s.

Definition logged (label : string) (s : Site.t) : Site.t :=
  Ui.set_world (add_console label (Site.world s)) s.

Definition toasted (x : Toast) (s : Site.t) : Site.t :=
  Ui.set_world (add_toast x (Site.world s)) s.

Definition on_page (p : Page.t) (s : Site.t) : Site.t :=
  {| Site.world := Site.world s; Site.catalogue := Site.catalogue s;
     Site.page := p |}.

(** The world holds the columns of [Book.t] of the rows of the table. *)
Definition coherent (s : Site.t) : Prop :=
  books (db (Site.world s)) = List.map BookRow.book (Site.catalogue s).

(** The row a donation creates from the form. *)
Definition donated (st : Setting.t) (s : Site.t) (u : User.t)
  (category condition : option string) : BookRow.t :=
  let formData := Page.formData (Site.page s) in
  new_book (Setting.defaults st) (FormData.title formData)
    (FormData.author formData) (FormData.description formData)
    category condition (User.id u) "available"
    (gen_id (Setting.env st) (calls (Site.world s)))
    (server_now (Setting.env st) (calls (Site.world s))).

(** ** A catalogue to run the handlers on *)

Definition blank_page : Page.t :=
  {| Page.books := []; Page.loading := false; Page.showForm := false;
     Page.formData := empty_form |}.

Definition dune_form : FormData.t :=
  {| FormData.title := "Dune"; FormData.author := "Frank Herbert";
     FormData.description := "A desert planet"; FormData.category := "adventure";
     FormData.condition := "good" |}.

Definition form_page (d : FormData.t) : Page.t :=
  {| Page.books := []; Page.loading := false; Page.showForm := true;
     Page.formData := d |}.

Definition row_of (b : Book.t) (created : string) (free : option bool) : BookRow.t :=
  {| BookRow.book := b; BookRow.createdat := created;
     BookRow.is_free_to_read := free |}.

Definition site_of (l : list BookRow.t) (p : Page.t) : Site.t :=
  {| Site.world :=
       world_of {| books := List.map BookRow.book l; book_requests := [];
                   contact_exchanges := []; notifications := [] |};
     Site.catalogue := l; Site.page := p |}.

Definition setting_with (e : Env) (deletes : nat -> string -> Outcome) : Setting.t :=
  {| Setting.env := e; Setting.delete_outcome := deletes;
     Setting.defaults := row_of dune EmptyString (Some false) |}.

Definition setting_ok : Setting.t := setting_with env_ok (fun _ _ => Succeeds).

(** * Properties *)

(** ** Trimming *)

Lemma strip_prefix_length p l r :
  strip_prefix p l = Some r -> length l = length p + length r.
Proof.
  revert l. induction p as [| n p IH]; intros l H; cbn in H.
  - injection H as ->. reflexivity.
  - destruct l as [| c l]; [discriminate |].
    destruct (Nat.eqb (nat_of_ascii c) n); [| discriminate].
    cbn. rewrite (IH l H). reflexivity.
Qed.

Lemma strip_space_shorter codes l r :
  (forall p, In p codes -> p <> []) ->
  strip_space codes l = Some r -> length r < length l.
Proof.
  intros Hcodes. induction codes as [| p codes IH]; cbn; [discriminate |].
  destruct (strip_prefix p l) as [r' |] eqn:Hp.
  - intros H. injection H as ->. apply strip_prefix_length in Hp.
    assert (p <> []) by (apply Hcodes; left; reflexivity).
    destruct p; [contradiction | cbn in Hp; lia].
  - apply IH. intros q Hq. apply Hcodes. right. exact Hq.
Qed.

(** The fuel is enough: what [strip_spaces] returns does not start with one
    of the sequences. *)
Lemma strip_spaces_done codes fuel l :
  (forall p, In p codes -> p <> []) ->
  length l <= fuel -> strip_space codes (strip_spaces codes fuel l) = None.
Proof.
  intros Hcodes. revert l. induction fuel as [| fuel IH]; intros l Hfuel; cbn.
  - destruct (strip_space codes l) as [r |] eqn:Hr; [| reflexivity].
    apply strip_space_shorter in Hr; [lia | exact Hcodes].
  - destruct (strip_space codes l) as [r |] eqn:Hr; [| exact Hr].
    apply IH. apply strip_space_shorter in Hr; [lia | exact Hcodes].
Qed.

Lemma white_space_codes p : In p white_space -> p <> [].
Proof.
  intros Hp. cbn in Hp.
  repeat (destruct Hp as [<- | Hp]; [discriminate |]). contradiction.
Qed.

Lemma white_space_codes_rev p : In p (List.map (@rev nat) white_space) -> p <> [].
Proof.
  intros Hp. cbn in Hp.
  repeat (destruct Hp as [<- | Hp]; [discriminate |]). contradiction.
Qed.

(** [trim] leaves no white space at either end. *)
Lemma trim_start_done s :
  strip_space white_space (list_ascii_of_string (trim_start s)) = None.
Proof.
  unfold trim_start. rewrite list_ascii_of_string_of_list_ascii.
  apply strip_spaces_done; [exact white_space_codes | reflexivity].
Qed.

Lemma trim_end_done s :
  strip_space (List.map (@rev nat) white_space)
    (rev (list_ascii_of_string (trim_end s))) = None.
Proof.
  unfold trim_end. rewrite list_ascii_of_string_of_list_ascii, rev_involutive.
  apply strip_spaces_done; [exact white_space_codes_rev | reflexivity].
Qed.

(** The white space of Unicode is stripped as the ASCII one is, and the
    bytes between are kept. *)
Example trim_sample :
  trim (nbsp ++ " 555 0100" ++ nbsp ++ " ")%string = "555 0100"
  /\ trim (nbsp ++ " ")%string = EmptyString
  /\ trim "12 Oak St" = "12 Oak St".
Proof. repeat split; reflexivity. Qed.

(** ** Reasoning about the monad *)

Ltac js_unfold :=
  unfold try_catch, try_finally, not_awaited, single, pg_map, pg_select,
    pg_insert, pg_update, rpc_create_book_notification, store_call,
    throw_if_error, console_error, toast, setRequestingBooks,
    setProcessingRequests, setSentRequests, setReceivedRequests,
    setContactExchanges, setLoading, setSharing, setNotifications,
    bind, ret, throw, get, ask, modify in *.

(** ** Frames

    [keeps p m]: the run of [m] leaves the part [p] of the world as it found
    it, however the store calls end. *)

Section Frames.

Context {B : Type} (p : World -> B).

Lemma keeps_ret {A} (a : A) : keeps p (ret a).
Proof. intros env w. reflexivity. Qed.

Lemma keeps_throw {A} (e : Err) : keeps p (@throw A e).
Proof. intros env w. reflexivity. Qed.

Lemma keeps_get : keeps p get.
Proof. intros env w. reflexivity. Qed.

Lemma keeps_ask : keeps p ask.
Proof. intros env w. reflexivity. Qed.

Lemma keeps_bind {A C} (m : Js A) (k : A -> Js C) :
  keeps p m -> (forall a, keeps p (k a)) -> keeps p (bind m k).
Proof.
  intros Hm Hk env w. unfold bind. specialize (Hm env w).
  destruct (m env w) as [[a | e] w']; simpl in *.
  - rewrite Hk. exact Hm.
  - exact Hm.
Qed.

Lemma keeps_try_catch {A} (m : Js A) (h : Err -> Js A) :
  keeps p m -> (forall e, keeps p (h e)) -> keeps p (try_catch m h).
Proof.
  intros Hm Hh env w. unfold try_catch. specialize (Hm env w).
  destruct (m env w) as [[a | e] w']; simpl in *.
  - exact Hm.
  - rewrite Hh. exact Hm.
Qed.

Lemma keeps_try_finally {A} (m : Js A) (f : Js unit) :
  keeps p m -> keeps p f -> keeps p (try_finally m f).
Proof.
  intros Hm Hf env w. unfold try_finally. specialize (Hm env w).
  destruct (m env w) as [c w']; simpl in *.
  specialize (Hf env w').
  destruct (f env w') as [[[] | e] w'']; simpl in *; congruence.
Qed.

Lemma keeps_not_awaited (m : Js unit) : keeps p m -> keeps p (not_awaited m).
Proof.
  intros Hm env w. unfold not_awaited. specialize (Hm env w).
  destruct (m env w) as [c w']. exact Hm.
Qed.

Lemma keeps_modify (f : World -> World) :
  (forall w, p (f w) = p w) -> keeps p (modify f).
Proof. intros Hf env w. apply Hf. Qed.

(** The parts that do not count the store calls. *)
Hypothesis p_tick : forall w, p (tick w) = p w.

Lemma keeps_store_call (c : StoreCall) : keeps p (store_call c).
Proof.
  intros env w. unfold store_call.
  destruct (outcome env (calls w) c); apply p_tick.
Qed.

Lemma keeps_pg_select {R} (t : Table R) (f : R -> bool) : keeps p (pg_select t f).
Proof.
  unfold pg_select. apply keeps_bind; [apply keeps_store_call |].
  intros o. apply keeps_bind; [apply keeps_get |].
  intros w. destruct o; apply keeps_ret.
Qed.

(** A write to a table keeps p what does not depend on its rows. *)
Lemma keeps_pg_insert {R} (t : Table R) (mk : string -> string -> R) :
  (forall l w, p (set_db (set_rows t l) w) = p w) -> keeps p (pg_insert t mk).
Proof.
  intros Ht env w. unfold pg_insert, bind, ask, get, store_call, modify, ret.
  destruct (outcome env (calls w) (CallInsert (tname t))); try apply p_tick.
  cbn. etransitivity; [| apply p_tick].
  apply (Ht (rows t (db w) ++ [mk (gen_id env (calls w))
                                  (server_now env (calls w))]) (tick w)).
Qed.

Lemma keeps_pg_update {R} (t : Table R) (patch : R -> R) (f : R -> bool) :
  (forall l w, p (set_db (set_rows t l) w) = p w) -> keeps p (pg_update t patch f).
Proof.
  intros Ht env w. unfold pg_update, bind, store_call, modify, ret.
  destruct (outcome env (calls w) (CallUpdate (tname t))); try apply p_tick.
  cbn. etransitivity; [| apply p_tick].
  apply (Ht (List.map (fun r => if f r then patch r else r) (rows t (db w)))
            (tick w)).
Qed.

Lemma keeps_rpc_create_book_notification userId type title message :
  (forall l w, p (set_db (set_rows notifications_table l) w) = p w) ->
  keeps p (rpc_create_book_notification userId type title message).
Proof.
  intros Ht env w.
  unfold rpc_create_book_notification, bind, ask, get, store_call, modify, ret.
  destruct (outcome env (calls w) (CallRpc "create_book_notification"));
    try apply p_tick.
  cbn. etransitivity; [| apply p_tick].
  apply (Ht (notifications (db w) ++
             [new_notification userId type title message
                (gen_id env (calls w)) (server_now env (calls w))]) (tick w)).
Qed.

Lemma keeps_pg_map {A C} (g : A -> C) (m : Js (PgResult A)) :
  keeps p m -> keeps p (pg_map g m).
Proof.
  intros Hm. unfold pg_map. apply keeps_bind; [exact Hm |].
  intros r. apply keeps_ret.
Qed.

Lemma keeps_single {A} (m : Js (PgResult (list A))) :
  keeps p m -> keeps p (single m).
Proof.
  intros Hm. unfold single. apply keeps_bind; [exact Hm |].
  intros r. destruct (data r) as [[| x [| y l]] |]; apply keeps_ret.
Qed.

Lemma keeps_throw_if_error {A} (r : PgResult A) : keeps p (throw_if_error r).
Proof.
  unfold throw_if_error. destruct (error r); [apply keeps_throw | apply keeps_ret].
Qed.

End Frames.

Create HintDb frame.
#[export] Hint Resolve keeps_ret keeps_throw keeps_get keeps_ask
  keeps_store_call keeps_pg_select keeps_pg_map keeps_single
  keeps_throw_if_error keeps_not_awaited : frame.

(** Decomposes a handler along its control structure; the side conditions
    on the projection are closed by computation. *)
Ltac frame :=
  repeat first
    [ apply keeps_bind; [| intros ?]
    | apply keeps_try_catch; [| intros ?]
    | apply keeps_try_finally
    | apply keeps_modify; intros ?; reflexivity
    | apply keeps_pg_insert; [intros ?; reflexivity | intros ? ?; reflexivity]
    | apply keeps_pg_update; [intros ?; reflexivity | intros ? ?; reflexivity]
    | apply keeps_rpc_create_book_notification;
        [intros ?; reflexivity | intros ? ?; reflexivity]
    | progress auto with frame
    | match goal with
      | |- keeps _ (match ?x with _ => _ end) => destruct x
      | |- keeps _ (if ?b then _ else _) => destruct b
      end ].

Ltac unfold_setters :=
  unfold console_error, toast, setRequestingBooks, setProcessingRequests,
    setSentRequests, setReceivedRequests, setContactExchanges, setLoading,
    setSharing, setNotifications.

(** Fetching the requests reads the store and writes none of it. *)
Lemma keeps_db_select_requests column user : keeps db (select_requests column user).
Proof. unfold select_requests. frame. Qed.

Lemma keeps_db_base_fetchRequests user : keeps db (MyRequestsBase.fetchRequests user).
Proof.
  unfold MyRequestsBase.fetchRequests. unfold_setters.
  destruct user; frame; apply keeps_db_select_requests.
Qed.

Lemma keeps_db_fetchRequests user : keeps db (MyRequests.fetchRequests user).
Proof.
  unfold MyRequests.fetchRequests. unfold_setters.
  destruct user; frame; apply keeps_db_select_requests.
Qed.

(** ** The markers of the calls in flight

    The later revisions mark the book (the request) of a handler that is
    running and drop every call for a marked one.  Each handler removes its
    mark on all its exits, so between two calls nothing is marked: the
    condition of the properties below, that the book (the request) is not
    marked, holds whenever no call for it is running. *)

Lemma has_false (s : gset string) (x : string) : has s x = false <-> x ∉ s.
Proof.
  unfold has. apply bool_decide_eq_false.
Qed.

(** [new Set(prev).add(x)] followed by [delete(x)] restores a set without [x]. *)
Lemma add_then_delete (s : gset string) (x : string) :
  x ∉ s -> (s ∪ {[x]}) ∖ {[x]} = s.
Proof.
  intros Hx. apply set_eq. intros y.
  rewrite elem_of_difference, elem_of_union, elem_of_singleton.
  split.
  - intros [[Hy | Hy] Hne]; [exact Hy | contradiction].
  - intros Hy. split; [left; exact Hy |]. intros ->. contradiction.
Qed.

Lemma try_finally_modify {A} (body : Js A) (f : World -> World) env w :
  try_finally body (modify f) env w = (fst (body env w), f (snd (body env w))).
Proof. unfold try_finally, modify. destruct (body env w). reflexivity. Qed.

Lemma keeps_requestingBooks_createNotification userId type title message :
  keeps (fun w => requestingBooks (client w))
    (BooksList.createNotification userId type title message).
Proof. unfold BooksList.createNotification. unfold_setters. frame. Qed.

Lemma handleRequestBook_releases env w user book :
  has (requestingBooks (client w)) (Book.id book) = false ->
  requestingBooks (client (snd (BooksList.handleRequestBook user book env w)))
  = requestingBooks (client w).
Proof.
  intros Hfree. unfold BooksList.handleRequestBook.
  unfold bind at 1, get at 1. cbn beta iota.
  destruct user as [u |]; [| reflexivity]. rewrite Hfree.
  unfold bind at 1, setRequestingBooks, modify at 1. cbn beta iota.
  rewrite try_finally_modify. cbn [snd].
  match goal with |- context [snd (?m env ?w1)] =>
    assert (Hk : keeps (fun w => requestingBooks (client w)) m)
  end.
  { pose proof keeps_requestingBooks_createNotification.
    unfold select_existing_request, insert_request. unfold_setters. frame. }
  cbn. rewrite (Hk env _). cbn.
  apply add_then_delete, has_false, Hfree.
Qed.

Lemma keeps_processingRequests_fetchRequests user :
  keeps (fun w => processingRequests (client w)) (MyRequests.fetchRequests user).
Proof.
  unfold MyRequests.fetchRequests, select_requests. unfold_setters.
  destruct user; frame.
Qed.

Lemma handleRequestResponse_releases env w user requestId d requesterId bookTitle :
  has (processingRequests (client w)) requestId = false ->
  processingRequests
    (client (snd (MyRequests.handleRequestResponse user requestId d requesterId
                    bookTitle env w)))
  = processingRequests (client w).
Proof.
  intros Hfree. unfold MyRequests.handleRequestResponse.
  unfold bind at 1, get at 1. cbn beta iota. rewrite Hfree.
  unfold bind at 1, setProcessingRequests, modify at 1. cbn beta iota.
  rewrite try_finally_modify. cbn [snd].
  match goal with |- context [snd (?m env ?w1)] =>
    assert (Hk : keeps (fun w => processingRequests (client w)) m)
  end.
  { pose proof keeps_processingRequests_fetchRequests.
    unfold MyRequests.createNotification. unfold_setters. frame. }
  cbn. rewrite (Hk env _). cbn.
  apply add_then_delete, has_false, Hfree.
Qed.

(** ** Creating a request *)

Lemma is_pending_request_spec book_id requester_id r :
  is_pending_request book_id requester_id r = true <->
  BookRequest.book_id r = book_id /\ BookRequest.requester_id r = requester_id
  /\ BookRequest.status r = "pending".
Proof.
  unfold is_pending_request. rewrite !andb_true_iff, !String.eqb_eq. tauto.
Qed.

(** The text of the message is the template of the source. *)
Example request_message_dune :
  request_message dune
  = ("I would like to borrow " ++ dq ++ "Dune" ++ dq ++ " by Frank Herbert.")%string.
Proof. reflexivity. Qed.

(** The existence query, when the store answers: the id of the pending
    request when there is exactly one, and null otherwise. *)
Lemma select_existing_request_succeeds env w u book :
  outcome env (calls w) (CallSelect "book_requests") = Succeeds ->
  select_existing_request book u env w =
  (Normal
     match List.filter (is_pending_request (Book.id book) (User.id u))
             (book_requests (db w)) with
     | [r] => pg_ok (Some (BookRequest.id r))
     | _ => pg_err NotSingleRow
     end, tick w).
Proof.
  intros Hok. unfold select_existing_request. js_unfold. simpl. rewrite Hok. simpl.
  destruct (List.filter _ _) as [| r [| r' l]]; reflexivity.
Qed.

Lemma select_existing_request_error env w u book :
  outcome env (calls w) (CallSelect "book_requests") = ReturnsError ->
  select_existing_request book u env w =
  (Normal (pg_err (PgError (CallSelect "book_requests"))), tick w).
Proof.
  intros Herr. unfold select_existing_request. js_unfold. simpl. rewrite Herr.
  reflexivity.
Qed.

(** C1, where the check of the handler finds the request: when the
    existence query succeeds and finds exactly one pending request of the
    user for the book, the handler shows "Already Requested" and writes
    nothing: the store after the call is the store before it, in both
    revisions (in the later one when no request for the book is in
    flight). *)
Theorem duplicate_request_rejected env w u book r :
  outcome env (calls w) (CallSelect "book_requests") = Succeeds ->
  List.filter (is_pending_request (Book.id book) (User.id u))
    (book_requests (db w)) = [r] ->
  (let res := BooksListBase.handleRequestBook (Some u) book env w in
   fst res = Normal tt /\ db (snd res) = db w
   /\ toasts (snd res) = toasts w ++ [toast_already_requested])
  /\ (has (requestingBooks (client w)) (Book.id book) = false ->
      let res := BooksList.handleRequestBook (Some u) book env w in
      fst res = Normal tt /\ db (snd res) = db w
      /\ toasts (snd res) = toasts w ++ [toast_already_requested]).
Proof.
  intros Hok Hone. split.
  - intros res.
    assert (Hres : res = (Normal tt, add_toast toast_already_requested (tick w))).
    { unfold res, BooksListBase.handleRequestBook, try_catch, bind.
      rewrite select_existing_request_succeeds by exact Hok.
      rewrite Hone. reflexivity. }
    rewrite Hres. repeat split.
  - intros Hfree res.
    assert (Hres : exists w', res = (Normal tt, w') /\ db w' = db w
                   /\ toasts w' = toasts w ++ [toast_already_requested]).
    { unfold res, BooksList.handleRequestBook. unfold bind at 1, get at 1.
      cbn beta iota. rewrite Hfree.
      unfold try_finally, try_catch, bind, setRequestingBooks, modify.
      rewrite select_existing_request_succeeds by exact Hok.
      simpl. rewrite Hone. simpl. eexists. repeat split. }
    destruct Hres as (w' & -> & Hdb & Htoasts). auto.
Qed.

Lemma duplicate_request_rejected_witness :
  let w := world_of (store_of [dune_request "req-1" "pending"] [] []) in
  db (snd (BooksListBase.handleRequestBook (Some bob) dune env_ok w)) = db w
  /\ db (snd (BooksList.handleRequestBook (Some bob) dune env_ok w)) = db w.
Proof.
  intros w.
  destruct (duplicate_request_rejected env_ok w bob dune
              (dune_request "req-1" "pending") eq_refl eq_refl)
    as [(_ & Hbase & _) Hext].
  split; [exact Hbase |].
  destruct (Hext eq_refl) as (_ & Hdb & _). exact Hdb.
Defined.

(** C1, where the check misses although a pending request exists.  The
    handler reads "Check if user already requested this book", but it tests
    the data of [single()] alone.  On a ledger with two pending requests of
    the user for the book (the check-then-insert race leaves such ledgers)
    [single()] yields no row, and a third request and the notification are
    written.  With one pending request and an existence query that resolves
    with an error, the error is dropped (the one call of the handler without
    [if (error) throw error]) and a second pending request is written. *)
Lemma duplicate_request_counterexample :
  let w := world_of (store_of [dune_request "req-1" "pending";
                               dune_request "req-2" "pending"] [] []) in
  let base := snd (BooksListBase.handleRequestBook (Some bob) dune env_ok w) in
  let ext := snd (BooksList.handleRequestBook (Some bob) dune env_ok w) in
  let w1 := world_of (store_of [dune_request "req-1" "pending"] [] []) in
  let base1 := snd (BooksListBase.handleRequestBook (Some bob) dune
                      env_select_fails w1) in
  (List.map BookRequest.id (ledger base) = ["req-1"; "req-2"; "row-1"]
   /\ List.map BookRequest.status (ledger base) = ["pending"; "pending"; "pending"]
   /\ length (outbox base) = 1
   /\ toasts base = [toast_request_sent dune])
  /\ (List.map BookRequest.id (ledger ext) = ["req-1"; "req-2"; "row-1"]
      /\ length (outbox ext) = 2
      /\ toasts ext = [toast_request_sent dune])
  /\ (List.map BookRequest.id (ledger base1) = ["req-1"; "row-1"]
      /\ List.map BookRequest.status (ledger base1) = ["pending"; "pending"]
      /\ toasts base1 = [toast_request_sent dune]).
Proof. vm_compute. repeat split. Qed.

#[local] Arguments store_call : simpl never.
#[local] Arguments pg_select : simpl never.
#[local] Arguments pg_insert : simpl never.
#[local] Arguments pg_update : simpl never.
#[local] Arguments rpc_create_book_notification : simpl never.
#[local] Arguments select_existing_request : simpl never.
#[local] Arguments select_requests : simpl never.
#[local] Arguments BooksList.createNotification : simpl never.
#[local] Arguments MyRequests.createNotification : simpl never.
#[local] Arguments MyRequests.fetchRequests : simpl never.
#[local] Arguments MyRequestsBase.fetchRequests : simpl never.
#[local] Arguments has : simpl never.
#[local] Arguments MyRequests.approvedRequestIds : simpl never.
#[local] Arguments MyRequests.exchangeMap : simpl never.
#[local] Arguments Nat.ltb : simpl never.

(** The three ways a call of each kind can end. *)
Lemma pg_insert_run {R} (t : Table R) (mk : string -> string -> R) env w :
  pg_insert t mk env w =
  match outcome env (calls w) (CallInsert (tname t)) with
  | Succeeds =>
      (Normal (pg_ok None),
       set_db (fun s => set_rows t (rows t s ++ [mk (gen_id env (calls w))
                                                    (server_now env (calls w))]) s)
         (tick w))
  | ReturnsError => (Normal (pg_err (PgError (CallInsert (tname t)))), tick w)
  | Rejects => (Throw (Rejected (CallInsert (tname t))), tick w)
  end.
Proof.
  unfold pg_insert. js_unfold.
  destruct (outcome env (calls w) (CallInsert (tname t))); reflexivity.
Qed.

Lemma pg_update_run {R} (t : Table R) (patch : R -> R) (f : R -> bool) env w :
  pg_update t patch f env w =
  match outcome env (calls w) (CallUpdate (tname t)) with
  | Succeeds =>
      (Normal (pg_ok None),
       set_db (fun s => set_rows t (List.map (fun r => if f r then patch r else r)
                                      (rows t s)) s) (tick w))
  | ReturnsError => (Normal (pg_err (PgError (CallUpdate (tname t)))), tick w)
  | Rejects => (Throw (Rejected (CallUpdate (tname t))), tick w)
  end.
Proof.
  unfold pg_update. js_unfold.
  destruct (outcome env (calls w) (CallUpdate (tname t))); reflexivity.
Qed.

Lemma pg_select_run {R} (t : Table R) (f : R -> bool) env w :
  pg_select t f env w =
  match outcome env (calls w) (CallSelect (tname t)) with
  | Succeeds => (Normal (pg_ok (Some (List.filter f (rows t (db w))))), tick w)
  | ReturnsError => (Normal (pg_err (PgError (CallSelect (tname t)))), tick w)
  | Rejects => (Throw (Rejected (CallSelect (tname t))), tick w)
  end.
Proof.
  unfold pg_select. js_unfold.
  destruct (outcome env (calls w) (CallSelect (tname t))); reflexivity.
Qed.

(** [createNotification] never throws: an error of the procedure is dropped
    and a rejection is logged. *)
Lemma createNotification_run userId type title message env w :
  BooksList.createNotification userId type title message env w =
  (Normal tt,
   match outcome env (calls w) (CallRpc "create_book_notification") with
   | Succeeds =>
       push_notification
         (new_notification userId type title message (gen_id env (calls w))
            (server_now env (calls w))) (tick w)
   | ReturnsError => tick w
   | Rejects => add_console "Error creating notification:" (tick w)
   end).
Proof.
  unfold BooksList.createNotification. js_unfold.
  destruct (outcome env (calls w) (CallRpc "create_book_notification"));
    reflexivity.
Qed.

Lemma createNotification_same :
  MyRequests.createNotification = BooksList.createNotification.
Proof. reflexivity. Qed.

(** C2: for a user [u] other than the donor of [book], with no pending
    request of [u] for [book] and a store that answers, the handler inserts
    exactly one request, pending, with the message built from the title and
    the author, and exactly one [book_request] notification for the donor;
    the later revision also inserts one [request_sent] notification for
    [u]. *)
Theorem request_created env w u book :
  showsRequestButton (Some u) book = true ->
  List.filter (is_pending_request (Book.id book) (User.id u))
    (book_requests (db w)) = [] ->
  (forall n c, outcome env n c = Succeeds) ->
  let request :=
    {| BookRequest.id := gen_id env (1 + calls w);
       BookRequest.book_id := Book.id book;
       BookRequest.requester_id := User.id u;
       BookRequest.donor_id := Book.donorid book;
       BookRequest.message :=
         ("I would like to borrow " ++ dq ++ Book.title book ++ dq ++ " by "
          ++ Book.author book ++ ".")%string;
       BookRequest.status := "pending";
       BookRequest.created_at := server_now env (1 + calls w);
       BookRequest.updated_at := server_now env (1 + calls w) |} in
  let to_donor :=
    {| Notification.id := gen_id env (2 + calls w);
       Notification.userid := Book.donorid book;
       Notification.type := "book_request";
       Notification.title := "New Book Request";
       Notification.message := donor_message book;
       Notification.read := false;
       Notification.createdat := server_now env (2 + calls w) |} in
  let to_requester :=
    {| Notification.id := gen_id env (3 + calls w);
       Notification.userid := User.id u;
       Notification.type := "request_sent";
       Notification.title := "Request Sent";
       Notification.message := sent_message book;
       Notification.read := false;
       Notification.createdat := server_now env (3 + calls w) |} in
  (exists w',
     BooksListBase.handleRequestBook (Some u) book env w = (Normal tt, w')
     /\ book_requests (db w') = book_requests (db w) ++ [request]
     /\ notifications (db w') = notifications (db w) ++ [to_donor]
     /\ toasts w' = toasts w ++ [toast_request_sent book])
  /\ (has (requestingBooks (client w)) (Book.id book) = false ->
      exists w',
        BooksList.handleRequestBook (Some u) book env w = (Normal tt, w')
        /\ book_requests (db w') = book_requests (db w) ++ [request]
        /\ notifications (db w') = notifications (db w) ++ [to_donor; to_requester]
        /\ toasts w' = toasts w ++ [toast_request_sent book]).
Proof.
  intros _ Hnone Hok. cbv zeta. split.
  - unfold BooksListBase.handleRequestBook, try_catch, bind.
    rewrite select_existing_request_succeeds by apply Hok.
    rewrite Hnone. cbn [data pg_err].
    unfold insert_request.
    repeat (progress (rewrite ?pg_insert_run, ?Hok; cbn)).
    eexists. repeat split.
  - intros Hfree.
    unfold BooksList.handleRequestBook. unfold bind at 1, get at 1.
    cbn beta iota. rewrite Hfree.
    unfold try_finally, try_catch, bind, setRequestingBooks, modify.
    rewrite select_existing_request_succeeds by apply Hok.
    cbn. rewrite Hnone. cbn.
    unfold insert_request.
    repeat (progress (rewrite ?pg_insert_run, ?createNotification_run, ?Hok; cbn)).
    eexists. split; [reflexivity |]. cbn.
    rewrite <- app_assoc. repeat split.
Qed.

Lemma showsRequestButton_spec u book :
  showsRequestButton (Some u) book = true <-> User.id u <> Book.donorid book.
Proof.
  unfold showsRequestButton. rewrite negb_true_iff.
  split.
  - intros H. apply String.eqb_neq. exact H.
  - intros H. apply String.eqb_neq. exact H.
Qed.

Lemma request_created_witness :
  let w := world_of (store_of [dune_request "req-0" "rejected"] [] []) in
  exists w',
    BooksList.handleRequestBook (Some bob) dune env_ok w = (Normal tt, w')
    /\ List.map BookRequest.status (book_requests (db w')) = ["rejected"; "pending"]
    /\ List.map Notification.userid (notifications (db w')) = ["user-a"; "user-b"].
Proof.
  intros w.
  destruct (request_created env_ok w bob dune eq_refl eq_refl
              (fun _ _ => eq_refl)) as [_ Hext].
  destruct (Hext eq_refl) as (w' & Hrun & Hreq & Hnote & _).
  exists w'. split; [exact Hrun |].
  rewrite Hreq, Hnote. split; reflexivity.
Defined.

(** ** The discarded error of the existence query *)

#[local] Arguments answering : simpl never.

Lemma answering_at o k env c : outcome (answering o k env) k c = o.
Proof. unfold answering. simpl. rewrite Nat.eqb_refl. reflexivity. Qed.

Lemma answering_later o k env n c :
  k < n -> outcome (answering o k env) n c = outcome env n c.
Proof.
  intros Hlt. unfold answering. simpl.
  destruct (Nat.eqb_spec n k); [lia | reflexivity].
Qed.

Lemma drop_new_rows {R} (l new : list R) : drop (length l) (l ++ new) = new.
Proof. induction l; simpl; auto. Qed.

Lemma drop_no_rows {R} (l : list R) : drop (length l) l = [].
Proof. induction l; simpl; auto. Qed.

(** C10: when the existence query resolves with an error, the handler goes
    on as it does when the query finds no pending request: it attempts the
    insert, and the run is the one of a ledger without pending request of the
    user for the book, whatever the ledger holds.  In particular, when the
    other calls succeed a request is inserted and "Request Sent" is shown. *)
Theorem existence_error_discarded env w u book ledger0 :
  outcome env (calls w) (CallSelect "book_requests") = ReturnsError ->
  List.filter (is_pending_request (Book.id book) (User.id u)) ledger0 = [] ->
  let env0 := answering Succeeds (calls w) env in
  let w0 := with_requests ledger0 w in
  let request :=
    new_request (Book.id book) (User.id u) (Book.donorid book)
      (request_message book) (gen_id env (S (calls w)))
      (server_now env (S (calls w))) in
  (observe w (BooksListBase.handleRequestBook (Some u) book env w)
   = observe w0 (BooksListBase.handleRequestBook (Some u) book env0 w0))
  /\ (observe w (BooksList.handleRequestBook (Some u) book env w)
      = observe w0 (BooksList.handleRequestBook (Some u) book env0 w0))
  /\ (outcome env (S (calls w)) (CallInsert "book_requests") = Succeeds ->
      book_requests (db (snd (BooksListBase.handleRequestBook (Some u) book env w)))
      = book_requests (db w) ++ [request]
      /\ (has (requestingBooks (client w)) (Book.id book) = false ->
          book_requests (db (snd (BooksList.handleRequestBook (Some u) book env w)))
          = book_requests (db w) ++ [request])).
Proof.
  intros Herr Hnone env0 w0 request.
  assert (Hok0 : outcome env0 (calls w0) (CallSelect "book_requests") = Succeeds)
    by apply answering_at.
  assert (Hlater : forall n c, calls w < n -> outcome env0 n c = outcome env n c)
    by (intros n c Hlt; apply answering_later; exact Hlt).
  assert (Hgen : gen_id env0 = gen_id env) by reflexivity.
  assert (Hnow : server_now env0 = server_now env) by reflexivity.
  clearbody env0.
  split; [| split].
  - unfold BooksListBase.handleRequestBook, try_catch, bind.
    rewrite select_existing_request_error by exact Herr.
    rewrite select_existing_request_succeeds by exact Hok0.
    cbn. rewrite Hnone. cbn.
    unfold insert_request. rewrite !pg_insert_run. cbn.
    rewrite Hlater by lia. rewrite ?Hgen, ?Hnow.
    destruct (outcome env (S (calls w)) (CallInsert "book_requests")); cbn;
      unfold observe; cbn; rewrite ?drop_no_rows; try reflexivity.
    rewrite !pg_insert_run. cbn. rewrite Hlater by lia. rewrite ?Hgen, ?Hnow.
    destruct (outcome env (S (S (calls w))) (CallInsert "notifications")); cbn;
      rewrite ?drop_new_rows; reflexivity.
  - unfold BooksList.handleRequestBook, try_finally, try_catch, bind, get,
      setRequestingBooks, modify.
    cbn beta iota. change (client w0) with (client w).
    destruct (has (requestingBooks (client w)) (Book.id book)).
    { unfold observe; cbn. rewrite !drop_no_rows. reflexivity. }
    rewrite select_existing_request_error by exact Herr.
    rewrite select_existing_request_succeeds by exact Hok0.
    cbn. rewrite Hnone. cbn.
    unfold insert_request. rewrite !pg_insert_run. cbn.
    rewrite Hlater by lia. rewrite ?Hgen, ?Hnow.
    destruct (outcome env (S (calls w)) (CallInsert "book_requests")); cbn;
      unfold observe; cbn; rewrite ?drop_no_rows; try reflexivity.
    rewrite !(createNotification_run (Book.donorid book)). cbn.
    rewrite Hlater by lia. rewrite ?Hgen, ?Hnow.
    destruct (outcome env (S (S (calls w))) (CallRpc "create_book_notification"));
      cbn; rewrite !createNotification_run; cbn;
      rewrite Hlater by lia; rewrite ?Hgen, ?Hnow;
      destruct (outcome env (S (S (S (calls w))))
                  (CallRpc "create_book_notification"));
      cbn; rewrite ?drop_new_rows; reflexivity.
  - intros Hins. split.
    + unfold BooksListBase.handleRequestBook, try_catch, bind.
      rewrite select_existing_request_error by exact Herr. cbn.
      unfold insert_request. rewrite !pg_insert_run. cbn. rewrite Hins. cbn.
      rewrite !pg_insert_run. cbn.
      destruct (outcome env (S (S (calls w))) (CallInsert "notifications"));
        reflexivity.
    + intros Hfree.
      unfold BooksList.handleRequestBook. unfold bind at 1, get at 1.
      cbn beta iota. rewrite Hfree.
      unfold try_finally, try_catch, bind, setRequestingBooks, modify.
      rewrite select_existing_request_error by exact Herr. cbn.
      unfold insert_request. rewrite !pg_insert_run. cbn. rewrite Hins. cbn.
      rewrite !createNotification_run. cbn.
      destruct (outcome env (S (S (calls w))) (CallRpc "create_book_notification"));
        cbn;
        destruct (outcome env (S (S (S (calls w))))
                    (CallRpc "create_book_notification")); reflexivity.
Qed.

Lemma existence_error_discarded_witness :
  let w := world_of (store_of [dune_request "req-1" "pending"] [] []) in
  List.map BookRequest.id
    (book_requests (db (snd (BooksListBase.handleRequestBook (Some bob) dune
                               env_select_fails w))))
  = ["req-1"; "row-1"].
Proof.
  intros w.
  destruct (existence_error_discarded env_select_fails w bob dune []
              eq_refl eq_refl) as (_ & _ & Hinsert).
  destruct (Hinsert eq_refl) as [Hbase _].
  rewrite Hbase. reflexivity.
Defined.

(** ** Fetching the requests *)

Lemma select_requests_run column u env w :
  select_requests column u env w =
  match outcome env (calls w) (CallSelect "book_requests") with
  | Succeeds => (Normal (pg_ok (Some (requests_of column (db w) u))), tick w)
  | ReturnsError =>
      (Normal (pg_err (PgError (CallSelect "book_requests"))), tick w)
  | Rejects => (Throw (Rejected (CallSelect "book_requests")), tick w)
  end.
Proof.
  unfold select_requests, pg_map, bind, get. rewrite pg_select_run. cbn.
  destruct (outcome env (calls w) (CallSelect "book_requests")); reflexivity.
Qed.

Lemma fetchRequests_succeeds env w u :
  (forall n c, outcome env n c = Succeeds) ->
  exists w',
    MyRequests.fetchRequests (Some u) env w = (Normal tt, w')
    /\ db w' = db w /\ toasts w' = toasts w /\ console w' = console w
    /\ sentRequests (client w') = requests_of BookRequest.requester_id (db w) u
    /\ receivedRequests (client w') = requests_of BookRequest.donor_id (db w) u
    /\ contactExchanges (client w')
       = fetched_exchanges (db w) u (contactExchanges (client w))
    /\ processingRequests (client w') = processingRequests (client w).
Proof.
  intros Hok.
  unfold MyRequests.fetchRequests, fetched_exchanges, try_finally, try_catch, bind.
  rewrite select_requests_run, Hok. cbn.
  rewrite select_requests_run, Hok. cbn.
  match goal with |- context [Nat.ltb 0 ?n] => destruct (Nat.ltb 0 n) end.
  - rewrite pg_select_run, Hok. cbn. eexists. repeat split; reflexivity.
  - cbn. eexists. repeat split; reflexivity.
Qed.

Lemma base_fetchRequests_succeeds env w user :
  (forall n c, outcome env n c = Succeeds) ->
  exists w',
    MyRequestsBase.fetchRequests user env w = (Normal tt, w')
    /\ db w' = db w /\ toasts w' = toasts w.
Proof.
  intros Hok. destruct user as [u |]; [| exists w; repeat split].
  unfold MyRequestsBase.fetchRequests, try_finally, try_catch, bind.
  rewrite select_requests_run, Hok. cbn.
  rewrite select_requests_run, Hok. cbn.
  eexists. repeat split.
Qed.

(** ** Answering a request *)

Lemma keeps_of_db {A B} (f : Store -> B) (m : Js A) :
  keeps db m -> keeps (fun w => f (db w)) m.
Proof. intros Hm env w. cbn. rewrite Hm. reflexivity. Qed.

Lemma keeps_ledger_createNotification userId type title message :
  keeps ledger (BooksList.createNotification userId type title message).
Proof. unfold BooksList.createNotification. unfold_setters. frame. Qed.

Lemma keeps_ledger_fetchRequests user : keeps ledger (MyRequests.fetchRequests user).
Proof. apply (keeps_of_db book_requests), keeps_db_fetchRequests. Qed.

Lemma keeps_ledger_base_fetchRequests user :
  keeps ledger (MyRequestsBase.fetchRequests user).
Proof. apply (keeps_of_db book_requests), keeps_db_base_fetchRequests. Qed.

#[export] Hint Resolve keeps_ledger_createNotification
  keeps_ledger_fetchRequests keeps_ledger_base_fetchRequests : frame.

(** The first awaited call of a guarded block, when it completes. *)
Lemma try_catch_bind {A C} (m : Js A) (k : A -> Js C) (h : Err -> Js C)
  env w a w1 :
  m env w = (Normal a, w1) ->
  try_catch (bind m k) h env w = try_catch (k a) h env w1.
Proof. intros Hm. unfold try_catch, bind. rewrite Hm. reflexivity. Qed.

Lemma try_finally_bind {A C} (m : Js A) (k : A -> Js C) (h : Err -> Js C)
  (fin : Js unit) env w a w1 :
  m env w = (Normal a, w1) ->
  try_finally (try_catch (bind m k) h) fin env w
  = try_finally (try_catch (k a) h) fin env w1.
Proof.
  intros Hm. unfold try_finally. rewrite (try_catch_bind m k h env w a w1 Hm).
  reflexivity.
Qed.

Lemma answered_status requestId d stamp l r :
  (forall x, BookRequest.status (stamp x) = BookRequest.status x) ->
  In r (answered requestId d stamp l) -> BookRequest.id r = requestId ->
  (forall x, BookRequest.id (stamp x) = BookRequest.id x) ->
  BookRequest.status r = decision_string d.
Proof.
  intros Hstatus Hin Hid Hsame. unfold answered in Hin.
  apply in_map_iff in Hin. destruct Hin as (x & Hx & _).
  destruct (String.eqb_spec (BookRequest.id x) requestId) as [Heq | Hne].
  - subst r. rewrite Hstatus. reflexivity.
  - subst r. contradiction.
Qed.

Lemma showsRespondButtons_spec request :
  showsRespondButtons request = true
  <-> BookRequest.status (rv_row request) = "pending".
Proof. unfold showsRespondButtons. apply String.eqb_eq. Qed.

Lemma base_response_ledger env w user requestId d requesterId bookTitle :
  outcome env (calls w) (CallUpdate "book_requests") = Succeeds ->
  ledger (snd (MyRequestsBase.handleRequestResponse user requestId d
                 requesterId bookTitle env w))
  = answered requestId d id (ledger w).
Proof.
  intros Hupd. unfold MyRequestsBase.handleRequestResponse.
  erewrite try_catch_bind by (rewrite pg_update_run; cbn; rewrite Hupd; reflexivity).
  match goal with |- ledger (snd (?m env ?w1)) = _ =>
    assert (Hk : keeps ledger m) by (unfold_setters; frame);
    rewrite (Hk env w1); reflexivity
  end.
Qed.

Lemma response_ledger env w user requestId d requesterId bookTitle :
  outcome env (calls w) (CallUpdate "book_requests") = Succeeds ->
  has (processingRequests (client w)) requestId = false ->
  ledger (snd (MyRequests.handleRequestResponse user requestId d
                 requesterId bookTitle env w))
  = answered requestId d (BookRequest.with_updated_at (client_now env)) (ledger w).
Proof.
  intros Hupd Hfree. unfold MyRequests.handleRequestResponse.
  unfold bind at 1, get at 1. cbn beta iota. rewrite Hfree.
  unfold bind at 1, setProcessingRequests at 1, modify at 1. cbn beta iota.
  erewrite try_finally_bind by reflexivity.
  erewrite try_finally_bind by (rewrite pg_update_run; cbn; rewrite Hupd; reflexivity).
  match goal with |- ledger (snd (?m env ?w1)) = _ =>
    assert (Hk : keeps ledger m)
      by (rewrite createNotification_same; unfold_setters; frame);
    rewrite (Hk env w1); reflexivity
  end.
Qed.

(** C3, amended: the handler does not consult the stored status.  Whenever
    the store accepts the update, every row with the id of the request
    carries the decision afterwards, whatever its status was, in both
    revisions (in the later one when no response to the request is in
    flight); the only pending-only rule is the one of the view, which
    renders the two buttons for the requests whose fetched status is
    [pending]. *)
Theorem response_overwrites env w user requestId d requesterId bookTitle :
  outcome env (calls w) (CallUpdate "book_requests") = Succeeds ->
  let base :=
    snd (MyRequestsBase.handleRequestResponse user requestId d requesterId
           bookTitle env w) in
  let ext :=
    snd (MyRequests.handleRequestResponse user requestId d requesterId
           bookTitle env w) in
  (ledger base = answered requestId d id (ledger w)
   /\ forall r, In r (ledger base) -> BookRequest.id r = requestId ->
                BookRequest.status r = decision_string d)
  /\ (has (processingRequests (client w)) requestId = false ->
      ledger ext
      = answered requestId d (BookRequest.with_updated_at (client_now env))
          (ledger w)
      /\ forall r, In r (ledger ext) -> BookRequest.id r = requestId ->
                   BookRequest.status r = decision_string d)
  /\ (forall request, showsRespondButtons request = true
                      <-> BookRequest.status (rv_row request) = "pending").
Proof.
  intros Hupd base ext. split; [| split].
  - assert (Hbase : ledger base = answered requestId d id (ledger w))
      by (apply base_response_ledger; exact Hupd).
    split; [exact Hbase |].
    intros r Hin Hid. rewrite Hbase in Hin.
    apply (answered_status requestId d id (ledger w) r); auto.
  - intros Hfree.
    assert (Hext : ledger ext
                   = answered requestId d
                       (BookRequest.with_updated_at (client_now env)) (ledger w))
      by (apply response_ledger; assumption).
    split; [exact Hext |].
    intros r Hin Hid. rewrite Hext in Hin.
    apply (answered_status requestId d
             (BookRequest.with_updated_at (client_now env)) (ledger w) r); auto.
  - apply showsRespondButtons_spec.
Qed.

Lemma response_overwrites_witness :
  let w := world_of (store_of [dune_request "req-1" "approved"] [] []) in
  List.map BookRequest.status
    (ledger (snd (MyRequestsBase.handleRequestResponse (Some alice) "req-1"
                    rejected "user-b" "Dune" env_ok w)))
  = ["rejected"].
Proof.
  intros w.
  destruct (response_overwrites env_ok w (Some alice) "req-1" rejected
              "user-b" "Dune" eq_refl) as [[Hbase _] _].
  rewrite Hbase. reflexivity.
Defined.

(** C3 as stated fails: an approval followed by a rejection of the same
    request both reach the stored record, which ends up rejected. *)
Lemma response_counterexample :
  let w := world_of (store_of [dune_request "req-1" "pending"] [] []) in
  let request := dune_view "req-1" "pending" in
  let base1 := snd (respond (MyRequestsBase.handleRequestResponse (Some alice))
                      request approved env_ok w) in
  let base2 := snd (respond (MyRequestsBase.handleRequestResponse (Some alice))
                      request rejected env_ok base1) in
  let ext1 := snd (respond (MyRequests.handleRequestResponse (Some alice))
                     request approved env_ok w) in
  let ext2 := snd (respond (MyRequests.handleRequestResponse (Some alice))
                     request rejected env_ok ext1) in
  List.map BookRequest.status (ledger base1) = ["approved"]
  /\ List.map BookRequest.status (ledger base2) = ["rejected"]
  /\ List.map BookRequest.status (ledger ext1) = ["approved"]
  /\ List.map BookRequest.status (ledger ext2) = ["rejected"]
  /\ List.map toast_title (toasts ext2) = ["Request Updated"; "Request Updated"].
Proof. vm_compute. repeat split. Qed.

(** C4, amended: for a pending request of the user's received list and a
    store that answers, the response sets the status of the request to the
    decision and inserts a [request_response] notification for the
    requester that states the outcome; the later revision also sets
    [updated_at] to the time of the click and inserts a notification for the
    donor, while the earlier revision leaves [updated_at] as it was. *)
Theorem response_recorded env w donor request d b :
  showsRespondButtons request = true ->
  rv_books request = Some b ->
  BookRequest.donor_id (rv_row request) = User.id donor ->
  (forall n c, outcome env n c = Succeeds) ->
  let r := rv_row request in
  let to_requester (k : nat) :=
    {| Notification.id := gen_id env (k + calls w);
       Notification.userid := BookRequest.requester_id r;
       Notification.type := "request_response";
       Notification.title := response_title d;
       Notification.message := response_message d (bi_title b);
       Notification.read := false;
       Notification.createdat := server_now env (k + calls w) |} in
  let to_donor (k : nat) :=
    {| Notification.id := gen_id env (k + calls w);
       Notification.userid := BookRequest.donor_id r;
       Notification.type := "request_action";
       Notification.title := "Request Updated";
       Notification.message := action_message d (bi_title b);
       Notification.read := false;
       Notification.createdat := server_now env (k + calls w) |} in
  (exists w',
     respond (MyRequestsBase.handleRequestResponse (Some donor)) request d env w
     = (Normal tt, w')
     /\ ledger w' = answered (BookRequest.id r) d id (ledger w)
     /\ (In r (ledger w) ->
         In (BookRequest.with_status (decision_string d) r) (ledger w'))
     /\ outbox w' = outbox w ++ [to_requester 1]
     /\ toasts w' = toasts w ++ [toast_request_updated d])
  /\ (has (processingRequests (client w)) (BookRequest.id r) = false ->
      exists w',
        respond (MyRequests.handleRequestResponse (Some donor)) request d env w
        = (Normal tt, w')
        /\ ledger w'
           = answered (BookRequest.id r) d
               (BookRequest.with_updated_at (client_now env)) (ledger w)
        /\ (In r (ledger w) ->
            In (BookRequest.with_updated_at (client_now env)
                  (BookRequest.with_status (decision_string d) r)) (ledger w'))
        /\ outbox w' = outbox w ++ [to_requester 1; to_donor 2]
        /\ toasts w' = toasts w ++ [toast_request_updated d]).
Proof.
  intros _ Hbooks Hdonor Hok r to_requester to_donor.
  assert (Hin : forall stamp l,
             In r l -> In (stamp (BookRequest.with_status (decision_string d) r))
                         (answered (BookRequest.id r) d stamp l)).
  { intros stamp l Hr. unfold answered. apply in_map_iff. exists r.
    rewrite String.eqb_refl. auto. }
  unfold respond. rewrite Hbooks. fold r. split.
  - unfold MyRequestsBase.handleRequestResponse, try_catch, bind.
    rewrite pg_update_run. cbn. rewrite Hok. cbn.
    rewrite pg_insert_run. cbn. rewrite Hok. cbn.
    unfold not_awaited.
    match goal with
    | |- context [MyRequestsBase.fetchRequests (Some donor) env ?w1] =>
        destruct (base_fetchRequests_succeeds env w1 (Some donor) Hok)
          as (w' & Hrun & Hdb & Htoasts); rewrite Hrun
    end.
    eexists. split; [reflexivity |].
    unfold ledger, outbox. rewrite Hdb, Htoasts. cbn.
    repeat split. intros Hr. apply (Hin id). exact Hr.
  - intros Hfree.
    unfold MyRequests.handleRequestResponse.
    unfold bind at 1, get at 1. cbn beta iota. rewrite Hfree.
    unfold try_finally, try_catch, bind, ask, setProcessingRequests, modify.
    rewrite pg_update_run. cbn. rewrite Hok. cbn.
    rewrite createNotification_same, createNotification_run. cbn. rewrite Hok.
    rewrite createNotification_run. cbn. rewrite Hok. cbn.
    unfold not_awaited.
    match goal with
    | |- context [MyRequests.fetchRequests (Some donor) env ?w1] =>
        destruct (fetchRequests_succeeds env w1 donor Hok)
          as (w' & Hrun & Hdb & Htoasts & _); rewrite Hrun
    end.
    eexists. split; [reflexivity |].
    unfold ledger, outbox, to_requester, to_donor, r. cbn.
    rewrite Hdb, Htoasts, Hdonor. cbn.
    rewrite <- app_assoc.
    repeat split. intros Hr.
    apply (Hin (BookRequest.with_updated_at (client_now env))). exact Hr.
Qed.

Lemma response_recorded_witness :
  let w := world_of (store_of [dune_request "req-1" "pending"] [] []) in
  exists w',
    respond (MyRequests.handleRequestResponse (Some alice))
      (dune_view "req-1" "pending") approved env_ok w = (Normal tt, w')
    /\ List.map BookRequest.status (ledger w') = ["approved"]
    /\ List.map BookRequest.updated_at (ledger w') = ["2024-06-01T10:00:00Z"]
    /\ List.map Notification.userid (outbox w') = ["user-b"; "user-a"].
Proof.
  intros w.
  destruct (response_recorded env_ok w alice (dune_view "req-1" "pending")
              approved {| bi_title := "Dune"; bi_author := "Frank Herbert" |}
              eq_refl eq_refl eq_refl (fun _ _ => eq_refl)) as [_ Hext].
  destruct (Hext eq_refl) as (w' & Hrun & Hledger & _ & Houtbox & _).
  exists w'. split; [exact Hrun |].
  rewrite Hledger, Houtbox. repeat split.
Defined.

(** C4 as stated fails in the earlier revision: a successful response
    leaves [updated_at] at its old value. *)
Lemma response_timestamp_counterexample :
  let w := world_of (store_of [dune_request "req-1" "pending"] [] []) in
  let w' := snd (respond (MyRequestsBase.handleRequestResponse (Some alice))
                   (dune_view "req-1" "pending") approved env_ok w) in
  toasts w' = [toast_request_updated approved]
  /\ List.map BookRequest.status (ledger w') = ["approved"]
  /\ List.map BookRequest.updated_at (ledger w') = ["2024-05-01T09:00:00Z"]
  /\ client_now env_ok = "2024-06-01T10:00:00Z"
  /\ server_now env_ok 0 = "2024-06-01T10:00:00Z".
Proof. vm_compute. repeat split. Qed.

(** ** Notification failures *)

(** The toasts a fetch of the requests can add. *)
Lemma fetchRequests_toasts env w user :
  exists rest,
    toasts (snd (MyRequests.fetchRequests user env w)) = toasts w ++ rest
    /\ (rest = [] \/ rest = [toast_load_failed]).
Proof.
  destruct user as [u |]; [| exists []; cbn; rewrite app_nil_r; auto].
  unfold MyRequests.fetchRequests, try_finally, try_catch, bind.
  rewrite select_requests_run.
  destruct (outcome env (calls w) (CallSelect "book_requests")); cbn;
    try solve [exists [toast_load_failed]; split; [reflexivity | auto]].
  rewrite select_requests_run. cbn.
  destruct (outcome env (S (calls w)) (CallSelect "book_requests")); cbn;
    try solve [exists [toast_load_failed]; split; [reflexivity | auto]].
  match goal with |- context [Nat.ltb 0 ?n] => destruct (Nat.ltb 0 n) end;
    [| exists []; cbn; rewrite app_nil_r; auto].
  rewrite pg_select_run. cbn.
  destruct (outcome env (S (S (calls w))) (CallSelect "contact_exchanges")); cbn;
    try solve [exists [toast_load_failed]; split; [reflexivity | auto]].
  exists []; cbn; rewrite app_nil_r; auto.
Qed.

Lemma createNotification_toasts userId type title message env w :
  toasts (snd (BooksList.createNotification userId type title message env w))
  = toasts w.
Proof.
  rewrite createNotification_run. cbn.
  destruct (outcome env (calls w) (CallRpc "create_book_notification"));
    reflexivity.
Qed.

Lemma createNotification_ledger userId type title message env w :
  ledger (snd (BooksList.createNotification userId type title message env w))
  = ledger w.
Proof. apply keeps_ledger_createNotification. Qed.

Lemma createNotification_normal userId type title message env w :
  fst (BooksList.createNotification userId type title message env w) = Normal tt.
Proof. rewrite createNotification_run. reflexivity. Qed.

(** C5, amended: a notification write that fails never undoes the primary
    mutation.  In the later revision the handlers do not look at the result
    of the notification writes: once the request is inserted (the status is
    updated) they report success, whatever becomes of those writes.  In the
    earlier revision the inserted request (the updated status) stays in the
    ledger as well, but the handlers report a failure. *)
Theorem notification_failure_keeps_mutation
  env w u book user requestId d requesterId bookTitle :
  (outcome env (calls w) (CallSelect "book_requests") = Succeeds ->
   List.filter (is_pending_request (Book.id book) (User.id u))
     (book_requests (db w)) = [] ->
   outcome env (S (calls w)) (CallInsert "book_requests") = Succeeds ->
   let request :=
     new_request (Book.id book) (User.id u) (Book.donorid book)
       (request_message book) (gen_id env (S (calls w)))
       (server_now env (S (calls w))) in
   (has (requestingBooks (client w)) (Book.id book) = false ->
    exists w',
      BooksList.handleRequestBook (Some u) book env w = (Normal tt, w')
      /\ ledger w' = ledger w ++ [request]
      /\ toasts w' = toasts w ++ [toast_request_sent book])
   /\ (outcome env (S (S (calls w))) (CallInsert "notifications") <> Succeeds ->
       exists w',
         BooksListBase.handleRequestBook (Some u) book env w = (Normal tt, w')
         /\ ledger w' = ledger w ++ [request]
         /\ outbox w' = outbox w
         /\ toasts w' = toasts w ++ [toast_request_failed]))
  /\ (outcome env (calls w) (CallUpdate "book_requests") = Succeeds ->
      (has (processingRequests (client w)) requestId = false ->
       exists w' rest,
         MyRequests.handleRequestResponse user requestId d requesterId
           bookTitle env w = (Normal tt, w')
         /\ ledger w'
            = answered requestId d
                (BookRequest.with_updated_at (client_now env)) (ledger w)
         /\ toasts w' = toasts w ++ toast_request_updated d :: rest
         /\ (rest = [] \/ rest = [toast_load_failed]))
      /\ (outcome env (S (calls w)) (CallInsert "notifications") <> Succeeds ->
          exists w',
            MyRequestsBase.handleRequestResponse user requestId d requesterId
              bookTitle env w = (Normal tt, w')
            /\ ledger w' = answered requestId d id (ledger w)
            /\ outbox w' = outbox w
            /\ toasts w' = toasts w ++ [toast_update_failed])).
Proof.
  split.
  - intros Hsel Hnone Hins request. split.
    + intros Hfree.
      unfold BooksList.handleRequestBook. unfold bind at 1, get at 1.
      cbn beta iota. rewrite Hfree.
      unfold try_finally, try_catch, bind, setRequestingBooks, modify.
      rewrite select_existing_request_succeeds by exact Hsel.
      cbn. rewrite Hnone. cbn.
      unfold insert_request. rewrite pg_insert_run. cbn. rewrite Hins. cbn.
      rewrite createNotification_run. cbn.
      destruct (outcome env (S (S (calls w))) (CallRpc "create_book_notification"));
        rewrite createNotification_run; cbn;
        destruct (outcome env (S (S (S (calls w))))
                    (CallRpc "create_book_notification"));
        cbn; eexists; repeat split.
    + intros Hfail.
      unfold BooksListBase.handleRequestBook, try_catch, bind.
      rewrite select_existing_request_succeeds by exact Hsel.
      cbn. rewrite Hnone. cbn.
      unfold insert_request. rewrite pg_insert_run. cbn. rewrite Hins. cbn.
      rewrite pg_insert_run. cbn.
      destruct (outcome env (S (S (calls w))) (CallInsert "notifications"));
        [contradiction | |]; cbn; eexists; repeat split.
  - intros Hupd. split.
    + intros Hfree.
      assert (Hledger := response_ledger env w user requestId d requesterId
                           bookTitle Hupd Hfree).
      assert (Hrun : exists w' rest,
                 MyRequests.handleRequestResponse user requestId d requesterId
                   bookTitle env w = (Normal tt, w')
                 /\ toasts w' = toasts w ++ toast_request_updated d :: rest
                 /\ (rest = [] \/ rest = [toast_load_failed])).
      2: { destruct Hrun as (w' & rest & Hrun & Htoasts & Hrest).
           exists w', rest. rewrite Hrun in Hledger. auto. }
      clear Hledger.
      unfold MyRequests.handleRequestResponse.
      unfold bind at 1, get at 1. cbn beta iota. rewrite Hfree.
      unfold try_finally, try_catch, bind, ask, setProcessingRequests, modify.
      rewrite pg_update_run. cbn. rewrite Hupd. cbn.
      rewrite createNotification_same.
      match goal with
      | |- context [BooksList.createNotification ?a ?b ?c ?e env ?w1] =>
          pose proof (createNotification_toasts a b c e env w1) as Ht1;
          pose proof (createNotification_normal a b c e env w1) as Hn1;
          destruct (BooksList.createNotification a b c e env w1) as [c1 w1']
      end.
      cbn in Ht1, Hn1. subst c1.
      assert (Hack : exists w2,
                 match user with
                 | Some u0 =>
                     BooksList.createNotification (User.id u0) "request_action"
                       "Request Updated" (action_message d bookTitle)
                 | None => ret tt
                 end env w1' = (Normal tt, w2) /\ toasts w2 = toasts w1').
      { destruct user as [u0 |].
        - pose proof (createNotification_toasts (User.id u0) "request_action"
                        "Request Updated" (action_message d bookTitle) env w1') as Ht.
          pose proof (createNotification_normal (User.id u0) "request_action"
                        "Request Updated" (action_message d bookTitle) env w1') as Hn.
          destruct (BooksList.createNotification _ _ _ _ env w1') as [c2 w2].
          cbn in Ht, Hn. subst c2. exists w2. auto.
        - exists w1'. auto. }
      destruct Hack as (w2 & Hrun2 & Ht2). rewrite Hrun2.
      unfold not_awaited.
      match goal with
      | |- context [MyRequests.fetchRequests user env ?w3] =>
          destruct (fetchRequests_toasts env w3 user) as (rest & Ht3 & Hrest);
          destruct (MyRequests.fetchRequests user env w3) as [c3 w3']
      end.
      cbn in Ht3 |- *.
      eexists. exists rest. split; [reflexivity |].
      cbn. split; [| exact Hrest].
      rewrite Ht3, Ht2, Ht1. cbn. rewrite <- app_assoc. reflexivity.
    + intros Hfail.
      unfold MyRequestsBase.handleRequestResponse, try_catch, bind.
      rewrite pg_update_run. cbn. rewrite Hupd. cbn.
      rewrite pg_insert_run. cbn.
      destruct (outcome env (S (calls w)) (CallInsert "notifications"));
        [contradiction | |]; cbn; eexists; repeat split.
Qed.

Lemma notification_failure_keeps_mutation_witness :
  let w := world_of (store_of [] [] []) in
  exists w',
    BooksList.handleRequestBook (Some bob) dune env_notifications_fail w
    = (Normal tt, w')
    /\ List.map BookRequest.status (ledger w') = ["pending"]
    /\ toasts w' = [toast_request_sent dune].
Proof.
  intros w.
  destruct (notification_failure_keeps_mutation env_notifications_fail w bob
              dune (Some alice) "req-1" approved "user-b" "Dune")
    as [Hcreate _].
  destruct (Hcreate eq_refl eq_refl eq_refl) as [Hext _].
  destruct (Hext eq_refl) as (w' & Hrun & Hledger & Htoasts).
  exists w'. split; [exact Hrun |]. rewrite Hledger, Htoasts. split; reflexivity.
Defined.

(** C5 as stated fails in the earlier revision: the request is inserted (the
    status is updated), the notification insert fails, and the handler
    reports a failure. *)
Lemma notification_failure_counterexample :
  let w := world_of (store_of [] [] []) in
  let created := snd (BooksListBase.handleRequestBook (Some bob) dune
                        env_notifications_fail w) in
  let w1 := world_of (store_of [dune_request "req-1" "pending"] [] []) in
  let answered := snd (respond (MyRequestsBase.handleRequestResponse (Some alice))
                         (dune_view "req-1" "pending") approved
                         env_notifications_fail w1) in
  List.map BookRequest.status (ledger created) = ["pending"]
  /\ outbox created = []
  /\ toasts created = [toast_request_failed]
  /\ List.map BookRequest.status (ledger answered) = ["approved"]
  /\ outbox answered = []
  /\ toasts answered = [toast_update_failed].
Proof. vm_compute. repeat split. Qed.

(** ** Sharing contact details *)

Lemma updateData_counterpart donor phone address e :
  let e' := ContactExchange.updateData donor phone address e in
  Exchange.id e' = Exchange.id e
  /\ Exchange.request_id e' = Exchange.request_id e
  /\ counterpart_phone donor e' = counterpart_phone donor e
  /\ counterpart_address donor e' = counterpart_address donor e
  /\ party_phone donor e' = Some phone
  /\ party_address donor e' = Some address.
Proof. destruct donor; cbn; repeat split. Qed.

Lemma handleSubmit_exchanges env w user p onContactShared phone address :
  keeps db onContactShared ->
  exchanges (snd (ContactExchange.handleSubmit user p onContactShared phone
                    address env w))
  = submitted env w user p phone address.
Proof.
  intros Hshared.
  assert (Hkeep : keeps exchanges (not_awaited onContactShared)).
  { apply keeps_not_awaited, (keeps_of_db contact_exchanges), Hshared. }
  unfold ContactExchange.handleSubmit, submitted.
  destruct user as [u |]; [| reflexivity].
  destruct (negb (truthy (trim phone)) || negb (truthy (trim address)));
    [reflexivity |].
  unfold bind at 1, setSharing at 1, modify at 1. cbn beta iota.
  destruct (ContactExchange.existingExchange p) as [e0 |].
  - unfold try_finally, try_catch, bind at 1. unfold bind at 1.
    rewrite pg_update_run. cbn.
    destruct (outcome env (calls w) (CallUpdate "contact_exchanges")); cbn;
      try reflexivity.
    unfold bind, modify.
    match goal with |- context [not_awaited onContactShared env ?w1] =>
      pose proof (Hkeep env w1) as Hk;
      destruct (not_awaited onContactShared env w1) as [[[] | e] w2] end;
      cbn in Hk |- *; exact Hk.
  - unfold try_finally, try_catch, bind at 1. unfold bind at 1.
    rewrite pg_insert_run. cbn.
    destruct (outcome env (calls w) (CallInsert "contact_exchanges")); cbn;
      try reflexivity.
    unfold bind, modify.
    match goal with |- context [not_awaited onContactShared env ?w1] =>
      pose proof (Hkeep env w1) as Hk;
      destruct (not_awaited onContactShared env w1) as [[[] | e] w2] end;
      cbn in Hk |- *; exact Hk.
Qed.

Lemma keeps_ledger_handleSubmit user user' p phone address :
  keeps ledger (ContactExchange.handleSubmit user p
                  (MyRequests.fetchRequests user') phone address).
Proof. unfold ContactExchange.handleSubmit. unfold_setters. frame. Qed.

Lemma keeps_outbox_fetchRequests user : keeps outbox (MyRequests.fetchRequests user).
Proof. apply (keeps_of_db notifications), keeps_db_fetchRequests. Qed.

Lemma keeps_outbox_handleSubmit user user' p phone address :
  keeps outbox (ContactExchange.handleSubmit user p
                  (MyRequests.fetchRequests user') phone address).
Proof.
  pose proof keeps_outbox_fetchRequests.
  unfold ContactExchange.handleSubmit. unfold_setters. frame.
Qed.

(** C7: a submission writes the two fields of the submitting party only,
    and only in the records of its request.  Every record of the table is
    still there afterwards, at its place, with its id, its request and the
    phone and address of the other party as they were.  A record of another
    request is unchanged altogether; a record of the request is unchanged
    or differs in the two fields of the party alone, which then hold the
    submitted values.  At most one record is added, for the request, with
    the submitted values in the fields of the party and the fields of the
    other party null.  The ledger and the outbox are untouched.  This holds
    however the store calls end. *)
Theorem submit_keeps_counterpart env w user p phone address :
  let w' := snd (ContactExchange.handleSubmit user p
                   (MyRequests.fetchRequests user) phone address env w) in
  let donor := ContactExchange.isDonor p in
  (forall i e, nth_error (exchanges w) i = Some e ->
     exists e', nth_error (exchanges w') i = Some e'
       /\ Exchange.id e' = Exchange.id e
       /\ Exchange.request_id e' = Exchange.request_id e
       /\ counterpart_phone donor e' = counterpart_phone donor e
       /\ counterpart_address donor e' = counterpart_address donor e
       /\ (e' = e
           \/ (Exchange.request_id e = ContactExchange.requestId p
               /\ party_phone donor e' = Some phone
               /\ party_address donor e' = Some address)))
  /\ (forall i e, nth_error (exchanges w) i = Some e ->
        Exchange.request_id e <> ContactExchange.requestId p ->
        nth_error (exchanges w') i = Some e)
  /\ length (exchanges w') <= S (length (exchanges w))
  /\ (forall i e', nth_error (exchanges w') i = Some e' ->
        length (exchanges w) <= i ->
        Exchange.request_id e' = ContactExchange.requestId p
        /\ counterpart_phone donor e' = None
        /\ counterpart_address donor e' = None
        /\ party_phone donor e' = Some phone
        /\ party_address donor e' = Some address)
  /\ ledger w' = ledger w
  /\ outbox w' = outbox w.
Proof.
  intros w' donor.
  assert (Hsub : exchanges w' = submitted env w user p phone address)
    by apply handleSubmit_exchanges, keeps_db_fetchRequests.
  assert (Hsame : forall i e, nth_error (exchanges w) i = Some e ->
            exists e', nth_error (exchanges w) i = Some e'
              /\ Exchange.id e' = Exchange.id e
              /\ Exchange.request_id e' = Exchange.request_id e
              /\ counterpart_phone donor e' = counterpart_phone donor e
              /\ counterpart_address donor e' = counterpart_address donor e
              /\ (e' = e
                  \/ (Exchange.request_id e = ContactExchange.requestId p
                      /\ party_phone donor e' = Some phone
                      /\ party_address donor e' = Some address)))
    by (intros i e He; exists e; repeat split; auto).
  assert (Hnone : forall i (e' : Exchange.t) (P : Prop),
            nth_error (exchanges w) i = Some e' ->
            length (exchanges w) <= i -> P).
  { intros i e' P He Hlen. apply nth_error_None in Hlen. congruence. }
  assert (Hkept : forall i e, nth_error (exchanges w) i = Some e ->
            exists e', nth_error (exchanges w') i = Some e'
              /\ Exchange.id e' = Exchange.id e
              /\ Exchange.request_id e' = Exchange.request_id e
              /\ counterpart_phone donor e' = counterpart_phone donor e
              /\ counterpart_address donor e' = counterpart_address donor e
              /\ (e' = e
                  \/ (Exchange.request_id e = ContactExchange.requestId p
                      /\ party_phone donor e' = Some phone
                      /\ party_address donor e' = Some address))).
  { rewrite Hsub. unfold submitted.
    destruct user as [u |]; [| exact Hsame].
    destruct (negb (truthy (trim phone)) || negb (truthy (trim address)));
      [exact Hsame |].
    destruct (ContactExchange.existingExchange p) as [e0 |].
    + destruct (outcome env (calls w) (CallUpdate "contact_exchanges"));
        try exact Hsame.
      intros i e He. unfold shared. rewrite nth_error_map, He. cbn.
      eexists. split; [reflexivity |].
      destruct (String.eqb_spec (Exchange.request_id e)
                  (ContactExchange.requestId p)) as [Heq | Hne];
        [| repeat split; auto].
      destruct (updateData_counterpart donor phone address e)
        as (H1 & H2 & H3 & H4 & H5 & H6).
      repeat split; auto.
    + destruct (outcome env (calls w) (CallInsert "contact_exchanges"));
        try exact Hsame.
      intros i e He. exists e. split; [| repeat split; auto].
      rewrite nth_error_app1; [exact He |].
      apply nth_error_Some. congruence. }
  split; [exact Hkept | split; [| split; [| split; [| split]]]].
  - intros i e He Hother.
    destruct (Hkept i e He) as (e' & He' & _ & _ & _ & _ & [-> | [Heq _]]);
      [exact He' | contradiction].
  - rewrite Hsub. unfold submitted.
    destruct user as [u |]; [| lia].
    destruct (negb (truthy (trim phone)) || negb (truthy (trim address)));
      [lia |].
    destruct (ContactExchange.existingExchange p) as [e0 |].
    + destruct (outcome env (calls w) (CallUpdate "contact_exchanges"));
        try lia.
      unfold shared. rewrite length_map. lia.
    + destruct (outcome env (calls w) (CallInsert "contact_exchanges"));
        try lia.
      rewrite length_app. cbn. lia.
  - rewrite Hsub. unfold submitted.
    destruct user as [u |]; [| solve [intros; eapply Hnone; eauto]].
    destruct (negb (truthy (trim phone)) || negb (truthy (trim address)));
      [solve [intros; eapply Hnone; eauto] |].
    destruct (ContactExchange.existingExchange p) as [e0 |].
    + destruct (outcome env (calls w) (CallUpdate "contact_exchanges"));
        try solve [intros; eapply Hnone; eauto].
      intros i e' He Hlen. unfold shared in He.
      rewrite nth_error_map in He.
      apply nth_error_None in Hlen. rewrite Hlen in He. discriminate.
    + destruct (outcome env (calls w) (CallInsert "contact_exchanges"));
        try solve [intros; eapply Hnone; eauto].
      intros i e' He Hlen. rewrite nth_error_app2 in He by exact Hlen.
      destruct (i - length (exchanges w)) as [| k]; cbn in He.
      * injection He as <-. fold donor. destruct donor; cbn; auto.
      * destruct k; discriminate.
  - apply keeps_ledger_handleSubmit.
  - apply keeps_outbox_handleSubmit.
Qed.

Lemma submit_keeps_counterpart_witness :
  let w := world_of (store_of [dune_request "req-1" "approved";
                               dune_request "req-2" "approved"]
                       [donor_shared_only; elsewhere_shared] []) in
  let w' := snd (ContactExchange.handleSubmit (Some bob)
                   (requester_card donor_shared_only)
                   (MyRequests.fetchRequests (Some bob))
                   "555-0100" "12 Oak St" env_ok w) in
  (exists e', nth_error (exchanges w') 0 = Some e'
              /\ Exchange.donor_phone e' = Some "555-0200"
              /\ Exchange.donor_address e' = Some "9 Elm Ave"
              /\ Exchange.requester_phone e' = Some "555-0100")
  /\ nth_error (exchanges w') 1 = Some elsewhere_shared.
Proof.
  intros w w'.
  destruct (submit_keeps_counterpart env_ok w (Some bob)
              (requester_card donor_shared_only) "555-0100" "12 Oak St")
    as (Hkept & Hother & _).
  split.
  - destruct (Hkept 0 donor_shared_only eq_refl)
      as (e' & He' & _ & _ & Hphone & Haddress & _).
    exists e'. split; [exact He' |]. split; [exact Hphone |].
    split; [exact Haddress |]. vm_compute in He'. injection He' as <-.
    reflexivity.
  - apply (Hother 1 elsewhere_shared eq_refl). discriminate.
Defined.

(** ** The reveal of the other person's contact *)

(** C8, amended: the card displays the phone and address of the other
    person exactly when the viewer's own phone is in the record and the
    other person's phone is in it too; as long as the viewer has not shared,
    the card is the form and displays nothing of the other person. *)
Theorem reveal_after_own_share p :
  (forall phone address,
     ContactExchange.revealed p = Some (phone, address) <->
     truthy_opt (ContactExchange.own_phone p) = true
     /\ ContactExchange.other_phone p = Some phone /\ truthy phone = true
     /\ address = ContactExchange.other_address p)
  /\ (ContactExchange.render p = ContactExchange.ShareForm <->
      truthy_opt (ContactExchange.own_phone p) = false).
Proof.
  unfold ContactExchange.revealed, ContactExchange.render.
  destruct (truthy_opt (ContactExchange.own_phone p)); cbn.
  - split.
    + intros phone address.
      destruct (ContactExchange.other_phone p) as [ph |].
      * destruct (truthy ph) eqn:Hph.
        -- split.
           ++ intros H. injection H as <- <-. auto.
           ++ intros (_ & H & _ & ->). injection H as <-. reflexivity.
        -- split; [discriminate |].
           intros (_ & H & Ht & _). injection H as <-. congruence.
      * split; [discriminate |]. intros (_ & H & _). discriminate.
    + split; discriminate.
  - split.
    + intros phone address. split; [discriminate |]. intros (H & _). discriminate.
    + split; reflexivity.
Qed.

Lemma reveal_after_own_share_witness :
  ContactExchange.revealed (requester_card both_shared)
  = Some ("555-0200", Some "9 Elm Ave").
Proof.
  apply (proj1 (reveal_after_own_share (requester_card both_shared))).
  repeat split.
Defined.

(** C8 as stated fails: the donor has shared, the requester has not, and the
    requester's card is the form, without the donor's contact. *)
Lemma reveal_counterexample :
  ContactExchange.other_phone (requester_card donor_shared_only) = Some "555-0200"
  /\ ContactExchange.render (requester_card donor_shared_only)
     = ContactExchange.ShareForm
  /\ ContactExchange.revealed (requester_card donor_shared_only) = None.
Proof. repeat split. Qed.

(** ** Marking all notifications as read *)

Lemma markAllAsRead_outbox env w u :
  outbox (snd (Notifications.markAllAsRead (Some u) env w))
  = match outcome env (calls w) (CallUpdate "notifications") with
    | Succeeds => marked u (outbox w)
    | _ => outbox w
    end.
Proof.
  unfold Notifications.markAllAsRead, try_catch, bind.
  rewrite pg_update_run. cbn.
  destruct (outcome env (calls w) (CallUpdate "notifications")); reflexivity.
Qed.

(** C9: marking all as read never changes a notification of another user,
    changes nothing but the [read] flag, and, when the store accepts the
    update, leaves every notification of the user read (the list of the view
    as well) and reports success. *)
Theorem mark_all_read env w u :
  let res := Notifications.markAllAsRead (Some u) env w in
  (outcome env (calls w) (CallUpdate "notifications") = Succeeds ->
   (forall n, In n (outbox (snd res)) ->
              Notification.userid n = User.id u -> Notification.read n = true)
   /\ (forall n, In n (notificationList (client (snd res))) ->
                 Notification.read n = true)
   /\ toasts (snd res) = toasts w ++ [Notifications.toast_all_read])
  /\ (forall i n, nth_error (outbox w) i = Some n ->
        Notification.userid n <> User.id u ->
        nth_error (outbox (snd res)) i = Some n)
  /\ (forall i n, nth_error (outbox w) i = Some n ->
        exists n', nth_error (outbox (snd res)) i = Some n'
                   /\ n' = Notification.with_read (Notification.read n') n)
  /\ length (outbox (snd res)) = length (outbox w)
  /\ ledger (snd res) = ledger w
  /\ exchanges (snd res) = exchanges w.
Proof.
  intros res.
  assert (Hout := markAllAsRead_outbox env w u). fold res in Hout.
  split; [| split; [| split; [| split; [| split]]]].
  - intros Hok. rewrite Hok in Hout. split; [| split].
    + intros n Hin Hu. rewrite Hout in Hin. unfold marked in Hin.
      apply in_map_iff in Hin. destruct Hin as (x & Hx & _).
      destruct (String.eqb_spec (Notification.userid x) (User.id u)) as [_ | Hne].
      * destruct (Notification.read x) eqn:Hread; cbn in Hx; subst n.
        -- exact Hread.
        -- reflexivity.
      * cbn in Hx. subst n. contradiction.
    + intros n Hin. subst res.
      unfold Notifications.markAllAsRead, try_catch, bind in Hin.
      rewrite pg_update_run in Hin. cbn in Hin. rewrite Hok in Hin. cbn in Hin.
      apply in_map_iff in Hin. destruct Hin as (x & <- & _). reflexivity.
    + subst res. unfold Notifications.markAllAsRead, try_catch, bind.
      rewrite pg_update_run. cbn. rewrite Hok. reflexivity.
  - intros i n Hn Hne. rewrite Hout.
    destruct (outcome env (calls w) (CallUpdate "notifications")); try exact Hn.
    unfold marked. rewrite nth_error_map, Hn. cbn.
    destruct (String.eqb_spec (Notification.userid n) (User.id u));
      [contradiction | reflexivity].
  - intros i n Hn. rewrite Hout.
    destruct (outcome env (calls w) (CallUpdate "notifications"));
      try (exists n; split; [exact Hn | destruct n; reflexivity]).
    unfold marked. rewrite nth_error_map, Hn. cbn.
    eexists. split; [reflexivity |].
    destruct (_ && _); destruct n; reflexivity.
  - rewrite Hout.
    destruct (outcome env (calls w) (CallUpdate "notifications")); try reflexivity.
    unfold marked. apply length_map.
  - assert (Hk : keeps ledger (Notifications.markAllAsRead (Some u)))
      by (unfold Notifications.markAllAsRead; unfold_setters; frame).
    apply Hk.
  - assert (Hk : keeps exchanges (Notifications.markAllAsRead (Some u)))
      by (unfold Notifications.markAllAsRead; unfold_setters; frame).
    apply Hk.
Qed.

Lemma mark_all_read_witness :
  let w := world_of (store_of [] [] [sample_note "n-1" "user-a";
                                     sample_note "n-2" "user-b"]) in
  let w' := snd (Notifications.markAllAsRead (Some alice) env_ok w) in
  (forall n, In n (outbox w') -> Notification.userid n = "user-a" ->
             Notification.read n = true)
  /\ nth_error (outbox w') 1 = Some (sample_note "n-2" "user-b").
Proof.
  intros w w'.
  destruct (mark_all_read env_ok w alice) as (Hread & Hframe & _).
  destruct (Hread eq_refl) as (Hmine & _).
  split; [exact Hmine |].
  apply Hframe; [reflexivity | discriminate].
Defined.

(** ** Sharing twice *)

Lemma insert_desc_In {R} (key : R -> string) x y l :
  In y (insert_desc key x l) <-> y = x \/ In y l.
Proof.
  induction l as [| z l IH]; cbn.
  - intuition.
  - destruct (String.ltb (key x) (key z)); cbn; [rewrite IH |]; intuition.
Qed.

Lemma order_desc_In {R} (key : R -> string) y l :
  In y (order_desc key l) <-> In y l.
Proof.
  induction l as [| x l IH]; cbn; [tauto |].
  rewrite insert_desc_In, IH. intuition.
Qed.

Lemma requests_of_In column s u r :
  In r (book_requests s) -> column r = User.id u ->
  In (join_books s r) (requests_of column s u).
Proof.
  intros Hin Hcol. unfold requests_of. apply in_map.
  apply order_desc_In, filter_In. split; [exact Hin |].
  apply String.eqb_eq. exact Hcol.
Qed.

(** An approved request of the user is among the ids whose exchanges are
    fetched. *)
Lemma approvedRequestIds_In s u r :
  In r (book_requests s) -> BookRequest.status r = "approved" ->
  BookRequest.requester_id r = User.id u \/ BookRequest.donor_id r = User.id u ->
  In (BookRequest.id r)
    (MyRequests.approvedRequestIds
       (requests_of BookRequest.requester_id s u
        ++ requests_of BookRequest.donor_id s u)).
Proof.
  intros Hin Hstatus Hparty. unfold MyRequests.approvedRequestIds.
  apply (in_map (fun req => BookRequest.id (rv_row req)) _ (join_books s r)).
  apply filter_In. split.
  - apply in_or_app.
    destruct Hparty as [Hreq | Hdon]; [left | right];
      apply requests_of_In; assumption.
  - unfold showsContactExchange. cbn. rewrite Hstatus. reflexivity.
Qed.

(** The map that [forEach] builds holds, for a request, the last exchange
    of the list with that request. *)
Lemma exchangeMap_lookup_acc l (m : gmap string Exchange.t) k :
  fold_left (fun m e => <[Exchange.request_id e := e]> m) l m !! k
  = match last (List.filter (fun e => String.eqb (Exchange.request_id e) k) l) with
    | Some e => Some e
    | None => m !! k
    end.
Proof.
  revert m. induction l as [| e l IH]; intros m; cbn; [reflexivity |].
  rewrite IH.
  destruct (String.eqb_spec (Exchange.request_id e) k) as [Heq | Hne].
  - destruct (List.filter _ l) as [| e' l'] eqn:Hf; cbn.
    + rewrite <- Heq. apply lookup_insert_eq.
    + destruct (last (e' :: l')) eqn:Hlast; [reflexivity |].
      apply last_None in Hlast. discriminate.
  - destruct (last _); [reflexivity |].
    apply lookup_insert_ne. exact Hne.
Qed.

Lemma exchangeMap_lookup l k :
  MyRequests.exchangeMap l !! k
  = last (List.filter (fun e => String.eqb (Exchange.request_id e) k) l).
Proof.
  unfold MyRequests.exchangeMap. rewrite exchangeMap_lookup_acc.
  destruct (last _); [reflexivity | apply lookup_empty].
Qed.

Lemma filter_request_among ids k l :
  In k ids ->
  List.filter (fun e => String.eqb (Exchange.request_id e) k)
    (List.filter (fun e => existsb (String.eqb (Exchange.request_id e)) ids) l)
  = List.filter (fun e => String.eqb (Exchange.request_id e) k) l.
Proof.
  intros Hk. induction l as [| e l IH]; cbn; [reflexivity |].
  destruct (String.eqb_spec (Exchange.request_id e) k) as [Heq | Hne].
  - assert (Hex : existsb (String.eqb (Exchange.request_id e)) ids = true).
    { apply existsb_exists. exists k. split; [exact Hk |].
      apply String.eqb_eq. exact Heq. }
    rewrite Hex. cbn. rewrite (proj2 (String.eqb_eq _ _) Heq), IH. reflexivity.
  - destruct (existsb _ ids); cbn.
    + rewrite (proj2 (String.eqb_neq _ _) Hne). exact IH.
    + exact IH.
Qed.

(** After a fetch of a store that answers, the cache holds for an approved
    request of the user the last exchange of that request. *)
Lemma fetched_exchanges_lookup s u old r :
  In r (book_requests s) -> BookRequest.status r = "approved" ->
  BookRequest.requester_id r = User.id u \/ BookRequest.donor_id r = User.id u ->
  fetched_exchanges s u old !! BookRequest.id r
  = last (List.filter (fun e => String.eqb (Exchange.request_id e)
                                  (BookRequest.id r)) (contact_exchanges s)).
Proof.
  intros Hin Hstatus Hparty.
  pose proof (approvedRequestIds_In s u r Hin Hstatus Hparty) as Hid.
  unfold fetched_exchanges.
  destruct (MyRequests.approvedRequestIds _) as [| k ids] eqn:Hids;
    [destruct Hid |].
  cbn [length]. change (Nat.ltb 0 (S (length ids))) with true. cbn iota.
  rewrite exchangeMap_lookup, filter_request_among by exact Hid.
  reflexivity.
Qed.

Lemma handleSubmit_succeeds env w u p phone address :
  (forall n c, outcome env n c = Succeeds) ->
  truthy (trim phone) = true -> truthy (trim address) = true ->
  exists w',
    ContactExchange.handleSubmit (Some u) p (MyRequests.fetchRequests (Some u))
      phone address env w = (Normal tt, w')
    /\ exchanges w'
       = match ContactExchange.existingExchange p with
         | Some _ =>
             shared (ContactExchange.requestId p) (ContactExchange.isDonor p)
               phone address (exchanges w)
         | None =>
             exchanges w ++
             [ContactExchange.updateData (ContactExchange.isDonor p) phone address
                (ContactExchange.blank_exchange (ContactExchange.requestId p)
                   (gen_id env (calls w)) (server_now env (calls w)))]
         end
    /\ ledger w' = ledger w
    /\ contactExchanges (client w')
       = fetched_exchanges (db w') u (contactExchanges (client w))
    /\ toasts w' = toasts w ++ [ContactExchange.toast_contact_shared].
Proof.
  intros Hok Hphone Haddress.
  unfold ContactExchange.handleSubmit. rewrite Hphone, Haddress. cbn [negb orb].
  unfold try_finally, try_catch, bind, setSharing, modify, not_awaited.
  destruct (ContactExchange.existingExchange p) as [e0 |].
  - rewrite pg_update_run. cbn. rewrite Hok. cbn.
    match goal with
    | |- context [MyRequests.fetchRequests (Some u) env ?w1] =>
        destruct (fetchRequests_succeeds env w1 u Hok)
          as (w' & Hrun & Hdb & Htoasts & _ & _ & _ & Hcache & _); rewrite Hrun
    end.
    eexists. split; [reflexivity |].
    unfold exchanges, ledger. cbn. rewrite Hdb, Htoasts, Hcache. cbn.
    repeat split.
  - rewrite pg_insert_run. cbn. rewrite Hok. cbn.
    match goal with
    | |- context [MyRequests.fetchRequests (Some u) env ?w1] =>
        destruct (fetchRequests_succeeds env w1 u Hok)
          as (w' & Hrun & Hdb & Htoasts & _ & _ & _ & Hcache & _); rewrite Hrun
    end.
    eexists. split; [reflexivity |].
    unfold exchanges, ledger. cbn. rewrite Hdb, Htoasts, Hcache. cbn.
    repeat split.
Qed.



Lemma updateData_request_id donor phone address e :
  Exchange.request_id (ContactExchange.updateData donor phone address e)
  = Exchange.request_id e.
Proof. destruct donor; reflexivity. Qed.




(** * Further properties of the views *)

(** ** Fetching the requests, whatever the store answers *)

Lemma fetchRequests_normal env w user :
  fst (MyRequests.fetchRequests user env w) = Normal tt.
Proof.
  destruct user as [u |]; [| reflexivity].
  unfold MyRequests.fetchRequests, try_finally, try_catch, bind.
  rewrite select_requests_run.
  destruct (outcome env (calls w) (CallSelect "book_requests")); cbn;
    try reflexivity.
  rewrite select_requests_run. cbn.
  destruct (outcome env (S (calls w)) (CallSelect "book_requests")); cbn;
    try reflexivity.
  match goal with |- context [Nat.ltb 0 ?n] => destruct (Nat.ltb 0 n) end;
    [| reflexivity].
  rewrite pg_select_run. cbn.
  destruct (outcome env (S (S (calls w))) (CallSelect "contact_exchanges"));
    reflexivity.
Qed.

Lemma fetchRequests_loading env w u :
  loading (client (snd (MyRequests.fetchRequests (Some u) env w))) = false.
Proof.
  unfold MyRequests.fetchRequests, setLoading. rewrite try_finally_modify.
  reflexivity.
Qed.

Lemma keeps_requestingBooks_fetchRequests user :
  keeps (fun w => requestingBooks (client w)) (MyRequests.fetchRequests user).
Proof.
  unfold MyRequests.fetchRequests, select_requests. unfold_setters.
  destruct user; frame.
Qed.

Lemma keeps_notificationList_fetchRequests user :
  keeps (fun w => notificationList (client w)) (MyRequests.fetchRequests user).
Proof.
  unfold MyRequests.fetchRequests, select_requests. unfold_setters.
  destruct user; frame.
Qed.

(** X1: fetching the requests completes without throwing, writes nothing to
    the store and leaves the marks of the calls in flight and the list of
    notifications alone, however its store calls end.  With a user it always
    ends with the loading flag down; without a user it does nothing at all,
    so a view that is loading stays so. *)
Theorem fetchRequests_reads_only env w user :
  let res := MyRequests.fetchRequests user env w in
  fst res = Normal tt
  /\ db (snd res) = db w
  /\ requestingBooks (client (snd res)) = requestingBooks (client w)
  /\ processingRequests (client (snd res)) = processingRequests (client w)
  /\ notificationList (client (snd res)) = notificationList (client w)
  /\ match user with
     | Some _ => loading (client (snd res)) = false
     | None => snd res = w
     end.
Proof.
  intros res. subst res. split; [apply fetchRequests_normal |].
  split; [apply keeps_db_fetchRequests |].
  split; [apply keeps_requestingBooks_fetchRequests |].
  split; [apply keeps_processingRequests_fetchRequests |].
  split; [apply keeps_notificationList_fetchRequests |].
  destruct user as [u |]; [apply fetchRequests_loading | reflexivity].
Qed.

(** The run of a fetch whose two selects of requests succeed, up to the
    select of the exchanges. *)
Lemma fetchRequests_lists env w u :
  outcome env (calls w) (CallSelect "book_requests") = Succeeds ->
  outcome env (S (calls w)) (CallSelect "book_requests") = Succeeds ->
  let w' := snd (MyRequests.fetchRequests (Some u) env w) in
  sentRequests (client w') = requests_of BookRequest.requester_id (db w) u
  /\ receivedRequests (client w') = requests_of BookRequest.donor_id (db w) u.
Proof.
  intros H1 H2.
  unfold MyRequests.fetchRequests, try_finally, try_catch, bind.
  rewrite select_requests_run, H1. cbn.
  rewrite select_requests_run. cbn. rewrite H2. cbn.
  match goal with |- context [Nat.ltb 0 ?n] => destruct (Nat.ltb 0 n) end;
    [| split; reflexivity].
  rewrite pg_select_run. cbn.
  destruct (outcome env (S (S (calls w))) (CallSelect "contact_exchanges"));
    split; reflexivity.
Qed.

(** X2: the two lists of requests are replaced together or not at all.  When
    one of the two selects of requests does not succeed, the lists and the
    cache of exchanges are what they were and the failure is shown once, in
    both revisions. *)
Theorem fetchRequests_all_or_nothing env w u :
  outcome env (calls w) (CallSelect "book_requests") <> Succeeds
  \/ outcome env (S (calls w)) (CallSelect "book_requests") <> Succeeds ->
  (sentRequests (client (snd (MyRequests.fetchRequests (Some u) env w)))
   = sentRequests (client w)
   /\ receivedRequests (client (snd (MyRequests.fetchRequests (Some u) env w)))
      = receivedRequests (client w)
   /\ contactExchanges (client (snd (MyRequests.fetchRequests (Some u) env w)))
      = contactExchanges (client w)
   /\ toasts (snd (MyRequests.fetchRequests (Some u) env w))
      = toasts w ++ [toast_load_failed])
  /\ (sentRequests (client (snd (MyRequestsBase.fetchRequests (Some u) env w)))
      = sentRequests (client w)
      /\ receivedRequests
           (client (snd (MyRequestsBase.fetchRequests (Some u) env w)))
         = receivedRequests (client w)
      /\ toasts (snd (MyRequestsBase.fetchRequests (Some u) env w))
         = toasts w ++ [toast_load_failed]).
Proof.
  intros Hfail.
  unfold MyRequests.fetchRequests, MyRequestsBase.fetchRequests,
    try_finally, try_catch, bind.
  rewrite !select_requests_run.
  destruct (outcome env (calls w) (CallSelect "book_requests")) eqn:H1; cbn;
    try (repeat split; reflexivity).
  destruct Hfail as [Hfail | Hfail]; [congruence |].
  rewrite !select_requests_run. cbn.
  destruct (outcome env (S (calls w)) (CallSelect "book_requests")); cbn;
    [congruence | |]; repeat split; reflexivity.
Qed.

Lemma fetchRequests_all_or_nothing_witness :
  let w := in_browser alice_client approved_world in
  let w' := snd (MyRequests.fetchRequests (Some alice) (env_failing_at 1) w) in
  receivedRequests (client w') = [dune_view "req-1" "approved"]
  /\ sentRequests (client w') = []
  /\ toasts w' = [toast_load_failed].
Proof.
  intros w w'.
  destruct (fetchRequests_all_or_nothing (env_failing_at 1) w alice)
    as [(Hsent & Hreceived & _ & Htoasts) _].
  - right. discriminate.
  - split; [exact Hreceived |]. split; [exact Hsent | exact Htoasts].
Defined.

(** X3: once the two selects of requests have succeeded the lists are
    replaced, whatever becomes of the exchanges.  For a user without
    approved request no third call is made and the cache of exchanges keeps
    what it held; when the select of the exchanges does not succeed the
    cache keeps what it held as well, and the failure is shown although the
    lists are the new ones. *)
Theorem fetchRequests_cache_kept env w u :
  outcome env (calls w) (CallSelect "book_requests") = Succeeds ->
  outcome env (S (calls w)) (CallSelect "book_requests") = Succeeds ->
  let ids :=
    MyRequests.approvedRequestIds
      (requests_of BookRequest.requester_id (db w) u
       ++ requests_of BookRequest.donor_id (db w) u) in
  let w' := snd (MyRequests.fetchRequests (Some u) env w) in
  sentRequests (client w') = requests_of BookRequest.requester_id (db w) u
  /\ receivedRequests (client w') = requests_of BookRequest.donor_id (db w) u
  /\ match ids with
     | [] =>
         contactExchanges (client w') = contactExchanges (client w)
         /\ calls w' = 2 + calls w /\ toasts w' = toasts w
     | _ :: _ =>
         match outcome env (S (S (calls w))) (CallSelect "contact_exchanges") with
         | Succeeds =>
             contactExchanges (client w')
             = MyRequests.exchangeMap
                 (List.filter
                    (fun e => existsb (String.eqb (Exchange.request_id e)) ids)
                    (exchanges w))
             /\ toasts w' = toasts w
         | _ =>
             contactExchanges (client w') = contactExchanges (client w)
             /\ toasts w' = toasts w ++ [toast_load_failed]
         end
     end.
Proof.
  intros H1 H2 ids w'.
  destruct (fetchRequests_lists env w u H1 H2) as [Hsent Hreceived].
  split; [exact Hsent |]. split; [exact Hreceived |].
  subst w'.
  unfold MyRequests.fetchRequests, try_finally, try_catch, bind.
  rewrite select_requests_run, H1. cbn.
  rewrite select_requests_run. cbn. rewrite H2. cbn.
  fold ids. destruct ids as [| k ids'] eqn:Hids.
  - cbn. repeat split.
  - cbn [length]. change (Nat.ltb 0 (S (length ids'))) with true. cbn iota.
    cbn beta. rewrite pg_select_run. cbn.
    destruct (outcome env (S (S (calls w))) (CallSelect "contact_exchanges"));
      cbn; split; reflexivity.
Qed.

Lemma fetchRequests_cache_kept_witness :
  let w := in_browser alice_client
             (world_of (store_of [dune_request "req-1" "rejected"] [] [])) in
  let w' := snd (MyRequests.fetchRequests (Some alice) env_ok w) in
  List.map (fun v => BookRequest.status (rv_row v)) (receivedRequests (client w'))
  = ["rejected"]
  /\ contactExchanges (client w') !! "req-1" = Some both_shared.
Proof.
  intros w w'.
  destruct (fetchRequests_cache_kept env_ok w alice eq_refl eq_refl)
    as (_ & Hreceived & Hcache).
  split.
  - fold w' in Hreceived. rewrite Hreceived. reflexivity.
  - cbn in Hcache. destruct Hcache as (Hcache & _).
    fold w' in Hcache. rewrite Hcache. reflexivity.
Defined.

(** ** The map of the exchanges *)

(** X4: the map that [forEach] builds from the fetched exchanges holds, for
    every request, the last exchange of the list with that request; what it
    holds under a request is an exchange of the list for that request, and
    it holds nothing under a request without exchange in the list. *)
Theorem exchangeMap_last_wins (l : list Exchange.t) (k : string) :
  MyRequests.exchangeMap l !! k
  = last (List.filter (fun e => String.eqb (Exchange.request_id e) k) l)
  /\ (forall e, MyRequests.exchangeMap l !! k = Some e ->
                In e l /\ Exchange.request_id e = k)
  /\ (MyRequests.exchangeMap l !! k = None <->
      forall e, In e l -> Exchange.request_id e <> k).
Proof.
  pose proof (exchangeMap_lookup l k) as Hlook.
  split; [exact Hlook |]. rewrite Hlook. split.
  - intros e He. apply last_Some_elem_of in He.
    apply list_elem_of_In, filter_In in He. destruct He as [Hin Hk].
    split; [exact Hin | apply String.eqb_eq; exact Hk].
  - rewrite last_None. split.
    + intros Hnil e Hin Hk.
      assert (Hf : In e (List.filter
                           (fun e => String.eqb (Exchange.request_id e) k) l)).
      { apply filter_In. split; [exact Hin | apply String.eqb_eq; exact Hk]. }
      rewrite Hnil in Hf. destruct Hf.
    + intros Hnone.
      destruct (List.filter _ l) as [| e l'] eqn:Hf; [reflexivity |].
      assert (He : In e (List.filter
                           (fun e => String.eqb (Exchange.request_id e) k) l))
        by (rewrite Hf; left; reflexivity).
      apply filter_In in He. destruct He as [Hin Hk].
      apply String.eqb_eq in Hk. destruct (Hnone e Hin Hk).
Qed.

(** ** The order of the fetched rows *)

Lemma ltb_asym (a b : string) : String.ltb a b = true -> String.ltb b a = false.
Proof.
  unfold String.ltb. rewrite (String.compare_antisym a b).
  destruct (String.compare b a); cbn; congruence.
Qed.

Lemma insert_desc_sorted {R} (key : R -> string) x l :
  newest_first key l -> newest_first key (insert_desc key x l).
Proof.
  unfold newest_first. intros Hl. induction l as [| y l IH]; cbn.
  - constructor; constructor.
  - destruct (String.ltb (key x) (key y)) eqn:Hxy.
    + inversion Hl as [| ? ? Hl' Hhd]; subst.
      constructor; [apply IH; exact Hl' |].
      destruct l as [| z l]; cbn.
      * constructor. apply ltb_asym. exact Hxy.
      * destruct (String.ltb (key x) (key z)).
        -- inversion Hhd; subst. constructor. assumption.
        -- constructor. apply ltb_asym. exact Hxy.
    + constructor; [exact Hl |]. constructor. exact Hxy.
Qed.

Lemma order_desc_sorted {R} (key : R -> string) l :
  newest_first key (order_desc key l).
Proof.
  induction l as [| x l IH]; cbn.
  - constructor.
  - apply insert_desc_sorted. exact IH.
Qed.

Lemma insert_desc_Permutation {R} (key : R -> string) x l :
  Permutation (insert_desc key x l) (x :: l).
Proof.
  induction l as [| y l IH]; cbn; [reflexivity |].
  destruct (String.ltb (key x) (key y)); [| reflexivity].
  rewrite IH. apply perm_swap.
Qed.

Lemma order_desc_Permutation {R} (key : R -> string) l :
  Permutation (order_desc key l) l.
Proof.
  induction l as [| x l IH]; cbn; [reflexivity |].
  rewrite insert_desc_Permutation, IH. reflexivity.
Qed.

Lemma newest_first_map {R T} (f : R -> T) (key : T -> string) l :
  newest_first (fun r => key (f r)) l -> newest_first key (List.map f l).
Proof.
  unfold newest_first. induction 1 as [| x l Hl IH Hhd]; cbn.
  - constructor.
  - constructor; [exact IH |].
    destruct Hhd; cbn; constructor. assumption.
Qed.

Lemma requests_of_newest_first column s u :
  newest_first (fun v => BookRequest.created_at (rv_row v)) (requests_of column s u).
Proof.
  unfold requests_of. apply newest_first_map. cbn. apply order_desc_sorted.
Qed.

Lemma requests_of_Permutation column s u :
  Permutation (requests_of column s u)
    (List.map (join_books s)
       (List.filter (fun r => String.eqb (column r) (User.id u)) (book_requests s))).
Proof.
  unfold requests_of. apply Permutation_map, order_desc_Permutation.
Qed.

(** X5: when its two selects succeed, a fetch shows in the list of the sent
    requests exactly the requests of the ledger whose requester is the user,
    each once and joined with its book, the most recent first, and in the
    list of the received requests exactly those whose donor is the user, in
    the same order: a request of other users is in neither list. *)
Theorem fetched_requests_newest_first env w u :
  outcome env (calls w) (CallSelect "book_requests") = Succeeds ->
  outcome env (S (calls w)) (CallSelect "book_requests") = Succeeds ->
  let w' := snd (MyRequests.fetchRequests (Some u) env w) in
  let mine (column : BookRequest.t -> string) :=
    List.map (join_books (db w))
      (List.filter (fun r => String.eqb (column r) (User.id u)) (ledger w)) in
  Permutation (sentRequests (client w')) (mine BookRequest.requester_id)
  /\ Permutation (receivedRequests (client w')) (mine BookRequest.donor_id)
  /\ newest_first (fun v => BookRequest.created_at (rv_row v))
       (sentRequests (client w'))
  /\ newest_first (fun v => BookRequest.created_at (rv_row v))
       (receivedRequests (client w'))
  /\ (forall v, In v (sentRequests (client w')) ->
                In (rv_row v) (ledger w)
                /\ BookRequest.requester_id (rv_row v) = User.id u)
  /\ (forall v, In v (receivedRequests (client w')) ->
                In (rv_row v) (ledger w)
                /\ BookRequest.donor_id (rv_row v) = User.id u).
Proof.
  intros H1 H2 w' mine.
  destruct (fetchRequests_lists env w u H1 H2) as [Hsent Hreceived].
  fold w' in Hsent, Hreceived. rewrite Hsent, Hreceived.
  assert (Hmine : forall column v,
             In v (requests_of column (db w) u) ->
             In (rv_row v) (ledger w) /\ column (rv_row v) = User.id u).
  { intros column v Hv.
    apply (Permutation_in _ (requests_of_Permutation column (db w) u)) in Hv.
    apply in_map_iff in Hv. destruct Hv as (r & <- & Hr).
    apply filter_In in Hr. destruct Hr as [Hin Hcol].
    split; [exact Hin | apply String.eqb_eq; exact Hcol]. }
  split; [apply requests_of_Permutation |].
  split; [apply requests_of_Permutation |].
  split; [apply requests_of_newest_first |].
  split; [apply requests_of_newest_first |].
  split; intros v Hv; apply Hmine; exact Hv.
Qed.

Lemma fetched_requests_newest_first_witness :
  let w := world_of (store_of [dune_request_at "req-1" "rejected" "2024-05-01";
                               dune_request_at "req-2" "pending" "2024-05-03";
                               dune_request_at "req-3" "pending" "2024-05-02"]
                       [] []) in
  List.map (fun v => BookRequest.id (rv_row v))
    (receivedRequests (client (snd (MyRequests.fetchRequests (Some alice) env_ok w))))
  = ["req-2"; "req-3"; "req-1"]
  /\ newest_first (fun v => BookRequest.created_at (rv_row v))
       (receivedRequests (client (snd (MyRequests.fetchRequests (Some alice)
                                         env_ok w)))).
Proof.
  intros w.
  destruct (fetched_requests_newest_first env_ok w alice eq_refl eq_refl)
    as (_ & _ & _ & Hsorted & _).
  split; [reflexivity | exact Hsorted].
Defined.

(** ** The list of notifications *)

Lemma order_desc_map {R} (key : R -> string) (f : R -> R) l :
  (forall x, key (f x) = key x) ->
  order_desc key (List.map f l) = List.map f (order_desc key l).
Proof.
  intros Hkey.
  assert (Hins : forall x l0, insert_desc key (f x) (List.map f l0)
                              = List.map f (insert_desc key x l0)).
  { intros x l0. induction l0 as [| y l0 IH]; cbn; [reflexivity |].
    rewrite !Hkey. destruct (String.ltb (key x) (key y)); cbn.
    - rewrite IH. reflexivity.
    - reflexivity. }
  unfold order_desc. induction l as [| x l IH]; cbn; [reflexivity |].
  rewrite IH. apply Hins.
Qed.

Lemma filter_map_same {R} (p : R -> bool) (f : R -> R) l :
  (forall x, p (f x) = p x) ->
  List.filter p (List.map f l) = List.map f (List.filter p l).
Proof.
  intros Hp. induction l as [| x l IH]; cbn; [reflexivity |].
  rewrite Hp. destruct (p x); cbn; rewrite IH; reflexivity.
Qed.

(** The list after an update of the store that changes the [read] flag
    only. *)
Lemma notifications_of_map (f : Notification.t -> Notification.t) l u :
  (forall n, Notification.userid (f n) = Notification.userid n) ->
  (forall n, Notification.createdat (f n) = Notification.createdat n) ->
  order_desc Notification.createdat
    (List.filter (fun n => String.eqb (Notification.userid n) (User.id u))
       (List.map f l))
  = List.map f
      (order_desc Notification.createdat
         (List.filter (fun n => String.eqb (Notification.userid n) (User.id u)) l)).
Proof.
  intros Huser Hcreated.
  rewrite filter_map_same by (intros n; rewrite Huser; reflexivity).
  apply order_desc_map. exact Hcreated.
Qed.

Lemma notifications_of_own s u n :
  In n (notifications_of s u) <->
  In n (notifications s) /\ Notification.userid n = User.id u.
Proof.
  unfold notifications_of. rewrite order_desc_In, filter_In, String.eqb_eq.
  reflexivity.
Qed.

(** X6: a fetch of the notifications that succeeds shows exactly the
    notifications of the user, each once and the most recent first, and none
    of another user; a fetch that does not succeed leaves the list as it was
    and shows the failure.  In both cases the store is not written and the
    loading flag is down. *)
Theorem fetchNotifications_shows_own env w u :
  let res := Notifications.fetchNotifications (Some u) env w in
  fst res = Normal tt
  /\ db (snd res) = db w
  /\ loading (client (snd res)) = false
  /\ match outcome env (calls w) (CallSelect "notifications") with
     | Succeeds =>
         Permutation (notificationList (client (snd res)))
           (List.filter (fun n => String.eqb (Notification.userid n) (User.id u))
              (outbox w))
         /\ newest_first Notification.createdat (notificationList (client (snd res)))
         /\ (forall n, In n (notificationList (client (snd res))) <->
                       In n (outbox w) /\ Notification.userid n = User.id u)
         /\ toasts (snd res) = toasts w
     | _ =>
         notificationList (client (snd res)) = notificationList (client w)
         /\ toasts (snd res) = toasts w ++ [toast_notifications_failed]
     end.
Proof.
  intros res. subst res.
  unfold Notifications.fetchNotifications, try_finally, try_catch, bind, pg_map.
  unfold bind. rewrite pg_select_run. cbn.
  destruct (outcome env (calls w) (CallSelect "notifications")); cbn.
  - do 3 (split; [reflexivity |]).
    split; [apply order_desc_Permutation |].
    split; [apply order_desc_sorted |].
    split; [intros n; apply (notifications_of_own (db w) u n) | reflexivity].
  - repeat split.
  - repeat split.
Qed.

Lemma with_read_true_read n :
  Notification.read n = true -> Notification.with_read true n = n.
Proof. destruct n; cbn; intros ->; reflexivity. Qed.

(** X7: marking one notification as read never shows a toast and never
    throws: a failure is only logged, and then neither the store nor the list
    changes.  When the store accepts the update, the notifications with that
    id are read and nothing else differs in the store; and a list that
    showed the notifications of the user shows them still, as a new fetch
    would give them. *)
Theorem markAsRead_coherent env w u notificationId :
  notificationList (client w) = notifications_of (db w) u ->
  let res := Notifications.markAsRead notificationId env w in
  fst res = Normal tt
  /\ toasts (snd res) = toasts w
  /\ notificationList (client (snd res)) = notifications_of (db (snd res)) u
  /\ ledger (snd res) = ledger w /\ exchanges (snd res) = exchanges w
  /\ match outcome env (calls w) (CallUpdate "notifications") with
     | Succeeds =>
         outbox (snd res)
         = List.map (fun n => if String.eqb (Notification.id n) notificationId
                              then Notification.with_read true n else n)
             (outbox w)
     | _ =>
         db (snd res) = db w
         /\ notificationList (client (snd res)) = notificationList (client w)
         /\ console (snd res)
            = console w ++ ["Error marking notification as read:"]
     end.
Proof.
  intros Hview res. subst res.
  unfold Notifications.markAsRead, try_catch, bind. rewrite pg_update_run. cbn.
  destruct (outcome env (calls w) (CallUpdate "notifications")); cbn.
  - do 2 (split; [reflexivity |]).
    split; [| repeat split].
    rewrite Hview. unfold notifications_of. cbn.
    symmetry. apply notifications_of_map.
    + intros n. destruct (String.eqb _ _); reflexivity.
    + intros n. destruct (String.eqb _ _); reflexivity.
  - do 2 (split; [reflexivity |]). split; [exact Hview | repeat split].
  - do 2 (split; [reflexivity |]). split; [exact Hview | repeat split].
Qed.

Lemma markAsRead_coherent_witness :
  let notes := [sample_note_at "n-1" "user-a" "2024-05-01" false;
                sample_note_at "n-2" "user-b" "2024-05-02" false;
                sample_note_at "n-3" "user-a" "2024-05-03" false] in
  let w := snd (Notifications.fetchNotifications (Some alice) env_ok
                  (world_of (store_of [] [] notes))) in
  let w' := snd (Notifications.markAsRead "n-1" env_ok w) in
  List.map (fun n => (Notification.id n, Notification.read n))
    (notificationList (client w'))
  = [("n-3", false); ("n-1", true)]
  /\ notificationList (client w') = notifications_of (db w') alice.
Proof.
  intros notes w w'.
  destruct (markAsRead_coherent env_ok w alice "n-1" eq_refl)
    as (_ & _ & Hview & _).
  split; [reflexivity | exact Hview].
Defined.

Lemma unreadCount_all_read l :
  unreadCount (List.map (Notification.with_read true) l) = 0.
Proof. unfold unreadCount. induction l as [| n l IH]; cbn; auto. Qed.

(** X8: marking all as read keeps the list in step with the store.  A list
    that showed the notifications of the user shows, after the call, what a
    new fetch would give; when the store accepts the update nothing in it is
    unread any more, so the badge and the button [Mark All Read] go away, and
    when it does not the list is unchanged and the failure is shown. *)
Theorem markAllAsRead_coherent env w u :
  notificationList (client w) = notifications_of (db w) u ->
  let res := Notifications.markAllAsRead (Some u) env w in
  fst res = Normal tt
  /\ notificationList (client (snd res)) = notifications_of (db (snd res)) u
  /\ match outcome env (calls w) (CallUpdate "notifications") with
     | Succeeds =>
         unreadCount (notificationList (client (snd res))) = 0
         /\ showsMarkAllRead (notificationList (client (snd res))) = false
         /\ toasts (snd res) = toasts w ++ [Notifications.toast_all_read]
     | _ =>
         notificationList (client (snd res)) = notificationList (client w)
         /\ db (snd res) = db w
         /\ toasts (snd res) = toasts w ++ [Notifications.toast_mark_failed]
     end.
Proof.
  intros Hview res. subst res.
  unfold Notifications.markAllAsRead, try_catch, bind. rewrite pg_update_run. cbn.
  destruct (outcome env (calls w) (CallUpdate "notifications")); cbn.
  - split; [reflexivity |]. split.
    + rewrite Hview.
      transitivity
        (List.map (fun n => if String.eqb (Notification.userid n) (User.id u)
                               && Bool.eqb (Notification.read n) false
                            then Notification.with_read true n else n)
           (notifications_of (db w) u)).
      * apply map_ext_in. intros n Hn.
        apply (notifications_of_own (db w) u n) in Hn. destruct Hn as [_ Hu].
        rewrite (proj2 (String.eqb_eq _ _) Hu). cbn.
        destruct (Notification.read n) eqn:Hread; cbn; [| reflexivity].
        apply with_read_true_read. exact Hread.
      * symmetry. apply notifications_of_map.
        -- intros n. destruct (_ && _); reflexivity.
        -- intros n. destruct (_ && _); reflexivity.
    + split; [apply unreadCount_all_read |].
      split; [| reflexivity].
      unfold showsMarkAllRead.
      rewrite (unreadCount_all_read (notificationList (client w))).
      reflexivity.
  - split; [reflexivity |]. split; [exact Hview | repeat split].
  - split; [reflexivity |]. split; [exact Hview | repeat split].
Qed.

Lemma markAllAsRead_coherent_witness :
  let notes := [sample_note_at "n-1" "user-a" "2024-05-01" false;
                sample_note_at "n-2" "user-b" "2024-05-02" false;
                sample_note_at "n-3" "user-a" "2024-05-03" true] in
  let w := snd (Notifications.fetchNotifications (Some alice) env_ok
                  (world_of (store_of [] [] notes))) in
  let w' := snd (Notifications.markAllAsRead (Some alice) env_ok w) in
  showsMarkAllRead (notificationList (client w)) = true
  /\ showsMarkAllRead (notificationList (client w')) = false
  /\ notificationList (client w') = notifications_of (db w') alice.
Proof.
  intros notes w w'.
  destruct (markAllAsRead_coherent env_ok w alice eq_refl)
    as (_ & Hview & Hcount).
  cbn in Hcount. destruct Hcount as (_ & Hhidden & _).
  split; [reflexivity |]. split; [exact Hhidden | exact Hview].
Defined.

(** ** When the primary write fails *)

(** X9: a response whose update the store does not accept changes nothing:
    the store is as it was, no notification is written, the lists of the
    view are not refetched and the failure is shown; the later revision
    removes its mark all the same. *)
Theorem response_failure_changes_nothing
  env w user requestId d requesterId bookTitle :
  outcome env (calls w) (CallUpdate "book_requests") <> Succeeds ->
  (let res := MyRequestsBase.handleRequestResponse user requestId d requesterId
                bookTitle env w in
   fst res = Normal tt /\ db (snd res) = db w /\ client (snd res) = client w
   /\ toasts (snd res) = toasts w ++ [toast_update_failed]
   /\ calls (snd res) = S (calls w))
  /\ (has (processingRequests (client w)) requestId = false ->
      let res := MyRequests.handleRequestResponse user requestId d requesterId
                   bookTitle env w in
      fst res = Normal tt /\ db (snd res) = db w
      /\ processingRequests (client (snd res)) = processingRequests (client w)
      /\ sentRequests (client (snd res)) = sentRequests (client w)
      /\ receivedRequests (client (snd res)) = receivedRequests (client w)
      /\ toasts (snd res) = toasts w ++ [toast_update_failed]
      /\ calls (snd res) = S (calls w)).
Proof.
  intros Hfail. split.
  - intros res. subst res.
    unfold MyRequestsBase.handleRequestResponse, try_catch, bind.
    rewrite pg_update_run. cbn.
    destruct (outcome env (calls w) (CallUpdate "book_requests"));
      [congruence | |]; repeat split.
  - intros Hfree res.
    assert (Hmark := handleRequestResponse_releases env w user requestId d
                       requesterId bookTitle Hfree).
    fold res in Hmark.
    assert (Hrun : exists w',
               res = (Normal tt, w') /\ db w' = db w
               /\ sentRequests (client w') = sentRequests (client w)
               /\ receivedRequests (client w') = receivedRequests (client w)
               /\ toasts w' = toasts w ++ [toast_update_failed]
               /\ calls w' = S (calls w)).
    { subst res.
      unfold MyRequests.handleRequestResponse, try_finally, try_catch, bind,
        get, ask, setProcessingRequests, modify.
      cbn beta iota. rewrite Hfree. rewrite pg_update_run. cbn.
      destruct (outcome env (calls w) (CallUpdate "book_requests"));
        [congruence | |]; cbn; eexists; repeat split. }
    destruct Hrun as (w' & Hres & Hdb & Hsent & Hreceived & Htoasts & Hcalls).
    rewrite Hres in *. cbn in *. auto 10.
Qed.

Lemma response_failure_changes_nothing_witness :
  let w := world_of (store_of [dune_request "req-1" "pending"] [] []) in
  let w' := snd (MyRequests.handleRequestResponse (Some alice) "req-1" approved
                   "user-b" "Dune" (env_failing_at 0) w) in
  db w' = db w /\ toasts w' = [toast_update_failed].
Proof.
  intros w w'.
  destruct (response_failure_changes_nothing (env_failing_at 0) w (Some alice)
              "req-1" approved "user-b" "Dune") as [_ Hext].
  - discriminate.
  - destruct (Hext eq_refl) as (_ & Hdb & _ & _ & _ & Htoasts & _).
    split; [exact Hdb | exact Htoasts].
Defined.

(** X10: a request whose insert the store does not accept, or whose
    existence query is rejected, changes nothing: the store is as it was, no
    notification is written and the failure is shown, in both revisions. *)
Theorem request_failure_changes_nothing env w u book :
  outcome env (calls w) (CallSelect "book_requests") = Rejects
  \/ (outcome env (calls w) (CallSelect "book_requests") = Succeeds
      /\ List.filter (is_pending_request (Book.id book) (User.id u))
           (book_requests (db w)) = []
      /\ outcome env (S (calls w)) (CallInsert "book_requests") <> Succeeds) ->
  (let res := BooksListBase.handleRequestBook (Some u) book env w in
   fst res = Normal tt /\ db (snd res) = db w
   /\ toasts (snd res) = toasts w ++ [toast_request_failed])
  /\ (has (requestingBooks (client w)) (Book.id book) = false ->
      let res := BooksList.handleRequestBook (Some u) book env w in
      fst res = Normal tt /\ db (snd res) = db w
      /\ toasts (snd res) = toasts w ++ [toast_request_failed]
      /\ requestingBooks (client (snd res)) = requestingBooks (client w)).
Proof.
  intros Hfail. split.
  - intros res. subst res.
    unfold BooksListBase.handleRequestBook, try_catch, bind.
    destruct Hfail as [Hrej | (Hsel & Hnone & Hins)].
    + unfold select_existing_request, single, pg_map, bind.
      rewrite pg_select_run. cbn. rewrite Hrej. repeat split.
    + rewrite select_existing_request_succeeds by exact Hsel.
      rewrite Hnone. cbn.
      unfold insert_request. rewrite pg_insert_run. cbn.
      destruct (outcome env (S (calls w)) (CallInsert "book_requests"));
        [congruence | |]; repeat split.
  - intros Hfree res.
    assert (Hmark := handleRequestBook_releases env w (Some u) book Hfree).
    fold res in Hmark.
    assert (Hrun : exists w',
               res = (Normal tt, w') /\ db w' = db w
               /\ toasts w' = toasts w ++ [toast_request_failed]).
    { subst res.
      unfold BooksList.handleRequestBook, try_finally, try_catch, bind, get,
        setRequestingBooks, modify.
      cbn beta iota. rewrite Hfree.
      destruct Hfail as [Hrej | (Hsel & Hnone & Hins)].
      - unfold select_existing_request, single, pg_map, bind.
        rewrite pg_select_run. cbn. rewrite Hrej. cbn.
        eexists; repeat split.
      - rewrite select_existing_request_succeeds by exact Hsel.
        cbn. rewrite Hnone. cbn.
        unfold insert_request. rewrite pg_insert_run. cbn.
        destruct (outcome env (S (calls w)) (CallInsert "book_requests"));
          [congruence | |]; cbn; eexists; repeat split. }
    destruct Hrun as (w' & Hres & Hdb & Htoasts).
    rewrite Hres in *. cbn in *. auto.
Qed.

Lemma request_failure_changes_nothing_witness :
  let w := world_of (store_of [] [] []) in
  let w' := snd (BooksList.handleRequestBook (Some bob) dune (env_failing_at 1) w) in
  db w' = db w /\ toasts w' = [toast_request_failed].
Proof.
  intros w w'.
  destruct (request_failure_changes_nothing (env_failing_at 1) w bob dune)
    as [_ Hext].
  - right. split; [reflexivity |]. split; [reflexivity | discriminate].
  - destruct (Hext eq_refl) as (_ & Hdb & Htoasts & _).
    split; [exact Hdb | exact Htoasts].
Defined.

(** ** The marks of the calls in flight *)

(** X11: the later revisions drop a call for a book (a request) that is
    marked as in flight, without any effect; a call for one that is not
    marked leaves it unmarked when it ends, however it ends, and leaves the
    other marks as they were. *)
Theorem in_flight_marks env w user book requestId d requesterId bookTitle :
  (if has (requestingBooks (client w)) (Book.id book)
   then BooksList.handleRequestBook user book env w = (Normal tt, w)
   else requestingBooks (client (snd (BooksList.handleRequestBook user book env w)))
        = requestingBooks (client w))
  /\ (if has (processingRequests (client w)) requestId
      then MyRequests.handleRequestResponse user requestId d requesterId
             bookTitle env w = (Normal tt, w)
      else processingRequests
             (client (snd (MyRequests.handleRequestResponse user requestId d
                             requesterId bookTitle env w)))
           = processingRequests (client w)).
Proof.
  split.
  - destruct (has (requestingBooks (client w)) (Book.id book)) eqn:Hmark.
    + unfold BooksList.handleRequestBook, bind, get. rewrite Hmark.
      destruct user; reflexivity.
    + apply handleRequestBook_releases. exact Hmark.
  - destruct (has (processingRequests (client w)) requestId) eqn:Hmark.
    + unfold MyRequests.handleRequestResponse, bind at 1, get at 1.
      rewrite Hmark. reflexivity.
    + apply handleRequestResponse_releases. exact Hmark.
Qed.

(** ** The card after a share *)

Lemma truthy_of_trim s : truthy (trim s) = true -> truthy s = true.
Proof. destruct s; [cbn; congruence | reflexivity]. Qed.

(** After a fetch of a store that answers, the cache holds for an approved
    request of the user the last exchange of the table for that request. *)
Lemma fetch_cache_lookup env w u r :
  (forall n c, outcome env n c = Succeeds) ->
  In r (ledger w) -> BookRequest.status r = "approved" ->
  BookRequest.requester_id r = User.id u \/ BookRequest.donor_id r = User.id u ->
  contactExchanges (client (snd (MyRequests.fetchRequests (Some u) env w)))
  !! BookRequest.id r
  = last (List.filter (fun e => String.eqb (Exchange.request_id e)
                                  (BookRequest.id r)) (exchanges w)).
Proof.
  intros Hok Hin Hstatus Hparty.
  destruct (fetchRequests_succeeds env w u Hok)
    as (w' & Hrun & _ & _ & _ & _ & _ & Hcache & _).
  rewrite Hrun. cbn. rewrite Hcache.
  apply fetched_exchanges_lookup; assumption.
Qed.

Lemma filter_shared k donor phone address l :
  List.filter (fun e => String.eqb (Exchange.request_id e) k)
    (shared k donor phone address l)
  = List.map (ContactExchange.updateData donor phone address)
      (List.filter (fun e => String.eqb (Exchange.request_id e) k) l).
Proof.
  unfold shared. induction l as [| e l IH]; cbn; [reflexivity |].
  destruct (String.eqb (Exchange.request_id e) k) eqn:He; cbn.
  - rewrite updateData_request_id, He, IH. reflexivity.
  - rewrite He. exact IH.
Qed.

Lemma last_map {A B} (f : A -> B) (l : list A) :
  last (List.map f l) = option_map f (last l).
Proof.
  induction l as [| x [| y l] IH]; cbn in *; auto.
Qed.

(** The exchange that the cache holds for the request after a submission
    that the store accepts, the cache having been in step with the table:
    it carries the submitted values in the fields of the party. *)
Lemma submit_cache env w u request (donor : bool) phone address :
  (forall n c, outcome env n c = Succeeds) ->
  truthy (trim phone) = true -> truthy (trim address) = true ->
  In (rv_row request) (ledger w) ->
  showsContactExchange request = true ->
  (if donor then BookRequest.donor_id (rv_row request)
   else BookRequest.requester_id (rv_row request)) = User.id u ->
  contactExchanges (client w) !! BookRequest.id (rv_row request)
  = last (List.filter (fun e => String.eqb (Exchange.request_id e)
                                  (BookRequest.id (rv_row request)))
            (exchanges w)) ->
  let w' := snd (ContactExchange.handleSubmit (Some u)
                   (exchange_props (client w) request donor)
                   (MyRequests.fetchRequests (Some u)) phone address env w) in
  exists e,
    contactExchanges (client w') !! BookRequest.id (rv_row request) = Some e
    /\ last (List.filter (fun e => String.eqb (Exchange.request_id e)
                                     (BookRequest.id (rv_row request)))
               (exchanges w')) = Some e
    /\ party_phone donor e = Some phone /\ party_address donor e = Some address
    /\ counterpart_phone donor e
       = (e0 ← contactExchanges (client w) !! BookRequest.id (rv_row request);
          counterpart_phone donor e0)
    /\ counterpart_address donor e
       = (e0 ← contactExchanges (client w) !! BookRequest.id (rv_row request);
          counterpart_address donor e0)
    /\ ledger w' = ledger w
    /\ length (List.filter (fun e => String.eqb (Exchange.request_id e)
                                      (BookRequest.id (rv_row request)))
                 (exchanges w'))
       = Nat.max 1 (length (List.filter
                              (fun e => String.eqb (Exchange.request_id e)
                                          (BookRequest.id (rv_row request)))
                              (exchanges w))).
Proof.
  intros Hok Hphone Haddress Hin Happroved Hparty Hfresh w'.
  set (k := BookRequest.id (rv_row request)) in *.
  assert (Hstatus : BookRequest.status (rv_row request) = "approved")
    by (apply String.eqb_eq; exact Happroved).
  assert (Hu : BookRequest.requester_id (rv_row request) = User.id u
               \/ BookRequest.donor_id (rv_row request) = User.id u)
    by (destruct donor; auto).
  destruct (handleSubmit_succeeds env w u (exchange_props (client w) request donor)
              phone address Hok Hphone Haddress)
    as (w1 & Hrun & Hex & Hled & Hcache & _).
  assert (Hw : w' = w1) by (unfold w'; rewrite Hrun; reflexivity).
  rewrite <- Hw in Hex, Hled, Hcache. clear Hrun Hw w1.
  cbn [exchange_props ContactExchange.existingExchange ContactExchange.requestId
       ContactExchange.isDonor] in Hex.
  fold k in Hex.
  assert (Hseen : contactExchanges (client w') !! k
                  = last (List.filter (fun e => String.eqb (Exchange.request_id e) k)
                            (exchanges w'))).
  { rewrite Hcache. unfold k.
    apply (fetched_exchanges_lookup (db w') u _ (rv_row request)); auto.
    change (book_requests (db w')) with (ledger w'). rewrite Hled. exact Hin. }
  rewrite Hseen. rewrite Hex.
  destruct (contactExchanges (client w) !! k) as [e0 |] eqn:Hold.
  - rewrite filter_shared, last_map, <- Hfresh. cbn.
    exists (ContactExchange.updateData donor phone address e0).
    destruct (updateData_counterpart donor phone address e0)
      as (_ & _ & H3 & H4 & H5 & H6).
    split; [reflexivity |]. split; [reflexivity |].
    split; [exact H5 |]. split; [exact H6 |].
    split; [exact H3 |]. split; [exact H4 |]. split; [exact Hled |].
    rewrite length_map.
    destruct (List.filter _ (exchanges w)) as [| x l0]; [discriminate Hfresh |].
    cbn [length]. lia.
  - symmetry in Hfresh. apply last_None in Hfresh.
    rewrite List.filter_app, Hfresh. cbn.
    rewrite updateData_request_id. cbn. rewrite String.eqb_refl. cbn.
    eexists. split; [reflexivity |]. split; [reflexivity |].
    split; [destruct donor; reflexivity |].
    split; [destruct donor; reflexivity |].
    split; [destruct donor; reflexivity |].
    split; [destruct donor; reflexivity |]. split; [exact Hled | reflexivity].
Qed.

Lemma or_empty_truthy s :
  truthy s = true -> ContactExchange.or_empty (Some s) = s.
Proof. destruct s; [cbn; congruence | reflexivity]. Qed.

Lemma card_of_exchange w request (donor : bool) e :
  contactExchanges (client w) !! BookRequest.id (rv_row request) = Some e ->
  truthy_opt (party_phone donor e) = true ->
  card w request donor
  = ContactExchange.SharedPanel
      (match counterpart_phone donor e with
       | Some phone =>
           if truthy phone then Some (phone, counterpart_address donor e) else None
       | None => None
       end).
Proof.
  intros He Hown. unfold card, ContactExchange.render, ContactExchange.own_phone,
    ContactExchange.other_phone, ContactExchange.other_address, exchange_props.
  cbn. rewrite He. cbn.
  unfold party_phone, counterpart_phone, counterpart_address in *.
  destruct donor; rewrite Hown; reflexivity.
Qed.

(** X12: after a submission that passes the validation (phone and address
    non-empty once trimmed) and that the store accepts, by a party of an
    approved request whose cache was in step with the table, the card of
    that party is no longer the form but the confirmation, whether the
    submission went by insert or by update; its two inputs would start from
    the submitted values, and what it shows of the other party is what the
    cache held of the other party before. *)
Theorem shared_card_confirms env w u request (donor : bool) phone address :
  (forall n c, outcome env n c = Succeeds) ->
  truthy (trim phone) = true -> truthy (trim address) = true ->
  In (rv_row request) (ledger w) ->
  showsContactExchange request = true ->
  (if donor then BookRequest.donor_id (rv_row request)
   else BookRequest.requester_id (rv_row request)) = User.id u ->
  contactExchanges (client w) !! BookRequest.id (rv_row request)
  = last (List.filter (fun e => String.eqb (Exchange.request_id e)
                                  (BookRequest.id (rv_row request)))
            (exchanges w)) ->
  let w' := snd (ContactExchange.handleSubmit (Some u)
                   (exchange_props (client w) request donor)
                   (MyRequests.fetchRequests (Some u)) phone address env w) in
  card w' request donor
  = ContactExchange.SharedPanel
      (match ContactExchange.other_phone (exchange_props (client w) request donor)
       with
       | Some other =>
           if truthy other
           then Some (other, ContactExchange.other_address
                               (exchange_props (client w) request donor))
           else None
       | None => None
       end)
  /\ ContactExchange.initial_phone (exchange_props (client w') request donor)
     = phone
  /\ ContactExchange.initial_address (exchange_props (client w') request donor)
     = address.
Proof.
  intros Hok Hphone Haddress Hin Happroved Hparty Hfresh w'.
  destruct (submit_cache env w u request donor phone address Hok Hphone Haddress
              Hin Happroved Hparty Hfresh)
    as (e & Hcache & _ & Hp & Ha & Hop & Hoa & _ & _).
  fold w' in Hcache.
  assert (Htp : truthy phone = true) by (apply truthy_of_trim; exact Hphone).
  assert (Hta : truthy address = true) by (apply truthy_of_trim; exact Haddress).
  split; [| split].
  - rewrite (card_of_exchange w' request donor e Hcache)
      by (rewrite Hp; exact Htp).
    f_equal. rewrite Hop, Hoa.
    unfold ContactExchange.other_phone, ContactExchange.other_address,
      exchange_props, counterpart_phone, counterpart_address.
    cbn [ContactExchange.existingExchange ContactExchange.isDonor].
    destruct (contactExchanges (client w) !! BookRequest.id (rv_row request));
      reflexivity.
  - unfold ContactExchange.initial_phone, ContactExchange.own_phone, exchange_props.
    cbn [ContactExchange.existingExchange ContactExchange.isDonor].
    rewrite Hcache. cbn [mbind option_bind]. fold (party_phone donor e).
    rewrite Hp. apply or_empty_truthy. exact Htp.
  - unfold ContactExchange.initial_address, ContactExchange.own_address,
      exchange_props.
    cbn [ContactExchange.existingExchange ContactExchange.isDonor].
    rewrite Hcache. cbn [mbind option_bind]. fold (party_address donor e).
    rewrite Ha. apply or_empty_truthy. exact Hta.
Qed.

Lemma shared_card_confirms_witness :
  let w' := snd (ContactExchange.handleSubmit (Some bob)
                   (exchange_props (client approved_world)
                      (dune_view "req-1" "approved") false)
                   (MyRequests.fetchRequests (Some bob)) "555-0100" "12 Oak St"
                   env_ok approved_world) in
  card approved_world (dune_view "req-1" "approved") false
  = ContactExchange.ShareForm
  /\ card w' (dune_view "req-1" "approved") false
     = ContactExchange.SharedPanel None.
Proof.
  intros w'.
  destruct (shared_card_confirms env_ok approved_world bob
              (dune_view "req-1" "approved") false "555-0100" "12 Oak St"
              (fun _ _ => eq_refl) eq_refl eq_refl (or_introl eq_refl) eq_refl
              eq_refl eq_refl) as (Hcard & _).
  split; [reflexivity | exact Hcard].
Defined.

Lemma last_of_one {A} (l : list A) (x : A) :
  length l = 1 -> last l = Some x -> l = [x].
Proof.
  destruct l as [| y [| z l]]; cbn; try discriminate.
  intros _ H. injection H as ->. reflexivity.
Qed.

(** X13: the exchange of the scenario, for any request and any values that
    pass the validation (non-empty once trimmed).  The
    donor of an approved request without exchange shares first; the
    requester then opens the view, which fetches, and shares; the donor's
    view fetches again.  With a store that answers, the table then holds one
    record for the request with the four fields, the requester's card shows
    the donor's phone and address and the donor's card shows the
    requester's. *)
Theorem both_parties_see_each_other
  env w ud ur request pd ad pr ar (requester_client : Client) :
  (forall n c, outcome env n c = Succeeds) ->
  truthy (trim pd) = true -> truthy (trim ad) = true ->
  truthy (trim pr) = true -> truthy (trim ar) = true ->
  In (rv_row request) (ledger w) ->
  showsContactExchange request = true ->
  BookRequest.donor_id (rv_row request) = User.id ud ->
  BookRequest.requester_id (rv_row request) = User.id ur ->
  List.filter (fun e => String.eqb (Exchange.request_id e)
                          (BookRequest.id (rv_row request))) (exchanges w) = [] ->
  contactExchanges (client w) !! BookRequest.id (rv_row request) = None ->
  let w1 := snd (ContactExchange.handleSubmit (Some ud)
                   (exchange_props (client w) request true)
                   (MyRequests.fetchRequests (Some ud)) pd ad env w) in
  let w2 := snd (MyRequests.fetchRequests (Some ur) env
                   (in_browser requester_client w1)) in
  let w3 := snd (ContactExchange.handleSubmit (Some ur)
                   (exchange_props (client w2) request false)
                   (MyRequests.fetchRequests (Some ur)) pr ar env w2) in
  let w4 := snd (MyRequests.fetchRequests (Some ud) env
                   (in_browser (client w1) w3)) in
  card w3 request false = ContactExchange.SharedPanel (Some (pd, Some ad))
  /\ card w4 request true = ContactExchange.SharedPanel (Some (pr, Some ar))
  /\ exists e,
       List.filter (fun e => String.eqb (Exchange.request_id e)
                               (BookRequest.id (rv_row request))) (exchanges w3)
       = [e]
       /\ Exchange.donor_phone e = Some pd /\ Exchange.donor_address e = Some ad
       /\ Exchange.requester_phone e = Some pr
       /\ Exchange.requester_address e = Some ar.
Proof.
  intros Hok Hpd Had Hpr Har Hin Happroved Hdonor Hrequester Hnone Hcache
    w1 w2 w3 w4.
  set (k := BookRequest.id (rv_row request)) in *.
  assert (Hstatus : BookRequest.status (rv_row request) = "approved")
    by (apply String.eqb_eq; exact Happroved).
  (* the donor shares *)
  destruct (submit_cache env w ud request true pd ad Hok Hpd Had Hin Happroved
              Hdonor) as (e1 & _ & Hlast1 & Hp1 & Ha1 & Hop1 & Hoa1 & Hled1 & Hlen1).
  { fold k. rewrite Hcache, Hnone. reflexivity. }
  fold w1 k in Hlast1, Hled1, Hlen1. fold k in Hop1, Hoa1.
  rewrite Hcache in Hop1, Hoa1. rewrite Hnone in Hlen1. cbn in Hop1, Hoa1, Hlen1.
  (* the requester opens the view *)
  assert (Hdb2 : db w2 = db w1)
    by (apply (keeps_db_fetchRequests (Some ur) env (in_browser requester_client w1))).
  assert (Hcache2 : contactExchanges (client w2) !! k = Some e1).
  { assert (Hin1 : In (rv_row request) (ledger (in_browser requester_client w1))).
    { change (ledger (in_browser requester_client w1)) with (ledger w1).
      rewrite Hled1. exact Hin. }
    unfold w2, k.
    rewrite (fetch_cache_lookup env (in_browser requester_client w1) ur
               (rv_row request) Hok Hin1 Hstatus (or_introl Hrequester)).
    exact Hlast1. }
  (* the requester shares *)
  destruct (submit_cache env w2 ur request false pr ar Hok Hpr Har) as
    (e2 & Hcache3 & Hlast3 & Hp3 & Ha3 & Hop3 & Hoa3 & Hled3 & Hlen3);
    try assumption.
  { unfold ledger. rewrite Hdb2. change (In (rv_row request) (ledger w1)).
    rewrite Hled1. exact Hin. }
  { fold k. unfold exchanges. rewrite Hdb2, Hcache2. symmetry. exact Hlast1. }
  fold w3 k in Hcache3, Hlast3, Hled3, Hlen3. fold k in Hop3, Hoa3.
  rewrite Hcache2 in Hop3, Hoa3. cbn in Hop3, Hoa3, Hp1, Ha1, Hp3, Ha3, Hop1, Hoa1.
  unfold exchanges in Hlen3. rewrite Hdb2 in Hlen3.
  change (contact_exchanges (db w1)) with (exchanges w1) in Hlen3.
  change (contact_exchanges (db w3)) with (exchanges w3) in Hlen3.
  rewrite Hlen1 in Hlen3. cbn in Hlen3.
  assert (Htpd : truthy pd = true) by (apply truthy_of_trim; exact Hpd).
  assert (Htpr : truthy pr = true) by (apply truthy_of_trim; exact Hpr).
  split; [| split].
  - rewrite (card_of_exchange w3 request false e2 Hcache3)
      by (cbn; rewrite Hp3; exact Htpr).
    cbn. rewrite Hop3, Hoa3, Hp1, Ha1, Htpd. reflexivity.
  - assert (Hcache4 : contactExchanges (client w4) !! k = Some e2).
    { assert (Hin3 : In (rv_row request) (ledger (in_browser (client w1) w3))).
      { change (ledger (in_browser (client w1) w3)) with (ledger w3).
        rewrite Hled3. unfold ledger. rewrite Hdb2.
        change (In (rv_row request) (ledger w1)). rewrite Hled1. exact Hin. }
      unfold w4, k.
      rewrite (fetch_cache_lookup env (in_browser (client w1) w3) ud
                 (rv_row request) Hok Hin3 Hstatus (or_intror Hdonor)).
      exact Hlast3. }
    rewrite (card_of_exchange w4 request true e2 Hcache4)
      by (cbn; rewrite Hop3, Hp1; exact Htpd).
    cbn. rewrite Hp3, Ha3, Htpr. reflexivity.
  - exists e2. split; [apply last_of_one; assumption |].
    rewrite <- Hop3 in Hp1. rewrite <- Hoa3 in Ha1. auto.
Qed.

Lemma both_parties_see_each_other_witness :
  let w1 := snd (ContactExchange.handleSubmit (Some alice)
                   (exchange_props (client approved_world)
                      (dune_view "req-1" "approved") true)
                   (MyRequests.fetchRequests (Some alice))
                   "555-0200" "9 Elm Ave" env_ok approved_world) in
  let w2 := snd (MyRequests.fetchRequests (Some bob) env_ok
                   (in_browser no_client w1)) in
  let w3 := snd (ContactExchange.handleSubmit (Some bob)
                   (exchange_props (client w2) (dune_view "req-1" "approved") false)
                   (MyRequests.fetchRequests (Some bob))
                   "555-0100" "12 Oak St" env_ok w2) in
  card w3 (dune_view "req-1" "approved") false
  = ContactExchange.SharedPanel (Some ("555-0200", Some "9 Elm Ave"))
  /\ List.map Exchange.requester_phone (exchanges w3) = [Some "555-0100"].
Proof.
  intros w1 w2 w3.
  destruct (both_parties_see_each_other env_ok approved_world alice bob
              (dune_view "req-1" "approved") "555-0200" "9 Elm Ave"
              "555-0100" "12 Oak St" no_client
              (fun _ _ => eq_refl) eq_refl eq_refl eq_refl eq_refl
              (or_introl eq_refl) eq_refl eq_refl eq_refl eq_refl eq_refl)
    as (Hcard & _).
  split; [exact Hcard | reflexivity].
Defined.

(** ** The view after a response *)

Lemma requests_of_rows column s u v :
  In v (requests_of column s u) ->
  In (rv_row v) (book_requests s) /\ column (rv_row v) = User.id u.
Proof.
  intros Hv. unfold requests_of in Hv.
  apply in_map_iff in Hv. destruct Hv as (r & <- & Hr).
  apply order_desc_In, filter_In in Hr. destruct Hr as [Hin Hcol].
  split; [exact Hin | apply String.eqb_eq; exact Hcol].
Qed.

Lemma base_fetchRequests_lists env w u :
  outcome env (calls w) (CallSelect "book_requests") = Succeeds ->
  outcome env (S (calls w)) (CallSelect "book_requests") = Succeeds ->
  let w' := snd (MyRequestsBase.fetchRequests (Some u) env w) in
  sentRequests (client w') = requests_of BookRequest.requester_id (db w) u
  /\ receivedRequests (client w') = requests_of BookRequest.donor_id (db w) u
  /\ db w' = db w.
Proof.
  intros H1 H2.
  unfold MyRequestsBase.fetchRequests, try_finally, try_catch, bind.
  rewrite select_requests_run, H1. cbn.
  rewrite select_requests_run. cbn. rewrite H2. cbn.
  repeat split; reflexivity.
Qed.

Lemma answered_gates requestId d stamp l v :
  (forall x, BookRequest.status (stamp x) = BookRequest.status x) ->
  (forall x, BookRequest.id (stamp x) = BookRequest.id x) ->
  In (rv_row v) (answered requestId d stamp l) ->
  BookRequest.id (rv_row v) = requestId ->
  BookRequest.status (rv_row v) = decision_string d
  /\ showsRespondButtons v = false
  /\ showsContactExchange v = match d with approved => true | rejected => false end.
Proof.
  intros Hstatus Hid Hin Heq.
  unfold showsRespondButtons, showsContactExchange.
  rewrite (answered_status requestId d stamp l (rv_row v) Hstatus Hin Heq Hid).
  destruct d; repeat split; reflexivity.
Qed.

(** The run of a response that the store accepts: it completes, and the
    lists it leaves are those of a fetch of the store it leaves. *)
Lemma response_lists env w u requestId d requesterId bookTitle :
  (forall n c, outcome env n c = Succeeds) ->
  has (processingRequests (client w)) requestId = false ->
  exists w',
    MyRequests.handleRequestResponse (Some u) requestId d requesterId bookTitle
      env w = (Normal tt, w')
    /\ sentRequests (client w') = requests_of BookRequest.requester_id (db w') u
    /\ receivedRequests (client w') = requests_of BookRequest.donor_id (db w') u.
Proof.
  intros Hok Hfree.
  unfold MyRequests.handleRequestResponse.
  unfold bind at 1, get at 1. cbn beta iota. rewrite Hfree.
  unfold try_finally, try_catch, bind, ask, setProcessingRequests, modify.
  rewrite pg_update_run. cbn. rewrite Hok. cbn.
  rewrite createNotification_same, createNotification_run. cbn. rewrite Hok.
  rewrite createNotification_run. cbn. rewrite Hok. cbn.
  unfold not_awaited.
  match goal with
  | |- context [MyRequests.fetchRequests (Some u) env ?w1] =>
      destruct (fetchRequests_succeeds env w1 u Hok)
        as (w' & Hrun & Hdb & _ & _ & Hsent & Hreceived & _); rewrite Hrun
  end.
  eexists. split; [reflexivity |]. cbn. rewrite Hdb. split; assumption.
Qed.

Lemma base_response_lists env w u requestId d requesterId bookTitle :
  (forall n c, outcome env n c = Succeeds) ->
  exists w',
    MyRequestsBase.handleRequestResponse (Some u) requestId d requesterId
      bookTitle env w = (Normal tt, w')
    /\ sentRequests (client w') = requests_of BookRequest.requester_id (db w') u
    /\ receivedRequests (client w') = requests_of BookRequest.donor_id (db w') u.
Proof.
  intros Hok.
  unfold MyRequestsBase.handleRequestResponse, try_catch, bind.
  rewrite pg_update_run. cbn. rewrite Hok. cbn.
  rewrite pg_insert_run. cbn. rewrite Hok. cbn.
  unfold not_awaited.
  match goal with
  | |- context [MyRequestsBase.fetchRequests (Some u) env ?w1] =>
      destruct (base_fetchRequests_lists env w1 u (Hok _ _) (Hok _ _))
        as (Hsent & Hreceived & Hdb);
      destruct (MyRequestsBase.fetchRequests (Some u) env w1) as [c w'] eqn:Hrun
  end.
  cbn in *. eexists. split; [reflexivity |]. rewrite Hdb. split; assumption.
Qed.

(** X14: the view after a response is in step with the store.  When the
    store answers, the lists that are left once the fetch at the end of the
    handler has settled are the ones of the updated ledger: every received
    request with the id of the answered one carries the decision and has
    lost its two buttons, in both revisions.  In the later revision, whose
    view renders the contact card, that request shows the card exactly when
    the decision was to approve; the view of the earlier revision has no
    such card. *)
Theorem response_refreshes_view env w u requestId d requesterId bookTitle :
  (forall n c, outcome env n c = Succeeds) ->
  has (processingRequests (client w)) requestId = false ->
  let seen (w' : World) :=
    sentRequests (client w') = requests_of BookRequest.requester_id (db w') u
    /\ receivedRequests (client w') = requests_of BookRequest.donor_id (db w') u
    /\ (forall v, In v (receivedRequests (client w')) ->
                  BookRequest.id (rv_row v) = requestId ->
                  BookRequest.status (rv_row v) = decision_string d
                  /\ showsRespondButtons v = false) in
  let later := snd (MyRequests.handleRequestResponse (Some u) requestId d
                      requesterId bookTitle env w) in
  seen later
  /\ (forall v, In v (receivedRequests (client later)) ->
                BookRequest.id (rv_row v) = requestId ->
                showsContactExchange v
                = match d with approved => true | rejected => false end)
  /\ seen (snd (MyRequestsBase.handleRequestResponse (Some u) requestId d
                  requesterId bookTitle env w)).
Proof.
  intros Hok Hfree seen later.
  assert (Hgate : forall w' stamp,
             (forall x, BookRequest.status (stamp x) = BookRequest.status x) ->
             (forall x, BookRequest.id (stamp x) = BookRequest.id x) ->
             ledger w' = answered requestId d stamp (ledger w) ->
             receivedRequests (client w')
             = requests_of BookRequest.donor_id (db w') u ->
             forall v, In v (receivedRequests (client w')) ->
                       BookRequest.id (rv_row v) = requestId ->
                       BookRequest.status (rv_row v) = decision_string d
                       /\ showsRespondButtons v = false
                       /\ showsContactExchange v
                          = match d with approved => true | rejected => false end).
  { intros w' stamp Hstatus Hid Hledger Hreceived v Hv Heq.
    rewrite Hreceived in Hv.
    apply requests_of_rows in Hv. destruct Hv as [Hin _].
    apply (answered_gates requestId d stamp (ledger w)); auto.
    rewrite <- Hledger. exact Hin. }
  pose proof (response_ledger env w (Some u) requestId d requesterId bookTitle
                (Hok _ _) Hfree) as Hlater.
  pose proof (base_response_ledger env w (Some u) requestId d requesterId
                bookTitle (Hok _ _)) as Hbase.
  destruct (response_lists env w u requestId d requesterId bookTitle Hok Hfree)
    as (w1 & Hrun1 & Hsent1 & Hreceived1).
  destruct (base_response_lists env w u requestId d requesterId bookTitle Hok)
    as (w2 & Hrun2 & Hsent2 & Hreceived2).
  unfold later in *. rewrite Hrun1 in *. rewrite Hrun2 in *. cbn [snd] in *.
  split; [| split].
  - split; [exact Hsent1 | split; [exact Hreceived1 |]].
    intros v Hv Heq.
    destruct (Hgate w1 (BookRequest.with_updated_at (client_now env))
                (fun _ => eq_refl) (fun _ => eq_refl) Hlater Hreceived1 v Hv Heq)
      as (Hs & Hb & _).
    split; assumption.
  - intros v Hv Heq.
    destruct (Hgate w1 (BookRequest.with_updated_at (client_now env))
                (fun _ => eq_refl) (fun _ => eq_refl) Hlater Hreceived1 v Hv Heq)
      as (_ & _ & Hc).
    exact Hc.
  - split; [exact Hsent2 | split; [exact Hreceived2 |]].
    intros v Hv Heq.
    destruct (Hgate w2 id (fun _ => eq_refl) (fun _ => eq_refl) Hbase
                Hreceived2 v Hv Heq) as (Hs & Hb & _).
    split; assumption.
Qed.

Lemma response_refreshes_view_witness :
  let w := world_of (store_of [dune_request "req-1" "pending"] [] []) in
  let w' := snd (MyRequests.handleRequestResponse (Some alice) "req-1" approved
                   "user-b" "Dune" env_ok w) in
  receivedRequests (client w') = requests_of BookRequest.donor_id (db w') alice
  /\ List.map showsRespondButtons (receivedRequests (client w')) = [false]
  /\ List.map showsContactExchange (receivedRequests (client w')) = [true].
Proof.
  intros w w'.
  destruct (response_refreshes_view env_ok w alice "req-1" approved "user-b"
              "Dune" (fun _ _ => eq_refl) eq_refl) as [(_ & Hreceived & _) _].
  split; [exact Hreceived | split; reflexivity].
Defined.

(** ** Submissions of contact details that write nothing *)

(** X15: a submission without a signed-in user, or with a phone or an address
    that is empty or made of white space only (the white space that
    [String.prototype.trim] strips, NO-BREAK SPACE and the other Unicode
    spaces included), is ignored altogether: no call to the store, no toast,
    no log, and the state of the view is what it was, whatever the callback
    is. *)
Theorem blank_submission_ignored env w user p onContactShared phone address :
  user = None \/ truthy (trim phone) = false \/ truthy (trim address) = false ->
  ContactExchange.handleSubmit user p onContactShared phone address env w
  = (Normal tt, w).
Proof.
  intros Hblank. unfold ContactExchange.handleSubmit.
  destruct user as [u |]; [| reflexivity].
  destruct Hblank as [Hu | [Hp | Ha]]; [discriminate | |].
  - rewrite Hp. reflexivity.
  - rewrite Ha, orb_true_r. reflexivity.
Qed.

Lemma blank_submission_ignored_witness :
  ContactExchange.handleSubmit (Some bob)
    (exchange_props (client approved_world) (dune_view "req-1" "approved") false)
    (MyRequests.fetchRequests (Some bob)) (nbsp ++ " ")%string "12 Oak St"
    env_ok approved_world
  = (Normal tt, approved_world).
Proof.
  apply blank_submission_ignored. right. left. reflexivity.
Defined.

(** The call that a valid submission makes: an update when the card was given
    an exchange, an insert otherwise. *)
Lemma submission_refused env w u p onContactShared phone address :
  truthy (trim phone) = true -> truthy (trim address) = true ->
  outcome env (calls w)
    (match ContactExchange.existingExchange p with
     | Some _ => CallUpdate "contact_exchanges"
     | None => CallInsert "contact_exchanges"
     end) <> Succeeds ->
  ContactExchange.handleSubmit (Some u) p onContactShared phone address env w
  = (Normal tt,
     snd (setSharing false env
            (add_toast ContactExchange.toast_share_failed
               (add_console "Error sharing contact:"
                  (tick (snd (setSharing true env w))))))).
Proof.
  intros Hp Ha Hrefused. unfold ContactExchange.handleSubmit.
  rewrite Hp, Ha. cbn [negb orb].
  unfold bind at 1, setSharing at 1, modify at 1. cbn beta iota.
  destruct (ContactExchange.existingExchange p) as [e0 |].
  - unfold try_finally, try_catch, bind at 1. unfold bind at 1.
    rewrite pg_update_run. cbn.
    destruct (outcome env (calls w) (CallUpdate "contact_exchanges"));
      [contradiction | reflexivity | reflexivity].
  - unfold try_finally, try_catch, bind at 1. unfold bind at 1.
    rewrite pg_insert_run. cbn.
    destruct (outcome env (calls w) (CallInsert "contact_exchanges"));
      [contradiction | reflexivity | reflexivity].
Qed.

(** X16: a valid submission (phone and address non-empty once trimmed) whose
    write the store does not accept, by an error or by a rejected promise,
    changes nothing: the store is what it
    was, the callback is not run (one call was made, the lists and the cache
    of the view are the same, so every card shows what it showed), one error
    is logged and shown, and the button is enabled again. *)
Theorem submission_failure_changes_nothing
  env w u p onContactShared phone address :
  truthy (trim phone) = true -> truthy (trim address) = true ->
  outcome env (calls w)
    (match ContactExchange.existingExchange p with
     | Some _ => CallUpdate "contact_exchanges"
     | None => CallInsert "contact_exchanges"
     end) <> Succeeds ->
  let res := ContactExchange.handleSubmit (Some u) p onContactShared phone
               address env w in
  fst res = Normal tt
  /\ db (snd res) = db w
  /\ calls (snd res) = S (calls w)
  /\ toasts (snd res) = toasts w ++ [ContactExchange.toast_share_failed]
  /\ console (snd res) = console w ++ ["Error sharing contact:"]
  /\ sharing (client (snd res)) = false
  /\ sentRequests (client (snd res)) = sentRequests (client w)
  /\ receivedRequests (client (snd res)) = receivedRequests (client w)
  /\ contactExchanges (client (snd res)) = contactExchanges (client w)
  /\ (forall request donor, card (snd res) request donor = card w request donor).
Proof.
  intros Hp Ha Hrefused res. subst res.
  rewrite (submission_refused env w u p onContactShared phone address Hp Ha
             Hrefused).
  cbn. repeat split; reflexivity.
Qed.

Lemma submission_failure_changes_nothing_witness :
  let res := ContactExchange.handleSubmit (Some bob)
               (exchange_props (client approved_world)
                  (dune_view "req-1" "approved") false)
               (MyRequests.fetchRequests (Some bob)) "555-0100" "12 Oak St"
               (env_failing_at 0) approved_world in
  exchanges (snd res) = [] /\ List.length (toasts (snd res)) = 1.
Proof.
  intros res.
  destruct (submission_failure_changes_nothing (env_failing_at 0) approved_world
              bob
              (exchange_props (client approved_world)
                 (dune_view "req-1" "approved") false)
              (MyRequests.fetchRequests (Some bob)) "555-0100" "12 Oak St"
              eq_refl eq_refl)
    as (_ & Hdb & _ & Htoasts & _).
  - cbn. discriminate.
  - fold res in Hdb, Htoasts. unfold exchanges. rewrite Hdb, Htoasts.
    split; reflexivity.
Defined.

(** ** From the catalogue to the donor's view *)

(** The run of a request that the store accepts, in the two revisions. *)
Lemma request_run env w u book :
  List.filter (is_pending_request (Book.id book) (User.id u))
    (book_requests (db w)) = [] ->
  (forall n c, outcome env n c = Succeeds) ->
  let request :=
    new_request (Book.id book) (User.id u) (Book.donorid book)
      (request_message book) (gen_id env (1 + calls w))
      (server_now env (1 + calls w)) in
  (exists w',
     BooksListBase.handleRequestBook (Some u) book env w = (Normal tt, w')
     /\ book_requests (db w') = book_requests (db w) ++ [request]
     /\ books (db w') = books (db w))
  /\ (has (requestingBooks (client w)) (Book.id book) = false ->
      exists w',
        BooksList.handleRequestBook (Some u) book env w = (Normal tt, w')
        /\ book_requests (db w') = book_requests (db w) ++ [request]
        /\ books (db w') = books (db w)).
Proof.
  intros Hnone Hok. cbv zeta. split.
  - unfold BooksListBase.handleRequestBook, try_catch, bind.
    rewrite select_existing_request_succeeds by apply Hok.
    rewrite Hnone. cbn [data pg_err].
    unfold insert_request.
    repeat (progress (rewrite ?pg_insert_run, ?Hok; cbn)).
    eexists. repeat split.
  - intros Hfree.
    unfold BooksList.handleRequestBook. unfold bind at 1, get at 1.
    cbn beta iota. rewrite Hfree.
    unfold try_finally, try_catch, bind, setRequestingBooks, modify.
    rewrite select_existing_request_succeeds by apply Hok.
    cbn. rewrite Hnone. cbn.
    unfold insert_request.
    repeat (progress (rewrite ?pg_insert_run, ?createNotification_run, ?Hok; cbn)).
    eexists. repeat split.
Qed.

(** X17: a request that was created reaches both views.  When the store
    answers, the request that [handleRequestBook] inserted is, after the next
    fetch, in the requester's list of sent requests and in the donor's list
    of received requests, joined with the title and the author the store
    holds for the book; the donor's view shows it with the two buttons and
    without contact card. *)
Theorem request_reaches_donor env w u v book b0 (donor_client : Client) :
  (forall n c, outcome env n c = Succeeds) ->
  List.filter (is_pending_request (Book.id book) (User.id u))
    (book_requests (db w)) = [] ->
  has (requestingBooks (client w)) (Book.id book) = false ->
  User.id v = Book.donorid book ->
  List.find (fun b => String.eqb (Book.id b) (Book.id book)) (books (db w))
  = Some b0 ->
  let request :=
    {| rv_row :=
         new_request (Book.id book) (User.id u) (Book.donorid book)
           (request_message book) (gen_id env (1 + calls w))
           (server_now env (1 + calls w));
       rv_books := Some {| bi_title := Book.title b0;
                           bi_author := Book.author b0 |} |} in
  let reaches (w1 : World) :=
    In request
      (sentRequests (client (snd (MyRequests.fetchRequests (Some u) env w1))))
    /\ In request
         (receivedRequests
            (client (snd (MyRequests.fetchRequests (Some v) env
                            (in_browser donor_client w1))))) in
  reaches (snd (BooksList.handleRequestBook (Some u) book env w))
  /\ reaches (snd (BooksListBase.handleRequestBook (Some u) book env w))
  /\ showsRespondButtons request = true
  /\ showsContactExchange request = false.
Proof.
  intros Hok Hnone Hfree Hdonor Hfind request reaches.
  assert (Hreach : forall w1,
             book_requests (db w1) = book_requests (db w) ++ [rv_row request] ->
             books (db w1) = books (db w) -> reaches w1).
  { intros w1 Hrows Hbooks.
    assert (Hjoin : join_books (db w1) (rv_row request) = request).
    { unfold join_books. rewrite Hbooks. cbn. rewrite Hfind. reflexivity. }
    assert (Hin : In (rv_row request) (book_requests (db w1))).
    { rewrite Hrows. apply in_or_app. right. left. reflexivity. }
    split.
    - destruct (fetchRequests_lists env w1 u (Hok _ _) (Hok _ _)) as [Hsent _].
      rewrite Hsent, <- Hjoin. apply requests_of_In; [exact Hin | reflexivity].
    - destruct (fetchRequests_lists env (in_browser donor_client w1) v
                  (Hok _ _) (Hok _ _)) as [_ Hreceived].
      rewrite Hreceived. cbn [in_browser db]. rewrite <- Hjoin.
      apply requests_of_In; [exact Hin | cbn; symmetry; exact Hdonor]. }
  destruct (request_run env w u book Hnone Hok) as [Hbase Hext].
  destruct Hbase as (wb & Hrunb & Hrowsb & Hbooksb).
  destruct (Hext Hfree) as (we & Hrune & Hrowse & Hbookse).
  rewrite Hrunb, Hrune. cbn [snd].
  split; [apply Hreach; assumption |].
  split; [apply Hreach; assumption |].
  split; reflexivity.
Qed.

Lemma request_reaches_donor_witness :
  let w := world_of {| books := [dune]; book_requests := [];
                       contact_exchanges := []; notifications := [] |} in
  let w1 := snd (BooksList.handleRequestBook (Some bob) dune env_ok w) in
  In {| rv_row :=
          new_request "book-1" "user-b" "user-a" (request_message dune)
            (gen_id env_ok 1) (server_now env_ok 1);
        rv_books := Some {| bi_title := "Dune"; bi_author := "Frank Herbert" |} |}
    (receivedRequests
       (client (snd (MyRequests.fetchRequests (Some alice) env_ok
                       (in_browser no_client w1))))).
Proof.
  intros w w1.
  destruct (request_reaches_donor env_ok w bob alice dune dune no_client
              (fun _ _ => eq_refl) eq_refl eq_refl eq_refl eq_refl)
    as ((_ & Hreceived) & _).
  exact Hreceived.
Defined.

(** * The catalogue *)

#[local] Arguments select_books : simpl never.
#[local] Arguments insert_book : simpl never.
#[local] Arguments delete_books : simpl never.
#[local] Arguments listed : simpl never.

(** ** The calls on [books] *)

Lemma select_books_run f st s :
  select_books f st s =
  match outcome (Setting.env st) (calls (Site.world s)) (CallSelect "books") with
  | Succeeds => (Returns (pg_ok (Some (listed f (Site.catalogue s)))), ticked s)
  | ReturnsError => (Returns (pg_err (PgError (CallSelect "books"))), ticked s)
  | Rejects => (Throws (StoreFailure (Rejected (CallSelect "books"))), ticked s)
  end.
Proof.
  unfold select_books, Ui.bind, Ui.lift, Ui.get, Ui.ret, store_call, ticked.
  destruct (outcome (Setting.env st) (calls (Site.world s)) (CallSelect "books"));
    reflexivity.
Qed.

Lemma insert_book_run mk st s :
  insert_book mk st s =
  match outcome (Setting.env st) (calls (Site.world s)) (CallInsert "books") with
  | Succeeds =>
      (Returns (pg_ok None),
       Ui.set_catalogue
         (Site.catalogue s
          ++ [mk (gen_id (Setting.env st) (calls (Site.world s)))
                 (server_now (Setting.env st) (calls (Site.world s)))])
         (ticked s))
  | ReturnsError => (Returns (pg_err (PgError (CallInsert "books"))), ticked s)
  | Rejects => (Throws (StoreFailure (Rejected (CallInsert "books"))), ticked s)
  end.
Proof.
  unfold insert_book, Ui.bind, Ui.lift, Ui.get, Ui.ask, Ui.ret, Ui.modify,
    store_call, ticked.
  destruct (outcome (Setting.env st) (calls (Site.world s)) (CallInsert "books"));
    reflexivity.
Qed.

(** [createNotification] of [DonateBooks] is the one of the other views, run
    on the site: it never throws. *)
Lemma donate_createNotification_run userId type title message st s :
  DonateBooks.createNotification userId type title message st s =
  (Returns tt,
   Ui.set_world
     (snd (BooksList.createNotification userId type title message
             (Setting.env st) (Site.world s))) s).
Proof.
  rewrite createNotification_run.
  unfold DonateBooks.createNotification, Ui.try_catch, Ui.bind, Ui.lift,
    Ui.console_error, Ui.ret, rpc_create_book_notification, bind, ask, get,
    store_call, console_error, modify, ret, push_notification.
  destruct (outcome (Setting.env st) (calls (Site.world s))
              (CallRpc "create_book_notification")); reflexivity.
Qed.

Lemma fetchMyBooks_same : DonateBooksBase.fetchMyBooks = DonateBooks.fetchMyBooks.
Proof. reflexivity. Qed.

Lemma fetchMyBooks_run u st s :
  DonateBooks.fetchMyBooks (Some u) st s =
  (Returns tt,
   match outcome (Setting.env st) (calls (Site.world s)) (CallSelect "books") with
   | Succeeds =>
       snd (Ui.setBooks (listed (donated_by u) (Site.catalogue s)) st (ticked s))
   | _ => logged "Error fetching my books:" (ticked s)
   end).
Proof.
  unfold DonateBooks.fetchMyBooks, Ui.try_catch, Ui.bind.
  rewrite select_books_run.
  destruct (outcome (Setting.env st) (calls (Site.world s)) (CallSelect "books"));
    reflexivity.
Qed.

(** ** Lists in the order of the store *)

Lemma listed_In f l r : In r (listed f l) <-> In r l /\ f r = true.
Proof. unfold listed. rewrite order_desc_In, filter_In. tauto. Qed.

Lemma listed_newest_first f l : newest_first BookRow.createdat (listed f l).
Proof. apply order_desc_sorted. Qed.

Lemma listed_Permutation f l : Permutation (listed f l) (List.filter f l).
Proof. apply order_desc_Permutation. Qed.

(** ** The donor's list *)

(** X18: [fetchMyBooks] is silent.  It never throws, never shows a toast and
    never writes to the store; it leaves the form and the loading flag
    alone.  When the select succeeds the list is replaced by the rows of the
    table that the user donated, no others, newest first; when it does not,
    the list stays as it was and the failure is only logged.  Without a user
    it does nothing.  The two revisions of the function are the same. *)
Theorem fetchMyBooks_silent st s user :
  let res := DonateBooks.fetchMyBooks user st s in
  DonateBooksBase.fetchMyBooks user st s = res
  /\ fst res = Returns tt
  /\ Site.catalogue (snd res) = Site.catalogue s
  /\ db (Site.world (snd res)) = db (Site.world s)
  /\ toasts (Site.world (snd res)) = toasts (Site.world s)
  /\ Page.loading (Site.page (snd res)) = Page.loading (Site.page s)
  /\ Page.showForm (Site.page (snd res)) = Page.showForm (Site.page s)
  /\ Page.formData (Site.page (snd res)) = Page.formData (Site.page s)
  /\ match user with
     | None => snd res = s
     | Some u =>
         match outcome (Setting.env st) (calls (Site.world s))
                 (CallSelect "books") with
         | Succeeds =>
             (forall r, In r (Page.books (Site.page (snd res)))
                        <-> In r (Site.catalogue s)
                            /\ Book.donorid (BookRow.book r) = User.id u)
             /\ newest_first BookRow.createdat (Page.books (Site.page (snd res)))
             /\ Permutation (Page.books (Site.page (snd res)))
                  (List.filter (donated_by u) (Site.catalogue s))
             /\ console (Site.world (snd res)) = console (Site.world s)
         | _ =>
             Page.books (Site.page (snd res)) = Page.books (Site.page s)
             /\ console (Site.world (snd res))
                = console (Site.world s) ++ ["Error fetching my books:"]
         end
     end.
Proof.
  intros res. subst res. split; [reflexivity |].
  destruct user as [u |]; [| cbn; repeat split; reflexivity].
  rewrite fetchMyBooks_run.
  destruct (outcome (Setting.env st) (calls (Site.world s)) (CallSelect "books"));
    cbn; do 7 (split; [reflexivity |]); [| split; reflexivity ..].
  split; [| split; [apply listed_newest_first
                   | split; [apply listed_Permutation | reflexivity]]].
  intros r. rewrite listed_In. unfold donated_by. rewrite String.eqb_eq. tauto.
Qed.

(** ** The listings *)

Lemma listing_run f label failed st s :
  Ui.try_finally
    (Ui.try_catch
       (Ui.bind (select_books f) (fun fetched =>
          Ui.bind (throw_if_pg_error fetched) (fun _ =>
            Ui.setBooks (default [] (data fetched)))))
       (fun _ => Ui.bind (Ui.console_error label) (fun _ => Ui.toast failed)))
    (Ui.setLoading false) st s
  = (Returns tt,
     snd (Ui.setLoading false st
            match outcome (Setting.env st) (calls (Site.world s))
                    (CallSelect "books") with
            | Succeeds => snd (Ui.setBooks (listed f (Site.catalogue s)) st (ticked s))
            | _ => toasted failed (logged label (ticked s))
            end)).
Proof.
  unfold Ui.try_finally, Ui.try_catch, Ui.bind.
  rewrite select_books_run.
  destruct (outcome (Setting.env st) (calls (Site.world s)) (CallSelect "books"));
    reflexivity.
Qed.

(** X19: the listings split the available books.  When the select succeeds,
    [fetchBooks] of the earlier revision shows the rows of the table whose
    status is [available]; the later [fetchBooks] shows those of them whose
    flag [is_free_to_read] is false and [fetchFreeBooks] those whose flag is
    true, so no row is in both, and a row whose flag is null is in neither.
    Each list is newest first and each view stops loading. *)
Theorem listings_split_the_available st s :
  outcome (Setting.env st) (calls (Site.world s)) (CallSelect "books") = Succeeds ->
  let page_after (m : Ui.t unit) := Site.page (snd (m st s)) in
  let all := Page.books (page_after BrowseBase.fetchBooks) in
  let lent := Page.books (page_after Browse.fetchBooks) in
  let free := Page.books (page_after FreeBooks.fetchFreeBooks) in
  (forall r, In r all <-> In r (Site.catalogue s)
                          /\ Book.status (BookRow.book r) = "available")
  /\ (forall r, In r lent <-> In r all /\ BookRow.is_free_to_read r = Some false)
  /\ (forall r, In r free <-> In r all /\ BookRow.is_free_to_read r = Some true)
  /\ (forall r, In r lent -> In r free -> False)
  /\ newest_first BookRow.createdat all
  /\ newest_first BookRow.createdat lent
  /\ newest_first BookRow.createdat free
  /\ Page.loading (page_after BrowseBase.fetchBooks) = false
  /\ Page.loading (page_after Browse.fetchBooks) = false
  /\ Page.loading (page_after FreeBooks.fetchFreeBooks) = false.
Proof.
  intros Hok page_after all lent free.
  assert (Hall : all = listed is_available (Site.catalogue s)).
  { unfold all, page_after, BrowseBase.fetchBooks.
    rewrite listing_run, Hok. reflexivity. }
  assert (Hlent : lent = listed (fun b => is_available b && free_to_read_is false b)
                           (Site.catalogue s)).
  { unfold lent, page_after, Browse.fetchBooks.
    rewrite listing_run, Hok. reflexivity. }
  assert (Hfree : free = listed (fun b => free_to_read_is true b && is_available b)
                           (Site.catalogue s)).
  { unfold free, page_after, FreeBooks.fetchFreeBooks.
    rewrite listing_run, Hok. reflexivity. }
  assert (Hflag : forall flag r,
             free_to_read_is flag r = true <-> BookRow.is_free_to_read r = Some flag).
  { intros flag r. unfold free_to_read_is.
    destruct (BookRow.is_free_to_read r) as [x |]; [| split; discriminate].
    destruct x, flag; cbn; split; congruence. }
  assert (Hlent_spec : forall r, In r lent <-> In r all
                                  /\ BookRow.is_free_to_read r = Some false).
  { intros r. rewrite Hlent, Hall, !listed_In, andb_true_iff, Hflag. tauto. }
  assert (Hfree_spec : forall r, In r free <-> In r all
                                  /\ BookRow.is_free_to_read r = Some true).
  { intros r. rewrite Hfree, Hall, !listed_In, andb_true_iff, Hflag. tauto. }
  split; [| split; [exact Hlent_spec | split; [exact Hfree_spec |]]].
  - intros r. rewrite Hall, listed_In. unfold is_available.
    rewrite String.eqb_eq. tauto.
  - split.
    { intros r Hl Hf. apply Hlent_spec in Hl. apply Hfree_spec in Hf.
      destruct Hl as [_ Hl]. destruct Hf as [_ Hf]. congruence. }
    rewrite Hall, Hlent, Hfree.
    repeat (split; [apply listed_newest_first |]).
    unfold page_after, BrowseBase.fetchBooks, Browse.fetchBooks,
      FreeBooks.fetchFreeBooks.
    rewrite !listing_run. repeat split; reflexivity.
Qed.

(** X20: a listing that cannot be loaded keeps what it showed.  When the
    select does not succeed, each of the three listings leaves its list as it
    was, logs the failure, shows its error toast and stops loading; the table
    is untouched. *)
Theorem listing_failure_keeps_list st s :
  outcome (Setting.env st) (calls (Site.world s)) (CallSelect "books") <> Succeeds ->
  let kept (m : Ui.t unit) (label : string) (failed : Toast) :=
    fst (m st s) = Returns tt
    /\ Page.books (Site.page (snd (m st s))) = Page.books (Site.page s)
    /\ Page.loading (Site.page (snd (m st s))) = false
    /\ Site.catalogue (snd (m st s)) = Site.catalogue s
    /\ db (Site.world (snd (m st s))) = db (Site.world s)
    /\ console (Site.world (snd (m st s))) = console (Site.world s) ++ [label]
    /\ toasts (Site.world (snd (m st s))) = toasts (Site.world s) ++ [failed] in
  kept BrowseBase.fetchBooks "Error fetching books:" toast_books_failed
  /\ kept Browse.fetchBooks "Error fetching books:" toast_books_failed
  /\ kept FreeBooks.fetchFreeBooks "Error fetching free books:"
       toast_free_books_failed.
Proof.
  intros Hfail kept. unfold kept, BrowseBase.fetchBooks, Browse.fetchBooks,
    FreeBooks.fetchFreeBooks.
  rewrite !listing_run.
  destruct (outcome (Setting.env st) (calls (Site.world s)) (CallSelect "books"));
    [contradiction | |]; cbn; repeat split; reflexivity.
Qed.

Lemma listings_split_the_available_witness :
  let s := site_of [row_of dune "2024-01-01" (Some false);
                    row_of dune "2024-01-02" (Some true);
                    row_of dune "2024-01-03" None] blank_page in
  In (row_of dune "2024-01-01" (Some false))
    (Page.books (Site.page (snd (Browse.fetchBooks setting_ok s))))
  /\ In (row_of dune "2024-01-02" (Some true))
       (Page.books (Site.page (snd (FreeBooks.fetchFreeBooks setting_ok s)))).
Proof.
  intros s.
  destruct (listings_split_the_available setting_ok s eq_refl)
    as (Hall & Hlent & Hfree & _).
  split.
  - apply Hlent. split; [| reflexivity].
    apply Hall. split; [left; reflexivity | reflexivity].
  - apply Hfree. split; [| reflexivity].
    apply Hall. split; [right; left; reflexivity | reflexivity].
Defined.

Lemma listing_failure_keeps_list_witness :
  let s := site_of [row_of dune "2024-01-01" (Some false)] blank_page in
  let st := setting_with (env_failing_at 0) (fun _ _ => Succeeds) in
  Page.books (Site.page (snd (Browse.fetchBooks st s))) = []
  /\ toasts (Site.world (snd (Browse.fetchBooks st s))) = [toast_books_failed].
Proof.
  intros s st.
  destruct (listing_failure_keeps_list st s) as (_ & Hkept & _).
  - cbn. discriminate.
  - destruct Hkept as (_ & Hbooks & _ & _ & _ & _ & Htoasts).
    split; [exact Hbooks | exact Htoasts].
Defined.

(** ** Donating a book *)

#[local] Arguments DonateBooks.fetchMyBooks : simpl never.
#[local] Arguments DonateBooksBase.fetchMyBooks : simpl never.
#[local] Arguments DonateBooks.createNotification : simpl never.

(** X21: the later revision validates before any call.  Without a signed-in
    user, or with an empty category or condition, [handleSubmit] only shows
    the toast [Missing Information]: no call to the store, nothing logged,
    and the form, the list and the loading flag are what they were.  The
    earlier revision has no such check and is silent without a user. *)
Theorem donation_needs_category_and_condition st s user :
  user = None
  \/ truthy (FormData.category (Page.formData (Site.page s))) = false
  \/ truthy (FormData.condition (Page.formData (Site.page s))) = false ->
  DonateBooks.handleSubmit user st s
  = (Returns tt, toasted toast_missing_information s)
  /\ DonateBooksBase.handleSubmit None st s = (Returns tt, s).
Proof.
  intros Hmissing. split; [| reflexivity].
  unfold DonateBooks.handleSubmit, Ui.bind, Ui.get.
  destruct user as [u |]; [| reflexivity].
  destruct Hmissing as [Hu | [Hc | Hc]]; [discriminate | |]; rewrite Hc.
  - reflexivity.
  - rewrite orb_true_r. reflexivity.
Qed.

Lemma donation_needs_category_and_condition_witness :
  DonateBooks.handleSubmit (Some alice) setting_ok
    (site_of [] (form_page {| FormData.title := "Dune";
                              FormData.author := "Frank Herbert";
                              FormData.description := EmptyString;
                              FormData.category := "adventure";
                              FormData.condition := EmptyString |}))
  = (Returns tt,
     toasted toast_missing_information
       (site_of [] (form_page {| FormData.title := "Dune";
                                 FormData.author := "Frank Herbert";
                                 FormData.description := EmptyString;
                                 FormData.category := "adventure";
                                 FormData.condition := EmptyString |}))).
Proof.
  apply donation_needs_category_and_condition. right. right. reflexivity.
Defined.

(** The run of a donation that the store accepts, in the two revisions. *)
Lemma donation_run st s u :
  (forall n c, outcome (Setting.env st) n c = Succeeds) ->
  let formData := Page.formData (Site.page s) in
  let finish (row : BookRow.t) (s1 : Site.t) :=
    snd (Ui.setLoading false st
           (snd (Ui.setBooks (listed (donated_by u) (Site.catalogue s ++ [row])) st
                   (ticked
                      (snd (Ui.setShowForm false st
                              (snd (Ui.setFormData empty_form st
                                      (toasted (toast_book_added
                                                  (FormData.title formData))
                                         s1))))))))) in
  let inserted (row : BookRow.t) :=
    Ui.set_catalogue (Site.catalogue s ++ [row])
      (ticked (snd (Ui.setLoading true st s))) in
  (truthy (FormData.category formData) = true ->
   truthy (FormData.condition formData) = true ->
   DonateBooks.handleSubmit (Some u) st s
   = (Returns tt,
      let row := donated st s u (Some (FormData.category formData))
                   (Some (FormData.condition formData)) in
      finish row
        (Ui.set_world
           (push_notification
              (new_notification (User.id u) "book_added" "Book Added Successfully"
                 (added_message (FormData.title formData))
                 (gen_id (Setting.env st) (1 + calls (Site.world s)))
                 (server_now (Setting.env st) (1 + calls (Site.world s))))
              (tick (Site.world (inserted row))))
           (inserted row))))
  /\ DonateBooksBase.handleSubmit (Some u) st s
     = (Returns tt,
        let row := donated st s u None None in finish row (inserted row)).
Proof.
  intros Hok formData finish inserted. split.
  - intros Hcat Hcond. unfold formData in Hcat, Hcond.
    unfold DonateBooks.handleSubmit. unfold Ui.bind at 1, Ui.get at 1.
    cbn beta iota. fold formData. unfold formData at 1 2. rewrite Hcat, Hcond.
    cbn [negb orb].
    unfold Ui.try_finally, Ui.try_catch, Ui.bind, Ui.ask, Ui.not_awaited,
      Ui.setLoading, Ui.modify.
    cbn beta iota. rewrite insert_book_run. cbn. rewrite Hok. cbn.
    rewrite donate_createNotification_run, createNotification_run. cbn.
    rewrite Hok. cbn.
    rewrite fetchMyBooks_run. cbn. rewrite Hok. reflexivity.
  - unfold DonateBooksBase.handleSubmit. unfold Ui.bind at 1, Ui.get at 1.
    cbn beta iota.
    unfold Ui.try_finally, Ui.try_catch, Ui.bind, Ui.ask, Ui.not_awaited,
      Ui.setLoading, Ui.modify.
    cbn beta iota. rewrite insert_book_run. cbn. rewrite Hok. cbn.
    rewrite fetchMyBooks_same, fetchMyBooks_run. cbn. rewrite Hok. reflexivity.
Qed.

(** X22: a donation that the store accepts is listed at once.  The table
    gains one row, built from the form: donated by the user and available
    (in the later revision, for a form with category and condition, with
    these two and with a notification [book_added] for the donor; in the
    earlier one whatever the form holds); the world of the
    other views holds the same books as the table; the form is emptied and
    closed, the button enabled again, and the donor's list, fetched again,
    contains the new row. *)
Theorem donation_listed st s u :
  (forall n c, outcome (Setting.env st) n c = Succeeds) ->
  let formData := Page.formData (Site.page s) in
  let listed_after (m : Ui.t unit) (row : BookRow.t)
        (notes : list Notification.t) :=
    fst (m st s) = Returns tt
    /\ Site.catalogue (snd (m st s)) = Site.catalogue s ++ [row]
    /\ coherent (snd (m st s))
    /\ notifications (db (Site.world (snd (m st s))))
       = notifications (db (Site.world s)) ++ notes
    /\ book_requests (db (Site.world (snd (m st s))))
       = book_requests (db (Site.world s))
    /\ toasts (Site.world (snd (m st s)))
       = toasts (Site.world s) ++ [toast_book_added (FormData.title formData)]
    /\ Page.formData (Site.page (snd (m st s))) = empty_form
    /\ Page.showForm (Site.page (snd (m st s))) = false
    /\ Page.loading (Site.page (snd (m st s))) = false
    /\ Page.books (Site.page (snd (m st s)))
       = listed (donated_by u) (Site.catalogue (snd (m st s)))
    /\ In row (Page.books (Site.page (snd (m st s))))
    /\ Book.donorid (BookRow.book row) = User.id u
    /\ Book.status (BookRow.book row) = "available"
    /\ Book.title (BookRow.book row) = FormData.title formData
    /\ Book.author (BookRow.book row) = FormData.author formData
    /\ Book.description (BookRow.book row) = FormData.description formData
    /\ BookRow.is_free_to_read row = BookRow.is_free_to_read (Setting.defaults st) in
  let later := donated st s u (Some (FormData.category formData))
                 (Some (FormData.condition formData)) in
  (truthy (FormData.category formData) = true ->
   truthy (FormData.condition formData) = true ->
   listed_after (DonateBooks.handleSubmit (Some u)) later
     [new_notification (User.id u) "book_added" "Book Added Successfully"
        (added_message (FormData.title formData))
        (gen_id (Setting.env st) (1 + calls (Site.world s)))
        (server_now (Setting.env st) (1 + calls (Site.world s)))])
  /\ Book.category (BookRow.book later) = FormData.category formData
  /\ Book.condition (BookRow.book later) = FormData.condition formData
  /\ listed_after (DonateBooksBase.handleSubmit (Some u))
       (donated st s u None None) [].
Proof.
  intros Hok formData listed_after later.
  destruct (donation_run st s u Hok) as [Hlater Hbase].
  assert (Hmine : forall row l,
             Book.donorid (BookRow.book row) = User.id u ->
             In row (listed (donated_by u) (l ++ [row]))).
  { intros row l Hrow. apply listed_In. split.
    - apply in_or_app. right. left. reflexivity.
    - unfold donated_by. apply String.eqb_eq. exact Hrow. }
  split; [| split; [reflexivity | split; [reflexivity |]]].
  - intros Hcat Hcond. unfold listed_after. rewrite (Hlater Hcat Hcond). cbn.
    do 10 (split; [reflexivity |]).
    split; [apply Hmine; reflexivity | repeat split; reflexivity].
  - unfold listed_after. rewrite Hbase. cbn.
    do 10 (split; [rewrite ?app_nil_r; reflexivity |]).
    split; [apply Hmine; reflexivity | repeat split; reflexivity].
Qed.

Lemma donation_listed_witness :
  let s := site_of [] (form_page dune_form) in
  let s' := snd (DonateBooks.handleSubmit (Some alice) setting_ok s) in
  List.map (fun r => Book.title (BookRow.book r)) (Site.catalogue s') = ["Dune"]
  /\ Page.books (Site.page s') = Site.catalogue s'
  /\ Page.formData (Site.page s') = empty_form
  /\ List.map Notification.type (notifications (db (Site.world s'))) = ["book_added"].
Proof.
  intros s s'.
  destruct (donation_listed setting_ok s alice (fun _ _ => eq_refl)) as [Hlater _].
  destruct (Hlater eq_refl eq_refl)
    as (_ & Hrows & _ & Hnotes & _ & _ & Hform & _ & _ & Hbooks & _).
  fold s' in Hrows, Hnotes, Hform, Hbooks.
  rewrite Hbooks, Hrows, Hnotes.
  split; [reflexivity | split; [reflexivity | split; [exact Hform | reflexivity]]].
Defined.

(** The run of a donation that the store does not accept. *)
Lemma donation_refused st s u :
  outcome (Setting.env st) (calls (Site.world s)) (CallInsert "books") <> Succeeds ->
  let refused :=
    (Returns tt,
     snd (Ui.setLoading false st
            (toasted toast_add_failed
               (logged "Error adding book:"
                  (ticked (snd (Ui.setLoading true st s))))))) in
  (truthy (FormData.category (Page.formData (Site.page s))) = true ->
   truthy (FormData.condition (Page.formData (Site.page s))) = true ->
   DonateBooks.handleSubmit (Some u) st s = refused)
  /\ DonateBooksBase.handleSubmit (Some u) st s = refused.
Proof.
  intros Hfail refused. unfold refused. split.
  - intros Hcat Hcond. unfold DonateBooks.handleSubmit. unfold Ui.bind at 1, Ui.get at 1.
    cbn beta iota. rewrite Hcat, Hcond. cbn [negb orb].
    unfold Ui.try_finally, Ui.try_catch, Ui.bind, Ui.ask, Ui.not_awaited,
      Ui.setLoading, Ui.modify.
    cbn beta iota. rewrite insert_book_run. cbn.
    destruct (outcome (Setting.env st) (calls (Site.world s)) (CallInsert "books"));
      [contradiction | reflexivity | reflexivity].
  - unfold DonateBooksBase.handleSubmit. unfold Ui.bind at 1, Ui.get at 1.
    cbn beta iota.
    unfold Ui.try_finally, Ui.try_catch, Ui.bind, Ui.ask, Ui.not_awaited,
      Ui.setLoading, Ui.modify.
    cbn beta iota. rewrite insert_book_run. cbn.
    destruct (outcome (Setting.env st) (calls (Site.world s)) (CallInsert "books"));
      [contradiction | reflexivity | reflexivity].
Qed.

(** X23: a donation that the store does not accept loses nothing.  When the
    insert does not succeed, by an error or by a rejected promise (in the
    later revision for a form that passes the validation), the table
    and the world are what they were, no notification is written, the form
    keeps its content and stays open, the list is not fetched again, one
    error is logged and shown and the button is enabled again; in both
    revisions. *)
Theorem donation_failure_keeps_form st s u :
  outcome (Setting.env st) (calls (Site.world s)) (CallInsert "books") <> Succeeds ->
  let kept (m : Ui.t unit) :=
    fst (m st s) = Returns tt
    /\ Site.catalogue (snd (m st s)) = Site.catalogue s
    /\ db (Site.world (snd (m st s))) = db (Site.world s)
    /\ calls (Site.world (snd (m st s))) = S (calls (Site.world s))
    /\ toasts (Site.world (snd (m st s)))
       = toasts (Site.world s) ++ [toast_add_failed]
    /\ console (Site.world (snd (m st s)))
       = console (Site.world s) ++ ["Error adding book:"]
    /\ Page.formData (Site.page (snd (m st s))) = Page.formData (Site.page s)
    /\ Page.showForm (Site.page (snd (m st s))) = Page.showForm (Site.page s)
    /\ Page.books (Site.page (snd (m st s))) = Page.books (Site.page s)
    /\ Page.loading (Site.page (snd (m st s))) = false in
  (truthy (FormData.category (Page.formData (Site.page s))) = true ->
   truthy (FormData.condition (Page.formData (Site.page s))) = true ->
   kept (DonateBooks.handleSubmit (Some u)))
  /\ kept (DonateBooksBase.handleSubmit (Some u)).
Proof.
  intros Hfail kept.
  destruct (donation_refused st s u Hfail) as [Hlater Hbase].
  unfold kept. split.
  - intros Hcat Hcond. rewrite (Hlater Hcat Hcond). cbn.
    repeat split; reflexivity.
  - rewrite Hbase. cbn. repeat split; reflexivity.
Qed.

Lemma donation_failure_keeps_form_witness :
  let s := site_of [] (form_page dune_form) in
  let st := setting_with (env_failing_at 0) (fun _ _ => Succeeds) in
  let s' := snd (DonateBooks.handleSubmit (Some alice) st s) in
  Site.catalogue s' = [] /\ Page.formData (Site.page s') = dune_form
  /\ toasts (Site.world s') = [toast_add_failed].
Proof.
  intros s st s'.
  destruct (donation_failure_keeps_form st s alice) as [Hkept _];
    [cbn; discriminate |].
  destruct (Hkept eq_refl eq_refl) as (_ & Hrows & _ & _ & Htoasts & _ & Hform & _).
  split; [exact Hrows | split; [exact Hform | exact Htoasts]].
Defined.

(** ** Removing a book *)

Lemma delete_books_run f st s :
  delete_books f st s =
  match Setting.delete_outcome st (calls (Site.world s)) "books" with
  | Succeeds =>
      (Returns None,
       Ui.set_catalogue (List.filter (fun b => negb (f b)) (Site.catalogue s))
         (ticked s))
  | ReturnsError => (Returns (Some (DeleteError "books")), ticked s)
  | Rejects => (Throws (DeleteRejected "books"), ticked s)
  end.
Proof. reflexivity. Qed.

(** The run of a removal that the store accepts. *)
Lemma deletion_run st s u bookId title :
  Setting.delete_outcome st (calls (Site.world s)) "books" = Succeeds ->
  let s1 :=
    Ui.set_catalogue
      (List.filter (fun b => negb (has_id bookId b)) (Site.catalogue s))
      (ticked s) in
  DonateBooks.handleDeleteBook (Some u) bookId title st s
  = (Returns tt,
     snd (DonateBooks.fetchMyBooks (Some u) st
            (toasted (toast_book_removed title)
               (snd (DonateBooks.createNotification (User.id u) "book_removed"
                       "Book Removed" (removed_message title) st s1)))))
  /\ DonateBooksBase.handleDeleteBook (Some u) bookId title st s
     = (Returns tt,
        snd (DonateBooks.fetchMyBooks (Some u) st
               (toasted (toast_book_removed title) s1))).
Proof.
  intros Hok s1. split.
  - unfold DonateBooks.handleDeleteBook, Ui.try_catch, Ui.bind, Ui.not_awaited.
    rewrite delete_books_run, Hok. cbn.
    repeat rewrite donate_createNotification_run. cbn.
    repeat rewrite fetchMyBooks_run. reflexivity.
  - unfold DonateBooksBase.handleDeleteBook, Ui.try_catch, Ui.bind,
      Ui.not_awaited.
    rewrite delete_books_run, Hok. cbn.
    rewrite fetchMyBooks_same. repeat rewrite fetchMyBooks_run. reflexivity.
Qed.

(** X24: a removal that the store accepts removes by id alone.  Every row
    with the id is gone from the table, whoever donated it, and the other
    rows are kept; the world of the other views holds the same books as the
    table, the requests are untouched, and [Book Removed] is shown.  The
    donor's list is then what a fetch gives: the rows of the user that are
    left, or, when that select fails, the list as it was, still showing the
    removed book, with nothing but a log.  In the later revision a
    notification [book_removed] is written when the procedure succeeds. *)
Theorem deletion_removes_book st s u bookId title :
  Setting.delete_outcome st (calls (Site.world s)) "books" = Succeeds ->
  let removed (m : Ui.t unit) (k : nat) (notes : list Notification.t) :=
    fst (m st s) = Returns tt
    /\ Site.catalogue (snd (m st s))
       = List.filter (fun b => negb (has_id bookId b)) (Site.catalogue s)
    /\ (forall r, In r (Site.catalogue (snd (m st s)))
                  <-> In r (Site.catalogue s)
                      /\ Book.id (BookRow.book r) <> bookId)
    /\ coherent (snd (m st s))
    /\ book_requests (db (Site.world (snd (m st s))))
       = book_requests (db (Site.world s))
    /\ notifications (db (Site.world (snd (m st s))))
       = notifications (db (Site.world s)) ++ notes
    /\ toasts (Site.world (snd (m st s)))
       = toasts (Site.world s) ++ [toast_book_removed title]
    /\ Page.books (Site.page (snd (m st s)))
       = match outcome (Setting.env st) (k + calls (Site.world s))
                 (CallSelect "books") with
         | Succeeds => listed (donated_by u) (Site.catalogue (snd (m st s)))
         | _ => Page.books (Site.page s)
         end
    /\ Page.loading (Site.page (snd (m st s))) = Page.loading (Site.page s)
    /\ Page.showForm (Site.page (snd (m st s))) = Page.showForm (Site.page s)
    /\ Page.formData (Site.page (snd (m st s))) = Page.formData (Site.page s) in
  removed (DonateBooks.handleDeleteBook (Some u) bookId title) 2
    match outcome (Setting.env st) (1 + calls (Site.world s))
            (CallRpc "create_book_notification") with
    | Succeeds =>
        [new_notification (User.id u) "book_removed" "Book Removed"
           (removed_message title)
           (gen_id (Setting.env st) (1 + calls (Site.world s)))
           (server_now (Setting.env st) (1 + calls (Site.world s)))]
    | _ => []
    end
  /\ removed (DonateBooksBase.handleDeleteBook (Some u) bookId title) 1 [].
Proof.
  intros Hok removed.
  assert (Hrows : forall r,
             In r (List.filter (fun b => negb (has_id bookId b)) (Site.catalogue s))
             <-> In r (Site.catalogue s) /\ Book.id (BookRow.book r) <> bookId).
  { intros r. rewrite filter_In, negb_true_iff. unfold has_id.
    rewrite String.eqb_neq. tauto. }
  destruct (deletion_run st s u bookId title Hok) as [Hlater Hbase].
  unfold removed. rewrite Hlater, Hbase. split.
  - rewrite donate_createNotification_run, createNotification_run,
      fetchMyBooks_run. cbn.
    destruct (outcome (Setting.env st) (S (calls (Site.world s)))
                (CallRpc "create_book_notification"));
      cbn;
      destruct (outcome (Setting.env st) (S (S (calls (Site.world s))))
                  (CallSelect "books"));
      cbn; rewrite ?app_nil_r;
      (split; [reflexivity | split; [reflexivity | split; [exact Hrows |]]]);
      repeat split; reflexivity.
  - rewrite fetchMyBooks_run. cbn.
    destruct (outcome (Setting.env st) (S (calls (Site.world s)))
                (CallSelect "books"));
      cbn; rewrite ?app_nil_r;
      (split; [reflexivity | split; [reflexivity | split; [exact Hrows |]]]);
      repeat split; reflexivity.
Qed.

(** The run of a removal that the store does not accept. *)
Lemma deletion_refused st s user bookId title :
  Setting.delete_outcome st (calls (Site.world s)) "books" <> Succeeds ->
  let refused :=
    (Returns tt,
     toasted toast_remove_failed (logged "Error deleting book:" (ticked s))) in
  DonateBooks.handleDeleteBook user bookId title st s = refused
  /\ DonateBooksBase.handleDeleteBook user bookId title st s = refused.
Proof.
  intros Hfail refused. unfold refused. split.
  - unfold DonateBooks.handleDeleteBook, Ui.try_catch, Ui.bind.
    rewrite delete_books_run.
    destruct (Setting.delete_outcome st (calls (Site.world s)) "books");
      [contradiction | reflexivity | reflexivity].
  - unfold DonateBooksBase.handleDeleteBook, Ui.try_catch, Ui.bind.
    rewrite delete_books_run.
    destruct (Setting.delete_outcome st (calls (Site.world s)) "books");
      [contradiction | reflexivity | reflexivity].
Qed.

(** X25: a removal that the store does not accept changes nothing.  When the
    delete does not succeed, by an error or by a rejected promise, the table,
    the world's store and the whole state of the view are what they were, no
    notification is written, the list is not fetched again, and one error is
    logged and shown; in both revisions and with or without a user. *)
Theorem deletion_failure_changes_nothing st s user bookId title :
  Setting.delete_outcome st (calls (Site.world s)) "books" <> Succeeds ->
  let kept (m : Ui.t unit) :=
    fst (m st s) = Returns tt
    /\ Site.catalogue (snd (m st s)) = Site.catalogue s
    /\ db (Site.world (snd (m st s))) = db (Site.world s)
    /\ Site.page (snd (m st s)) = Site.page s
    /\ calls (Site.world (snd (m st s))) = S (calls (Site.world s))
    /\ toasts (Site.world (snd (m st s)))
       = toasts (Site.world s) ++ [toast_remove_failed]
    /\ console (Site.world (snd (m st s)))
       = console (Site.world s) ++ ["Error deleting book:"] in
  kept (DonateBooks.handleDeleteBook user bookId title)
  /\ kept (DonateBooksBase.handleDeleteBook user bookId title).
Proof.
  intros Hfail kept.
  destruct (deletion_refused st s user bookId title Hfail) as [Hlater Hbase].
  unfold kept. rewrite Hlater, Hbase. cbn. repeat split; reflexivity.
Qed.

Lemma deletion_removes_book_witness :
  let s := site_of [row_of dune "2024-01-01" (Some false)] blank_page in
  let s' := snd (DonateBooks.handleDeleteBook (Some bob) "book-1" "Dune"
                   setting_ok s) in
  Site.catalogue s' = []
  /\ toasts (Site.world s') = [toast_book_removed "Dune"].
Proof.
  intros s s'.
  destruct (deletion_removes_book setting_ok s bob "book-1" "Dune" eq_refl)
    as ((_ & Hrows & _ & _ & _ & _ & Htoasts & _) & _).
  split; [exact Hrows | exact Htoasts].
Defined.

Lemma deletion_failure_changes_nothing_witness :
  let s := site_of [row_of dune "2024-01-01" (Some false)] blank_page in
  let st := setting_with env_ok (fun _ _ => Rejects) in
  let s' := snd (DonateBooks.handleDeleteBook (Some alice) "book-1" "Dune" st s) in
  Site.catalogue s' = Site.catalogue s
  /\ toasts (Site.world s') = [toast_remove_failed].
Proof.
  intros s st s'.
  destruct (deletion_failure_changes_nothing st s (Some alice) "book-1" "Dune")
    as [Hkept _]; [cbn; discriminate |].
  destruct Hkept as (_ & Hrows & _ & _ & _ & Htoasts & _).
  split; [exact Hrows | exact Htoasts].
Defined.

(** ** From the donation to the request *)

Lemma find_fresh_last (l : list Book.t) (b : Book.t) :
  (forall x, In x l -> Book.id x <> Book.id b) ->
  List.find (fun x => String.eqb (Book.id x) (Book.id b)) (l ++ [b]) = Some b.
Proof.
  intros Hfresh. induction l as [| x l IH]; cbn.
  - rewrite String.eqb_refl. reflexivity.
  - destruct (String.eqb_spec (Book.id x) (Book.id b)) as [Heq | _].
    + exfalso. apply (Hfresh x); [left; reflexivity | exact Heq].
    + apply IH. intros y Hy. apply Hfresh. right. exact Hy.
Qed.

(** X26: a donated book can be requested, and the request comes back to
    the donor.  With a store that answers and a table whose new rows are not
    free to read, the book a user donated is in the listing that any other
    browser fetches next; the listing offers the button [Request Book] to
    everyone but the donor; and the request that another user makes from
    that row is, after the donor's next fetch, among the donor's received
    requests, pending, with the title and the author that were typed into
    the form. *)
Theorem donated_book_can_be_requested
  st s u v (p : Page.t) (browser donor_client : Client) :
  (forall n c, outcome (Setting.env st) n c = Succeeds) ->
  truthy (FormData.category (Page.formData (Site.page s))) = true ->
  truthy (FormData.condition (Page.formData (Site.page s))) = true ->
  BookRow.is_free_to_read (Setting.defaults st) = Some false ->
  let formData := Page.formData (Site.page s) in
  let row := donated st s u (Some (FormData.category formData))
               (Some (FormData.condition formData)) in
  (forall r, In r (Site.catalogue s) ->
             Book.id (BookRow.book r) <> Book.id (BookRow.book row)) ->
  List.filter (is_pending_request (Book.id (BookRow.book row)) (User.id v))
    (book_requests (db (Site.world s))) = [] ->
  has (requestingBooks browser) (Book.id (BookRow.book row)) = false ->
  let s1 := snd (DonateBooks.handleSubmit (Some u) st s) in
  let s2 := snd (Browse.fetchBooks st (on_page p s1)) in
  let w3 := snd (BooksList.handleRequestBook (Some v) (BookRow.book row)
                   (Setting.env st) (in_browser browser (Site.world s2))) in
  let w4 := snd (MyRequests.fetchRequests (Some u) (Setting.env st)
                   (in_browser donor_client w3)) in
  In row (Page.books (Site.page s2))
  /\ showsRequestButton (Some v) (BookRow.book row)
     = negb (String.eqb (User.id v) (User.id u))
  /\ showsRequestButton (Some u) (BookRow.book row) = false
  /\ exists request,
       In request (receivedRequests (client w4))
       /\ BookRequest.book_id (rv_row request) = Book.id (BookRow.book row)
       /\ BookRequest.requester_id (rv_row request) = User.id v
       /\ BookRequest.donor_id (rv_row request) = User.id u
       /\ rv_books request = Some {| bi_title := FormData.title formData;
                                     bi_author := FormData.author formData |}
       /\ showsRespondButtons request = true.
Proof.
  intros Hok Hcat Hcond Hflag formData row Hfresh Hnone Hfree s1 s2 w3 w4.
  destruct (donation_run st s u Hok) as [Hrun _].
  specialize (Hrun Hcat Hcond).
  assert (Hs1 : Site.catalogue s1 = Site.catalogue s ++ [row]
                /\ books (db (Site.world s1))
                   = List.map BookRow.book (Site.catalogue s) ++ [BookRow.book row]
                /\ book_requests (db (Site.world s1))
                   = book_requests (db (Site.world s))).
  { unfold s1. rewrite Hrun. cbn. rewrite map_app. repeat split; reflexivity. }
  destruct Hs1 as (Hrows1 & Hbooks1 & Hledger1).
  assert (Hs2 : Page.books (Site.page s2)
                = listed (fun b => is_available b && free_to_read_is false b)
                    (Site.catalogue s1)
                /\ db (Site.world s2) = db (Site.world s1)).
  { unfold s2, Browse.fetchBooks. rewrite listing_run. cbn. rewrite Hok.
    split; reflexivity. }
  destruct Hs2 as (Hshown & Hdb2).
  split; [| split; [| split]].
  - rewrite Hshown, Hrows1. apply listed_In. split.
    + apply in_or_app. right. left. reflexivity.
    + unfold free_to_read_is. cbn. rewrite Hflag. reflexivity.
  - cbn. rewrite String.eqb_sym. reflexivity.
  - cbn. rewrite String.eqb_refl. reflexivity.
  - destruct (request_run (Setting.env st) (in_browser browser (Site.world s2)) v
                (BookRow.book row)) as [_ Hext].
    { cbn [in_browser db]. rewrite Hdb2, Hledger1. exact Hnone. }
    { exact Hok. }
    destruct (Hext Hfree) as (w' & Hrun3 & Hledger3 & Hbooks3).
    fold w3 in Hrun3. 
    assert (Hw3 : w3 = w') by (unfold w3; rewrite Hrun3; reflexivity).
    destruct (fetchRequests_lists (Setting.env st) (in_browser donor_client w3) u
                (Hok _ _) (Hok _ _)) as [_ Hreceived].
    fold w4 in Hreceived. cbn [in_browser db] in Hreceived.
    match type of Hledger3 with _ = _ ++ [?r] => set (request := r) in * end.
    exists (join_books (db w3) request). split.
    + rewrite Hreceived. apply requests_of_In.
      * rewrite Hw3, Hledger3. apply in_or_app. right. left. reflexivity.
      * reflexivity.
    + split; [reflexivity | split; [reflexivity | split; [reflexivity |]]].
      split; [| reflexivity].
      unfold join_books. rewrite Hw3, Hbooks3. cbn [in_browser db].
      rewrite Hdb2, Hbooks1. cbn [rv_books request new_request BookRequest.book_id].
      rewrite find_fresh_last; [reflexivity |].
      intros x Hx. apply in_map_iff in Hx. destruct Hx as (r & <- & Hr).
      apply Hfresh. exact Hr.
Qed.

Lemma donated_book_can_be_requested_witness :
  let s := site_of [] (form_page dune_form) in
  let s1 := snd (DonateBooks.handleSubmit (Some alice) setting_ok s) in
  let s2 := snd (Browse.fetchBooks setting_ok (on_page blank_page s1)) in
  let row := donated setting_ok s alice (Some "adventure") (Some "good") in
  let w3 := snd (BooksList.handleRequestBook (Some bob) (BookRow.book row)
                   env_ok (in_browser no_client (Site.world s2))) in
  let w4 := snd (MyRequests.fetchRequests (Some alice) env_ok
                   (in_browser no_client w3)) in
  In row (Page.books (Site.page s2))
  /\ showsRequestButton (Some bob) (BookRow.book row) = true
  /\ List.map rv_books (receivedRequests (client w4))
     = [Some {| bi_title := "Dune"; bi_author := "Frank Herbert" |}].
Proof.
  intros s s1 s2 row w3 w4.
  destruct (donated_book_can_be_requested setting_ok s alice bob blank_page
              no_client no_client (fun _ _ => eq_refl) eq_refl eq_refl eq_refl
              (fun r (H : In r []) => match H with end) eq_refl eq_refl)
    as (Hshown & Hbutton & _ & _).
  split; [exact Hshown | split; [exact Hbutton | reflexivity]].
Defined.
